(** * CostGuardian: the deletion-log export engine

    A shallow embedding of [frontend/components/log-downloader.tsx]: the
    discovery of month buckets, the two range filters, the three breakdowns
    and the two export documents, followed by the properties the
    specification states about them.

    The component is TypeScript running on a JavaScript engine, so the first
    part of the file models the pieces of the language runtime the component
    calls: strings ([split], [padStart], [parseInt]), numbers (IEEE doubles,
    [ToBoolean], [toFixed]), dates (the day and year arithmetic of the
    language standard, the [Date] constructor, [toISOString]), objects used
    as maps ([Object.entries] and its key order) and [Array.prototype.sort]
    without a comparator.

    Conventions.
    - A JavaScript number that holds money is a [float] (binary64); a count
      or an array length is a [nat]; a date field or a time value is a [Z].
    - A time value is the number of milliseconds since the epoch. An event's
      [deleted_at] is kept as the time value [new Date(resource.deleted_at)]
      yields: the specification requires the text to parse, and what the
      component does with an unparseable text is outside this model.
    - The offset of local time from UTC is the engine's [LocalTZA], which
      may change from one instant to another (daylight saving). What is
      proved of an engine that keeps one offset says so, with the
      hypothesis [fixed_offset].
    - Strings are byte strings; the component's keys are ASCII. *)

From Stdlib Require Import ZArith NArith List String Ascii Bool Lia.
From Stdlib Require Import Floats DecimalString DecimalN.
From Stdlib Require Import Sorting.Sorted Permutation.
Import ListNotations.

Open Scope string_scope.
Open Scope Z_scope.

(* Amounts such as 32.40 have no exact binary64 value; the nearest one is
   meant, as in the component. *)
Set Warnings "-inexact-float".

(* ================================================================== *)
(** * Part I: definitions *)
(* ================================================================== *)

(** ** Strings *)

Module JSString.

Definition is_digit (c : ascii) : bool :=
  let n := nat_of_ascii c in ((48 <=? n) && (n <=? 57))%nat.

(** White space that [parseInt] skips (the ASCII part of it). *)
Definition is_space (c : ascii) : bool :=
  let n := nat_of_ascii c in ((n =? 32) || ((9 <=? n) && (n <=? 13)))%nat.

(** [String(n)] for an integer-valued number [n] below 1e21 in size. *)
Definition Number_toString (n : Z) : string :=
  if n <? 0
  then String "-" (NilZero.string_of_uint (N.to_uint (Z.to_N (- n))))
  else NilZero.string_of_uint (N.to_uint (Z.to_N n)).

Fixpoint repeat_char (n : nat) (c : ascii) : string :=
  match n with
  | O => EmptyString
  | S k => String c (repeat_char k c)
  end.

(** [s.padStart(targetLength, c)] for a one-character filler. *)
Definition padStart (s : string) (targetLength : nat) (c : ascii) : string :=
  repeat_char (targetLength - String.length s) c ++ s.

(** [s.split(sep)] for a one-character separator. *)
Fixpoint split (sep : ascii) (s : string) : list string :=
  match s with
  | EmptyString => [EmptyString]
  | String c r =>
      if Ascii.eqb c sep then EmptyString :: split sep r
      else match split sep r with
           | h :: t => String c h :: t
           | [] => [String c EmptyString]
           end
  end.

Fixpoint trim_start (s : string) : string :=
  match s with
  | String c r => if is_space c then trim_start r else s
  | EmptyString => s
  end.

Fixpoint take_while (p : ascii -> bool) (s : string) : string :=
  match s with
  | String c r => if p c then String c (take_while p r) else EmptyString
  | EmptyString => EmptyString
  end.

Definition hex_value (c : ascii) : option Z :=
  let n := Z.of_nat (nat_of_ascii c) in
  if (48 <=? n) && (n <=? 57) then Some (n - 48)
  else if (97 <=? n) && (n <=? 102) then Some (n - 87)
  else if (65 <=? n) && (n <=? 70) then Some (n - 55)
  else None.

Fixpoint hex_digits (s : string) (acc : Z) (seen : bool) : option Z :=
  match s with
  | String c r =>
      match hex_value c with
      | Some v => hex_digits r (16 * acc + v) true
      | None => if seen then Some acc else None
      end
  | EmptyString => if seen then Some acc else None
  end.

(** The longest prefix of decimal digits, read as a number; [None] is NaN. *)
Definition decimal_digits (s : string) : option Z :=
  match take_while is_digit s with
  | EmptyString => None
  | ds =>
      option_map (fun d => Z.of_N (N.of_uint d)) (NilEmpty.uint_of_string ds)
  end.

Definition unsigned_digits (s : string) : option Z :=
  match s with
  | String c1 (String c2 r) =>
      if Ascii.eqb c1 "0" && (Ascii.eqb c2 "x" || Ascii.eqb c2 "X")
      then hex_digits r 0 false
      else decimal_digits s
  | _ => decimal_digits s
  end.

(** [parseInt(s)]: leading white space, a sign, a [0x] prefix or decimal
    digits, and anything after the digits ignored; [None] is NaN. *)
Definition parseInt (s : string) : option Z :=
  match trim_start s with
  | String c r =>
      if Ascii.eqb c "-" then option_map Z.opp (unsigned_digits r)
      else if Ascii.eqb c "+" then unsigned_digits r
      else unsigned_digits (String c r)
  | EmptyString => None
  end.

(** A template literal prints an undefined value as the word. *)
Definition template (o : option string) : string :=
  match o with
  | Some s => s
  | None => "undefined"
  end.

(** [parseInt(x)] where [x] may be undefined: the word is not a number. *)
Definition parseInt_opt (o : option string) : option Z :=
  parseInt (template o).

End JSString.

(** ** The order of strings *)

Module StringOrder.

(** [a] comes before [b] by code units, the order of a comparison of
    strings with [<] and of a sort without a comparator. *)
Definition text_lt (a b : string) : Prop := String.compare a b = Lt.

(** Every character of the string satisfies [p]. *)
Fixpoint all_chars (p : ascii -> bool) (s : string) : bool :=
  match s with
  | EmptyString => true
  | String c r => p c && all_chars p r
  end.

(** The characters after the comma in the order of code units. *)
Definition above_comma (c : ascii) : bool := (44 <? nat_of_ascii c)%nat.

(** The characters of a month key: digits and the dash. *)
Definition key_char (c : ascii) : bool :=
  JSString.is_digit c || Ascii.eqb c "-".

(** The characters a day key may start with: those, and the plus sign of
    a year beyond 9999. *)
Definition iso_char (c : ascii) : bool := key_char c || Ascii.eqb c "+".

(** A key of the month or the day breakdown: a first character, and only
    digits and dashes after it. *)
Definition numeric_key (k : string) : bool :=
  match k with
  | String c r => iso_char c && all_chars key_char r
  | EmptyString => false
  end.

End StringOrder.

(** ** Numbers *)

Module JSNumber.

Import JSString.

Definition NaN : float := PrimFloat.nan.

(** [ToBoolean] of a number: zero (of either sign) and NaN are falsy. *)
Definition ToBoolean (x : float) : bool :=
  negb (PrimFloat.eqb x 0 || negb (PrimFloat.eqb x x)).

(** [x || y] on numbers. *)
Definition or (x y : float) : float := if ToBoolean x then x else y.

(** [x || y] where [x] is a field that may be missing. *)
Definition or_field (x : option float) (y : float) : float :=
  match x with
  | Some v => or v y
  | None => y
  end.

(** [x * k] where [x] is a field that may be missing: undefined is NaN. *)
Definition mul_field (x : option float) (k : float) : float :=
  match x with
  | Some v => PrimFloat.mul v k
  | None => NaN
  end.

(** The integer [n] for which [n / 10^f - m * 2^e] is as close to zero as
    possible, the larger one on a tie. *)
Definition nearest_scaled (f : nat) (m : positive) (e : Z) : Z :=
  let scaled := Z.pos m * 10 ^ Z.of_nat f in
  if 0 <=? e then scaled * 2 ^ e
  else (2 * scaled + 2 ^ (- e)) / (2 * 2 ^ (- e)).

(** The digits of [n] with a point before the last [f] of them. *)
Definition place_point (f : nat) (n : Z) : string :=
  let m := Number_toString n in
  if (f =? 0)%nat then m
  else
    let m := padStart m (S f) "0" in
    let k := String.length m in
    substring 0 (k - f) m ++ "." ++ substring (k - f) f m.

Definition at_least_1e21 (m : positive) (e : Z) : bool :=
  (0 <=? e) && (10 ^ 21 <=? Z.pos m * 2 ^ e).

(** [x.toFixed(f)]. A finite value of 1e21 or more is printed by the
    engine's general number printer [large], which the caller supplies. *)
Definition toFixed (large : float -> string) (x : float) (f : nat) : string :=
  match Prim2SF x with
  | S754_nan => "NaN"
  | S754_infinity false => "Infinity"
  | S754_infinity true => "-Infinity"
  | S754_zero _ => place_point f 0
  | S754_finite s m e =>
      if at_least_1e21 m e then large x
      else (if s then "-" else "") ++ place_point f (nearest_scaled f m e)
  end.

End JSNumber.

(** ** Dates *)

Module JSDate.

Import JSString.

Definition msPerDay : Z := 86400000.
Definition msPerHour : Z := 3600000.
Definition msPerMinute : Z := 60000.
Definition msPerSecond : Z := 1000.

Definition Day (t : Z) : Z := t / msPerDay.
Definition TimeWithinDay (t : Z) : Z := t mod msPerDay.

Definition leap (y : Z) : bool :=
  (y mod 4 =? 0) && (negb (y mod 100 =? 0) || (y mod 400 =? 0)).

Definition DaysInYear (y : Z) : Z := if leap y then 366 else 365.

Definition DayFromYear (y : Z) : Z :=
  365 * (y - 1970) + (y - 1969) / 4 - (y - 1901) / 100 + (y - 1601) / 400.

Definition TimeFromYear (y : Z) : Z := msPerDay * DayFromYear y.

(** The largest year [y] with [TimeFromYear y <= t]: an estimate from the
    mean length of a year, put right by one year either way. *)
Definition YearFromTime (t : Z) : Z :=
  let d := Day t in
  let y := 1970 + (d * 400) / 146097 in
  if DayFromYear (y + 1) <=? d then y + 1
  else if d <? DayFromYear y then y - 1
  else y.

Definition DayWithinYear (t : Z) : Z := Day t - DayFromYear (YearFromTime t).

Definition InLeapYear (t : Z) : Z := if leap (YearFromTime t) then 1 else 0.

(** The day of the year on which month [m] (0 is January) begins; 12 gives
    the length of the year. [l] is 1 in a leap year. *)
Definition month_start (l m : Z) : Z :=
  if m <=? 0 then 0
  else if m =? 1 then 31
  else if m =? 2 then 59 + l
  else if m =? 3 then 90 + l
  else if m =? 4 then 120 + l
  else if m =? 5 then 151 + l
  else if m =? 6 then 181 + l
  else if m =? 7 then 212 + l
  else if m =? 8 then 243 + l
  else if m =? 9 then 273 + l
  else if m =? 10 then 304 + l
  else if m =? 11 then 334 + l
  else 365 + l.

Definition MonthFromTime (t : Z) : Z :=
  let d := DayWithinYear t in
  let l := InLeapYear t in
  if d <? 31 then 0
  else if d <? 59 + l then 1
  else if d <? 90 + l then 2
  else if d <? 120 + l then 3
  else if d <? 151 + l then 4
  else if d <? 181 + l then 5
  else if d <? 212 + l then 6
  else if d <? 243 + l then 7
  else if d <? 273 + l then 8
  else if d <? 304 + l then 9
  else if d <? 334 + l then 10
  else 11.

Definition DateFromTime (t : Z) : Z :=
  DayWithinYear t - month_start (InLeapYear t) (MonthFromTime t) + 1.

Definition HourFromTime (t : Z) : Z := (t / msPerHour) mod 24.
Definition MinFromTime (t : Z) : Z := (t / msPerMinute) mod 60.
Definition SecFromTime (t : Z) : Z := (t / msPerSecond) mod 60.
Definition msFromTime (t : Z) : Z := t mod msPerSecond.

Definition MakeTime (hour min sec ms : Z) : Z :=
  hour * msPerHour + min * msPerMinute + sec * msPerSecond + ms.

(** The day number of day [date] of month [month] of [year]; a month
    outside 0..11 carries into the year, and a [date] outside the month
    counts on from its first day. *)
Definition MakeDay (year month date : Z) : Z :=
  let ym := year + month / 12 in
  let mn := month mod 12 in
  DayFromYear ym + month_start (if leap ym then 1 else 0) mn + date - 1.

Definition MakeDate (day time : Z) : Z := day * msPerDay + time.

(** A time value outside the range of [Date] makes an invalid date,
    [None]. *)
Definition TimeClip (t : Z) : option Z :=
  if Z.abs t <=? 8640000000000000 then Some t else None.

Section LocalTime.

(** [LocalTZA(t, isUTC)]: the offset of local time from UTC, in
    milliseconds, that is in force at the instant [t] when [isUTC] is
    true, and at the local time [t] when it is false. *)
Variable LocalTZA : Z -> bool -> Z.

Definition LocalTime (t : Z) : Z := t + LocalTZA t true.
Definition UTC (t : Z) : Z := t - LocalTZA t false.

(** [new Date(year, month, date, hours, minutes, seconds)], the fields read
    in local time. A year from 0 to 99 stands for 1900 to 1999. *)
Definition Date_of_fields (year month date hours minutes seconds : Z)
  : option Z :=
  let yr := if (0 <=? year) && (year <=? 99) then 1900 + year else year in
  TimeClip (UTC (MakeDate (MakeDay yr month date)
                          (MakeTime hours minutes seconds 0))).

Definition getFullYear (t : Z) : Z := YearFromTime (LocalTime t).
Definition getMonth (t : Z) : Z := MonthFromTime (LocalTime t).
Definition getDate (t : Z) : Z := DateFromTime (LocalTime t).

End LocalTime.

Definition pad (width : nat) (n : Z) : string :=
  padStart (Number_toString n) width "0".

(** The year of [toISOString]: four digits, or a sign and six digits
    outside 0..9999. *)
Definition iso_year (y : Z) : string :=
  if (0 <=? y) && (y <=? 9999) then pad 4 y
  else String (if y <? 0 then "-" else "+") (pad 6 (Z.abs y)).

Definition iso_date (t : Z) : string :=
  iso_year (YearFromTime t) ++ "-" ++ pad 2 (MonthFromTime t + 1)
    ++ "-" ++ pad 2 (DateFromTime t).

Definition iso_time (t : Z) : string :=
  pad 2 (HourFromTime t) ++ ":" ++ pad 2 (MinFromTime t) ++ ":"
    ++ pad 2 (SecFromTime t) ++ "." ++ pad 3 (msFromTime t) ++ "Z".

(** [date.toISOString()] of a valid date: the fields in UTC. *)
Definition toISOString (t : Z) : string := iso_date t ++ "T" ++ iso_time t.

(** [a <= b] and [a >= b] on dates: an invalid date compares false. *)
Definition date_le (a b : option Z) : bool :=
  match a, b with
  | Some x, Some y => x <=? y
  | _, _ => false
  end.

Definition date_ge (a b : option Z) : bool := date_le b a.

End JSDate.

(** ** Objects used as maps, arrays, sets *)

Module JSObject.

Import JSString.

(** The names every object inherits from [Object.prototype]. Reading one of
    them on an object that has no own property of that name yields the
    inherited member, which is truthy. *)
Definition Object_prototype : list string :=
  [ "constructor"; "__defineGetter__"; "__defineSetter__"; "hasOwnProperty";
    "__lookupGetter__"; "__lookupSetter__"; "isPrototypeOf";
    "propertyIsEnumerable"; "toString"; "valueOf"; "__proto__";
    "toLocaleString" ].

Definition inherited (k : string) : bool :=
  existsb (String.eqb k) Object_prototype.

(** A key that is the canonical text of an integer below 2^32 - 1 is an
    array index; [Object.entries] lists such keys first, in numeric order. *)
Definition array_index (k : string) : option Z :=
  match NilEmpty.uint_of_string k with
  | Some d =>
      let n := Z.of_N (N.of_uint d) in
      if String.eqb (Number_toString n) k && (n <? 2 ^ 32 - 1)
      then Some n else None
  | None => None
  end.

Definition is_array_index (k : string) : bool :=
  match array_index k with
  | Some _ => true
  | None => false
  end.

Definition index_value (k : string) : Z :=
  match array_index k with
  | Some n => n
  | None => 0
  end.

Section Sorting.

Context {A : Type}.
Variable le : A -> A -> bool.

Fixpoint insert_by (x : A) (l : list A) : list A :=
  match l with
  | [] => [x]
  | y :: l' => if le x y then x :: l else y :: insert_by x l'
  end.

(** A stable sort. *)
Definition sort_by (l : list A) : list A := fold_right insert_by [] l.

End Sorting.

(** [array.sort()] without a comparator: the elements are compared by the
    code units of their texts. *)
Definition Array_sort {A : Type} (toString : A -> string) (l : list A)
  : list A :=
  sort_by (fun a b => String.leb (toString a) (toString b)) l.

Section Object.

Context {V : Type}.

(** The own properties of an object, in the order they were created. The
    values are objects themselves, so an own property is always truthy. *)
Definition object : Type := list (string * V).

Fixpoint own (o : object) (k : string) : option V :=
  match o with
  | [] => None
  | (k', v) :: o' => if String.eqb k k' then Some v else own o' k
  end.

(** [!o[k]] *)
Definition missing (o : object) (k : string) : bool :=
  match own o k with
  | Some _ => false
  | None => negb (inherited k)
  end.

(** [o[k] = v] *)
Fixpoint set (o : object) (k : string) (v : V) : object :=
  match o with
  | [] => [(k, v)]
  | (k', v') :: o' =>
      if String.eqb k k' then (k', v) :: o' else (k', v') :: set o' k v
  end.

(** A write to a field of [o[k]]. When [k] is not an own property the
    write lands on the inherited member and [o] keeps its properties. *)
Fixpoint update (o : object) (k : string) (f : V -> V) : object :=
  match o with
  | [] => []
  | (k', v) :: o' =>
      if String.eqb k k' then (k', f v) :: o' else (k', v) :: update o' k f
  end.

(** [Object.entries(o)]: array indices in ascending order, then the other
    keys in creation order. *)
Definition Object_entries (o : object) : list (string * V) :=
  sort_by (fun a b => index_value (fst a) <=? index_value (fst b))
          (filter (fun kv => is_array_index (fst kv)) o)
  ++ filter (fun kv => negb (is_array_index (fst kv))) o.

(** The text of a [[key, value]] pair whose value is a plain object. *)
Definition entry_toString (kv : string * V) : string :=
  fst kv ++ ",[object Object]".

End Object.

(** [set.add(x)] on a [Set] of strings kept in insertion order. *)
Definition Set_add (s : list string) (x : string) : list string :=
  if existsb (String.eqb x) s then s else s ++ [x].

(** [x || y] on text: the empty text and a missing field are falsy. *)
Definition or_text (x : option string) (y : string) : string :=
  match x with
  | Some EmptyString => y
  | Some s => s
  | None => y
  end.

End JSObject.

(** ** The component *)

(** What the engine supplies and the component cannot compute: the local
    time zone, the locale's rendering of dates, and the general printer of
    numbers that [toFixed] falls back to from 1e21 on. *)
Class Host : Type := {
  (** [LocalTZA(t, isUTC)]: the offset of local time from UTC, in
      milliseconds, in force at the instant [t] ([isUTC] true) or at the
      local time [t] ([isUTC] false). *)
  LocalTZA : Z -> bool -> Z;
  (** [new Date(t).toLocaleString()] *)
  toLocaleString : Z -> string;
  (** [new Date(day).toLocaleDateString()] for a [YYYY-MM-DD] text *)
  toLocaleDateString : string -> string;
  Number_toString_large : float -> string
}.

(** The engine keeps the one offset [tza] from UTC at every instant: a
    time zone without daylight saving or any other change of offset. *)
Definition fixed_offset {host : Host} (tza : Z) : Prop :=
  forall t isUTC, LocalTZA t isUTC = tza.

(** One record of [data.deleted_resources]. *)
Record resource : Type := {
  resource_type : string;
  resource_id : string;
  resource_name : option string;
  deleted_at : Z;
  monthly_savings : option float;
  annual_savings : option float;
  region : option string
}.

(** The [data] property of the component; [aws_region] is
    [data?.config?.aws_region]. *)
Record dashboard : Type := {
  deleted_resources : option (list resource);
  aws_region : option string
}.

(** The accumulator of a breakdown. *)
Record bucket : Type := { count : nat; savings : float }.

Module Enriched.
Record t : Type := {
  resource_type : string;
  resource_id : string;
  resource_name : string;
  deleted_at : Z;
  deleted_date_readable : string;
  monthly_savings : string;
  annual_savings : string;
  region : string
}.
End Enriched.

Module TypeEntry.
Record t : Type := {
  type : string;
  count : nat;
  monthly_savings : string;
  annual_savings : string
}.
End TypeEntry.

Module MonthEntry.
Record t : Type := {
  month : option string;
  year : option string;
  count : nat;
  monthly_savings : string;
  annual_savings : string
}.
End MonthEntry.

Module DayEntry.
Record t : Type := {
  date : string;
  date_readable : string;
  count : nat;
  monthly_savings : string
}.
End DayEntry.

Record date_range : Type := { from : string; to : string }.

(** The document of [downloadAllLogs]. *)
Module Complete.
Record info : Type := {
  title : string;
  export_date : string;
  range : date_range;
  total_resources : nat;
  total_monthly_savings : string;
  total_annual_savings : string
}.
Record summary : Type := {
  breakdown_by_type : list TypeEntry.t;
  breakdown_by_month : list MonthEntry.t
}.
Record t : Type := {
  export_info : info;
  deleted_resources : list Enriched.t;
  summary_of : summary
}.
End Complete.

(** The document of [downloadMonthLog]. *)
Module Monthly.
Record info : Type := {
  title : string;
  export_date : string;
  month : option string;
  year : option string;
  range : date_range;
  total_resources : nat;
  total_monthly_savings : string;
  total_annual_savings : string
}.
Record summary : Type := {
  breakdown_by_type : list TypeEntry.t;
  breakdown_by_day : list DayEntry.t
}.
Record t : Type := {
  export_info : info;
  deleted_resources : list Enriched.t;
  summary_of : summary
}.
End Monthly.

(** What a click does: a notice to the user, a document handed to
    [downloadJSON] with its file name, or an exception. *)
Inductive outcome (D : Type) : Type :=
| alert (message : string)
| downloadJSON (doc : D) (filename : string)
| RangeError.

Arguments alert {D} message.
Arguments downloadJSON {D} doc filename.
Arguments RangeError {D}.

Module LogDownloader.

Import JSString JSNumber JSDate JSObject.

Definition months : list string :=
  [ "January"; "February"; "March"; "April"; "May"; "June"; "July";
    "August"; "September"; "October"; "November"; "December" ].

(** [getMonthName(monthIndex)]: [months[monthIndex]], undefined outside the
    table or at NaN. *)
Definition getMonthName (monthIndex : option Z) : option string :=
  match monthIndex with
  | Some i => if i <? 0 then None else nth_error months (Z.to_nat i)
  | None => None
  end.

(** The notice of both operations when there is nothing to export. *)
Definition no_data_notice : string :=
  "No deleted resources data available to download.".

(** [parseInt(month) - 1] *)
Definition month_index (month : option string) : option Z :=
  option_map (fun m => m - 1) (parseInt_opt month).

Section Component.

Context {host : Host}.

(** [`${date.getFullYear()}-${String(date.getMonth() + 1).padStart(2, "0")}`] *)
Definition monthYear_of (date : Z) : string :=
  Number_toString (getFullYear LocalTZA date) ++ "-"
    ++ padStart (Number_toString (getMonth LocalTZA date + 1)) 2 "0".

(** [date.toISOString().split("T")[0]] *)
Definition day_of (date : Z) : string :=
  template (nth_error (split "T" (toISOString date)) 0).

Definition formatDate (date : Z) : string := day_of date.

Definition toFixed2 (x : float) : string :=
  toFixed Number_toString_large x 2.

(** [r.monthly_savings || 0] *)
Definition monthly_or_zero (r : resource) : float :=
  or_field (monthly_savings r) 0.

(** [r.annual_savings || r.monthly_savings * 12 || 0] *)
Definition annual_or_derived (r : resource) : float :=
  or (or_field (annual_savings r) (mul_field (monthly_savings r) 12)) 0.

(** The body of the [forEach] of the three breakdowns. *)
Definition tally (key : string) (r : resource) (breakdown : object)
  : object :=
  let breakdown :=
    if missing breakdown key
    then set breakdown key {| count := 0; savings := 0 |}
    else breakdown in
  let breakdown :=
    update breakdown key
      (fun b => {| count := S (count b); savings := savings b |}) in
  update breakdown key
    (fun b => {| count := count b;
                 savings := PrimFloat.add (savings b) (monthly_or_zero r) |}).

Definition tally_all (key_of : resource -> string) (resources : list resource)
  : object :=
  fold_left (fun breakdown r => tally (key_of r) r breakdown) resources [].

(** The entries the three breakdowns make of a key and its counters. *)
Definition type_entry (entry : string * bucket) : TypeEntry.t :=
  let (type, info) := entry in
  {| TypeEntry.type := type;
     TypeEntry.count := count info;
     TypeEntry.monthly_savings := "$" ++ toFixed2 (savings info);
     TypeEntry.annual_savings :=
       "$" ++ toFixed2 (PrimFloat.mul (savings info) 12) |}.

Definition month_entry (entry : string * bucket) : MonthEntry.t :=
  let (monthYear, info) := entry in
  let parts := split "-" monthYear in
  let year := nth_error parts 0 in
  let month := nth_error parts 1 in
  {| MonthEntry.month := getMonthName (month_index month);
     MonthEntry.year := year;
     MonthEntry.count := count info;
     MonthEntry.monthly_savings := "$" ++ toFixed2 (savings info);
     MonthEntry.annual_savings :=
       "$" ++ toFixed2 (PrimFloat.mul (savings info) 12) |}.

Definition day_entry (entry : string * bucket) : DayEntry.t :=
  let (day, info) := entry in
  {| DayEntry.date := day;
     DayEntry.date_readable := toLocaleDateString day;
     DayEntry.count := count info;
     DayEntry.monthly_savings := "$" ++ toFixed2 (savings info) |}.

(** [Object.entries(breakdown).sort()] *)
Definition sorted_entries (key_of : resource -> string)
  (resources : list resource) : list (string * bucket) :=
  Array_sort entry_toString (Object_entries (tally_all key_of resources)).

Definition getBreakdownByType (resources : list resource)
  : list TypeEntry.t :=
  map type_entry (Object_entries (tally_all resource_type resources)).

Definition getBreakdownByMonth (resources : list resource)
  : list MonthEntry.t :=
  map month_entry
      (sorted_entries (fun r => monthYear_of (deleted_at r)) resources).

Definition getBreakdownByDay (resources : list resource)
  : list DayEntry.t :=
  map day_entry (sorted_entries (fun r => day_of (deleted_at r)) resources).

(** The component's [data] property. *)
Variable data : dashboard.

Definition getAvailableMonths : list string :=
  match deleted_resources data with
  | None | Some [] => []
  | Some resources =>
      let monthsSet :=
        fold_left (fun s r => Set_add s (monthYear_of (deleted_at r)))
                  resources [] in
      rev (Array_sort (fun s => s) monthsSet)
  end.

(** One element of the exported [deleted_resources]. *)
Definition enrich (r : resource) : Enriched.t :=
  {| Enriched.resource_type := resource_type r;
     Enriched.resource_id := resource_id r;
     Enriched.resource_name := or_text (resource_name r) "Unnamed";
     Enriched.deleted_at := deleted_at r;
     Enriched.deleted_date_readable := toLocaleString (deleted_at r);
     Enriched.monthly_savings := "$" ++ toFixed2 (monthly_or_zero r);
     Enriched.annual_savings := "$" ++ toFixed2 (annual_or_derived r);
     Enriched.region :=
       or_text (region r) (or_text (aws_region data) "us-east-1") |}.

Definition total_monthly (resources : list resource) : string :=
  toFixed2
    (fold_left (fun sum r => PrimFloat.add sum (monthly_or_zero r))
               resources 0%float).

Definition total_annual (resources : list resource) : string :=
  toFixed2
    (fold_left (fun sum r => PrimFloat.add sum (annual_or_derived r))
               resources 0%float).

(** [resources[resources.length - 1]] *)
Definition last_of (resources : list resource) : option resource :=
  nth_error resources (List.length resources - 1).

(** The filter of [downloadAllLogs]: [deletedDate <= currentDate]. *)
Definition filter_up_to (currentDate : Z) (resources : list resource)
  : list resource :=
  filter (fun r => date_le (Some (deleted_at r)) (Some currentDate))
         resources.

(** The [exportData] of [downloadAllLogs]. *)
Definition complete_document (currentDate : Z)
  (filteredResources : list resource) : Complete.t :=
  {| Complete.export_info :=
       {| Complete.title := "CostGuardian - Complete Deletion Log";
          Complete.export_date := toISOString currentDate;
          Complete.range :=
            {| from :=
                 if (0 <? List.length filteredResources)%nat
                 then match last_of filteredResources with
                      | Some r => toISOString (deleted_at r)
                      | None => toISOString currentDate
                      end
                 else toISOString currentDate;
               to := toISOString currentDate |};
          Complete.total_resources := List.length filteredResources;
          Complete.total_monthly_savings := total_monthly filteredResources;
          Complete.total_annual_savings := total_annual filteredResources |};
     Complete.deleted_resources := map enrich filteredResources;
     Complete.summary_of :=
       {| Complete.breakdown_by_type := getBreakdownByType filteredResources;
          Complete.breakdown_by_month :=
            getBreakdownByMonth filteredResources |} |}.

(** [downloadAllLogs], with [currentDate] the reading of the clock. *)
Definition downloadAllLogs (currentDate : Z) : outcome Complete.t :=
  match deleted_resources data with
  | None | Some [] => alert no_data_notice
  | Some resources =>
      let filteredResources := filter_up_to currentDate resources in
      downloadJSON (complete_document currentDate filteredResources)
        ("costguardian-complete-log-" ++ formatDate currentDate ++ ".json")
  end.

(** [new Date(parseInt(year), parseInt(month) - 1, 1)] *)
Definition startDate_of (year month : option string) : option Z :=
  match parseInt_opt year, parseInt_opt month with
  | Some y, Some m => Date_of_fields LocalTZA y (m - 1) 1 0 0 0
  | _, _ => None
  end.

(** [new Date(parseInt(year), parseInt(month), 0, 23, 59, 59)] *)
Definition endDate_of (year month : option string) : option Z :=
  match parseInt_opt year, parseInt_opt month with
  | Some y, Some m => Date_of_fields LocalTZA y m 0 23 59 59
  | _, _ => None
  end.

(** The filter of [downloadMonthLog]:
    [deletedDate >= startDate && deletedDate <= endDate]. *)
Definition filter_month (monthYear : string) (resources : list resource)
  : list resource :=
  let parts := split "-" monthYear in
  let year := nth_error parts 0 in
  let month := nth_error parts 1 in
  let startDate := startDate_of year month in
  let endDate := endDate_of year month in
  filter (fun r => date_ge (Some (deleted_at r)) startDate
                   && date_le (Some (deleted_at r)) endDate)
         resources.

(** The [exportData] of [downloadMonthLog]. *)
Definition monthly_document (year month : option string)
  (startDate endDate now : Z) (filteredResources : list resource)
  : Monthly.t :=
  {| Monthly.export_info :=
       {| Monthly.title :=
            "CostGuardian - " ++ template (getMonthName (month_index month))
              ++ " " ++ template year ++ " Deletion Log";
          Monthly.export_date := toISOString now;
          Monthly.month := getMonthName (month_index month);
          Monthly.year := year;
          Monthly.range :=
            {| from := toISOString startDate; to := toISOString endDate |};
          Monthly.total_resources := List.length filteredResources;
          Monthly.total_monthly_savings := total_monthly filteredResources;
          Monthly.total_annual_savings := total_annual filteredResources |};
     Monthly.deleted_resources := map enrich filteredResources;
     Monthly.summary_of :=
       {| Monthly.breakdown_by_type := getBreakdownByType filteredResources;
          Monthly.breakdown_by_day := getBreakdownByDay filteredResources |} |}.

(** The notice of [downloadMonthLog] when nothing falls in the month. *)
Definition no_resources_notice (year month : option string) : string :=
  "No resources deleted in " ++ template (getMonthName (month_index month))
    ++ " " ++ template year ++ ".".

(** [downloadMonthLog(monthYear)], with [now] the reading of the clock
    taken for [export_date]. [toISOString] throws on an invalid date. *)
Definition downloadMonthLog (monthYear : string) (now : Z)
  : outcome Monthly.t :=
  match deleted_resources data with
  | None | Some [] => alert no_data_notice
  | Some resources =>
      let parts := split "-" monthYear in
      let year := nth_error parts 0 in
      let month := nth_error parts 1 in
      let filteredResources := filter_month monthYear resources in
      if (List.length filteredResources =? 0)%nat
      then alert (no_resources_notice year month)
      else
        match startDate_of year month, endDate_of year month with
        | Some startDate, Some endDate =>
            downloadJSON
              (monthly_document year month startDate endDate now
                 filteredResources)
              ("costguardian-" ++ template year ++ "-" ++ template month
                 ++ "-log.json")
        | _, _ => RangeError
        end
  end.

End Component.

End LogDownloader.

(** ** The words of the specification *)

Module Spec.

Import JSNumber JSObject LogDownloader.

(** The events of one group of a breakdown: those whose key is [k], in the
    order of the input. *)
Definition group (key_of : resource -> string) (k : string)
  (resources : list resource) : list resource :=
  filter (fun r => String.eqb (key_of r) k) resources.

(** The count and the summed monthly savings of a group. *)
Definition stats (resources : list resource) : bucket :=
  {| count := List.length resources;
     savings :=
       fold_left (fun sum r => PrimFloat.add sum (monthly_or_zero r))
                 resources 0%float |}.

(** The events a breakdown counts: all but those whose key names a member
    of [Object.prototype]. *)
Definition counted (key_of : resource -> string) (resources : list resource)
  : list resource :=
  filter (fun r => negb (inherited (key_of r))) resources.

(** The counters of a group after one more event of it. *)
Definition bump (r : resource) (b : bucket) : bucket :=
  {| count := S (count b);
     savings := PrimFloat.add (savings b) (monthly_or_zero r) |}.

(** What the accumulator holds under a key: nothing for a key no event
    has and for a name of [Object.prototype], and otherwise the count and
    the summed savings of the key's group. *)
Definition expected (key_of : resource -> string) (k : string)
  (rs : list resource) : option bucket :=
  if inherited k then None
  else match group key_of k rs with
       | [] => None
       | g => Some (stats g)
       end.

(** The sum of the counters of an accumulator. *)
Definition counts (o : @object bucket) : nat :=
  list_sum (map (fun kv => count (snd kv)) o).

(** The region of an exported record as the specification words it: the
    event's own region when that is a text that is not empty, else the
    configured default when that is one, else the fixed fallback. *)
Definition region_by_claim (own default : option string) : string :=
  match own with
  | Some (String c s) => String c s
  | _ => match default with
         | Some (String c s) => String c s
         | _ => "us-east-1"
         end
  end.

(** [monthly_savings * 12], or 0 when that is zero or not a number. *)
Definition derived_annual (r : resource) : float :=
  match monthly_savings r with
  | Some m => if ToBoolean (PrimFloat.mul m 12) then PrimFloat.mul m 12
              else 0%float
  | None => 0%float
  end.

(** What an event adds to the annual total: its [annual_savings] when
    that is present and neither zero nor NaN, and the derived figure
    otherwise. *)
Definition annual_contribution (r : resource) : float :=
  match annual_savings r with
  | Some a => if ToBoolean a then a else derived_annual r
  | None => derived_annual r
  end.

(** The same as the specification words it: [annual_savings] when
    present, whatever its value, and twelve months otherwise. *)
Definition annual_by_claim (r : resource) : float :=
  match annual_savings r with
  | Some a => a
  | None => PrimFloat.mul (monthly_or_zero r) 12
  end.

(** The sum of a figure over the events, from the first to the last. *)
Definition sum_over (f : resource -> float) (rs : list resource) : float :=
  fold_left (fun sum r => PrimFloat.add sum (f r)) rs 0%float.

(** The key of month [month] (1 to 12) of [year]. *)
Definition month_key (year month : Z) : string :=
  JSString.Number_toString year ++ "-"
    ++ JSString.padStart (JSString.Number_toString month) 2 "0".

Section Month.

Context {host : Host}.

(** The first instant of month [m] (1 to 12) of year [y]: midnight, local
    time, of its first day. *)
Definition first_instant (y m : Z) : Z :=
  JSDate.UTC LocalTZA
    (JSDate.MakeDate (JSDate.MakeDay y (m - 1) 1) (JSDate.MakeTime 0 0 0 0)).

(** The last labelled second of the month: 23:59:59, local time, of the
    day before the first day of the month after. *)
Definition last_second (y m : Z) : Z :=
  JSDate.UTC LocalTZA
    (JSDate.MakeDate (JSDate.MakeDay y m 1 - 1)
                     (JSDate.MakeTime 23 59 59 0)).

(** The time value [t] falls in month [m] of year [y], local time. *)
Definition in_month (y m t : Z) : Prop :=
  JSDate.getFullYear LocalTZA t = y /\ JSDate.getMonth LocalTZA t = m - 1.

End Month.

(** The name of month [m] (1 to 12). *)
Definition month_name (m : Z) : string :=
  nth (Z.to_nat (m - 1)) months "".

(** The summed monthly savings of the group of key [k]. *)
Definition group_savings (key_of : resource -> string) (k : string)
  (rs : list resource) : float :=
  savings (stats (group key_of k rs)).

(** The event with its [annual_savings] taken away. *)
Definition without_annual (r : resource) : resource :=
  {| resource_type := resource_type r;
     resource_id := resource_id r;
     resource_name := resource_name r;
     deleted_at := deleted_at r;
     monthly_savings := monthly_savings r;
     annual_savings := None;
     region := region r |}.

(** The distinct texts of a list, each at its first occurrence. *)
Definition first_occurrences (l : list string) : list string :=
  fold_left Set_add l [].

(** Month [m1] of year [y1] comes before month [m2] of year [y2]. *)
Definition month_before (y1 m1 y2 m2 : Z) : Prop :=
  y1 < y2 \/ (y1 = y2 /\ m1 < m2).

(** The same of two month keys of years of four digits. *)
Definition key_before (a b : string) : Prop :=
  exists y1 m1 y2 m2,
    a = month_key y1 m1 /\ b = month_key y2 m2
    /\ (1000 <= y1 <= 9999 /\ 1 <= m1 <= 12)
    /\ (1000 <= y2 <= 9999 /\ 1 <= m2 <= 12)
    /\ month_before y1 m1 y2 m2.

(** The texts of the years from [y] on, [fuel] of them, have four
    characters and ascend. *)
Fixpoint years_ascend (fuel : nat) (y : Z) : bool :=
  match fuel with
  | O => true
  | S fuel' =>
      (String.length (JSString.Number_toString y) =? 4)%nat
      && (String.length (JSString.Number_toString (y + 1)) =? 4)%nat
      && String.ltb (JSString.Number_toString y)
                    (JSString.Number_toString (y + 1))
      && years_ascend fuel' (y + 1)
  end.

(** The events of the input, none when the collection is absent. *)
Definition events_of (data : dashboard) : list resource :=
  match deleted_resources data with
  | Some rs => rs
  | None => []
  end.

(** The earliest [deleted_at] of a list of events. *)
Definition oldest (rs : list resource) : option Z :=
  match rs with
  | [] => None
  | r :: rs' => Some (fold_left (fun m x => Z.min m (deleted_at x)) rs'
                                (deleted_at r))
  end.

End Spec.

(** ** Sample data *)

Module Sample.

Import JSDate LogDownloader.

(** An engine in the UTC time zone, at every instant, whose locale prints
    dates as [toISOString] does. *)
Definition utc_host : Host :=
  {| LocalTZA := fun _ _ => 0;
     toLocaleString := toISOString;
     toLocaleDateString := fun day => day;
     Number_toString_large := fun _ => "1e+21" |}.

(** An engine five hours behind UTC at every instant. *)
Definition est_host : Host :=
  {| LocalTZA := fun _ _ => -18000000;
     toLocaleString := toISOString;
     toLocaleDateString := fun day => day;
     Number_toString_large := fun _ => "1e+21" |}.

Definition event (type id : string) (deleted_at : Z)
  (monthly annual : option float) (region : option string) : resource :=
  {| resource_type := type; resource_id := id; resource_name := None;
     deleted_at := deleted_at; monthly_savings := monthly;
     annual_savings := annual; region := region |}.

(** 2025-01-15T12:00:00Z, 2025-01-31T23:59:59Z, 2025-03-15T12:00:00Z and
    the reading of the clock, 2025-06-01T00:00:00Z. *)
Definition jan15 : Z := 1736942400000.
Definition jan31_last_second : Z := 1738367999000.
Definition mar15 : Z := 1742040000000.
Definition june1 : Z := 1748736000000.

Definition nat_gateway : resource :=
  event "NAT Gateway" "nat-01" jan15 (Some 32.4%float) None (Some "eu-west-1").
Definition ebs_volume : resource :=
  event "EBS Volume" "vol-02" mar15 (Some 8%float) None (Some "").
Definition elastic_ip : resource :=
  event "Elastic IP" "eip-03" jan31_last_second (Some 3.6%float) None None.

(** An event that states an annual saving of zero beside a monthly one. *)
Definition zero_annual : resource :=
  event "EC2 Instance" "i-04" jan15 (Some 10%float) (Some 0%float) None.

(** Two events of one type and month whose stated annual savings lie
    ten above and ten below twelve months of their monthly savings. *)
Definition above_twelve : resource :=
  event "EC2 Instance" "i-05" jan15 (Some 10%float) (Some 130%float) None.
Definition below_twelve : resource :=
  event "EC2 Instance" "i-06" jan15 (Some 10%float) (Some 110%float) None.
Definition stated_annual : resource :=
  event "EC2 Instance" "i-07" jan15 (Some 10%float) (Some 100%float) None.

(** An event of 15 January of the year 50, at noon UTC, and one half a
    second after the last labelled second of January 2025. *)
Definition year_fifty : resource :=
  event "EC2 Instance" "i-08" (-60588043200000) (Some 1%float) None None.
Definition last_half_second : resource :=
  event "EC2 Instance" "i-09" 1738367999500 (Some 1%float) None None.

Definition with_events (rs : list resource) : dashboard :=
  {| deleted_resources := Some rs; aws_region := Some "us-west-2" |}.

(** The events oldest first, and the same events newest first. *)
Definition oldest_first : dashboard := with_events [nat_gateway; ebs_volume].
Definition newest_first : dashboard := with_events [ebs_volume; nat_gateway].

Definition january_only : dashboard :=
  with_events [nat_gateway; elastic_ip].

Definition no_events : dashboard :=
  {| deleted_resources := Some []; aws_region := None |}.

End Sample.

(** An engine with daylight saving. *)

Module DaylightSaving.

Import JSDate.

(** 2025-03-30T01:00:00Z, when Central European time goes from 02:00 to
    03:00. *)
Definition spring_forward : Z := 1743296400000.

(** An engine on Central European time about that day: an hour ahead of
    UTC before the change and two hours ahead from it on. A local time
    of the hour that is skipped is read with the offset before the
    change. *)
Definition cet_host : Host :=
  {| LocalTZA := fun t isUTC =>
       if isUTC
       then if t <? spring_forward then 3600000 else 7200000
       else if t <? spring_forward + 7200000 then 3600000 else 7200000;
     toLocaleString := toISOString;
     toLocaleDateString := fun day => day;
     Number_toString_large := fun _ => "1e+21" |}.

End DaylightSaving.

(** ** What the component renders *)

Module Render.

Import JSString JSNumber JSDate LogDownloader.

(** [a === b] on numbers: NaN equals nothing. *)
Definition strict_eq (a b : option Z) : bool :=
  match a, b with
  | Some x, Some y => x =? y
  | _, _ => false
  end.

Section Component.

Context {host : Host}.
Variable data : dashboard.

(** [data?.deleted_resources?.length || 0] *)
Definition totalResources : nat :=
  match deleted_resources data with
  | Some resources => List.length resources
  | None => 0%nat
  end.

(** [disabled={totalResources === 0}] of the button of the complete log. *)
Definition download_all_disabled : bool := (totalResources =? 0)%nat.

(** Whether the month buttons are shown: [availableMonths.length > 0]. *)
Definition months_shown : bool :=
  (0 <? List.length (getAvailableMonths data))%nat.

(** The [monthResources] of the button of [monthYear]: the events with
    [d.getFullYear() === parseInt(year) &&
     d.getMonth() === parseInt(month) - 1]. A button is made for each
    discovered month only, so that the collection is there whenever this
    is evaluated; without a collection there is no button and no event. *)
Definition monthResources (monthYear : string) : list resource :=
  let parts := split "-" monthYear in
  let year := nth_error parts 0 in
  let month := nth_error parts 1 in
  match deleted_resources data with
  | Some resources =>
      filter (fun r =>
                strict_eq (Some (getFullYear LocalTZA (deleted_at r)))
                          (parseInt_opt year)
                && strict_eq (Some (getMonth LocalTZA (deleted_at r)))
                             (month_index month))
             resources
  | None => []
  end.

(** The [monthSavings] of the button. *)
Definition monthSavings (monthYear : string) : float :=
  fold_left (fun sum r => PrimFloat.add sum (monthly_or_zero r))
            (monthResources monthYear) 0%float.

(** What React renders of a text in braces: nothing for [undefined]. *)
Definition jsx (text : option string) : string :=
  match text with
  | Some s => s
  | None => ""
  end.

(** The two lines of the button: [{monthName} {year}], and the count
    with the savings. *)
Definition month_button_title (monthYear : string) : string :=
  let parts := split "-" monthYear in
  jsx (getMonthName (month_index (nth_error parts 1))) ++ " "
    ++ jsx (nth_error parts 0).

Definition month_button_savings (monthYear : string) : string :=
  toFixed2 (monthSavings monthYear).

End Component.

End Render.

(** ** The page that loads the data *)

Module Page.

Import JSString.

(** [config.user_info] of [/config.json], and the [config] of the data. *)
Record UserInfo : Type := {
  aws_account_id : option string;
  aws_region : option string;
  github_repo : option string
}.

Record Overview : Type := {
  total_resources : float;
  resources_deleted : float;
  monthly_savings : float;
  annual_savings : float;
  active_resources : float;
  idle_resources : float
}.

(** A JSON object as far as the page reads it; every field may be
    missing. *)
Record Json : Type := {
  user_info : option UserInfo;
  json_overview : option Overview;
  json_breakdown : option (list (string * (float * option float)));
  json_deleted_resources : option (list resource)
}.

(** The state [data] of the page. *)
Record DashboardData : Type := {
  overview : option Overview;
  breakdown : option (list (string * (float * option float)));
  deleted_resources : option (list resource);
  config : option UserInfo
}.

(** What the page hands to the log downloader reads of it. *)
Definition to_dashboard (d : DashboardData) : dashboard :=
  Build_dashboard (deleted_resources d)
    (match config d with
     | Some c => aws_region c
     | None => None
     end).

Inductive error : Type := Rejected | TypeError | ReferenceError.

(** The value of an expression, or the exception it throws. *)
Inductive result (A : Type) : Type :=
| ok (a : A)
| throw (e : error).

Arguments ok {A} a.
Arguments throw {A} e.

Definition bind {A B : Type} (r : result A) (k : A -> result B)
  : result B :=
  match r with
  | ok a => k a
  | throw e => throw e
  end.

Notation "x <- r ;; k" := (bind r (fun x => k))
  (at level 61, r at next level, right associativity).

(** A response: [response.json()] settles with a JSON value, [None] for
    one that is not an object, or rejects. *)
Record Response : Type := { json : result (option Json) }.

(** The calls the page makes on its state. *)
Inductive call : Type :=
| setData (d : DashboardData)
| setLoading (b : bool).

(** The data of the [catch] branch. *)
Definition fallback : DashboardData :=
  {| overview :=
       Some {| total_resources := 0; resources_deleted := 0;
               monthly_savings := 0; annual_savings := 0;
               active_resources := 0; idle_resources := 0 |};
     breakdown := Some [];
     deleted_resources := Some [];
     config :=
       Some {| aws_account_id := Some "941431936794";
               aws_region := Some "us-east-1";
               github_repo := None |} |}.

(** [config.user_info.github_repo]: reading a property of what is not an
    object throws. *)
Definition github_repo_of (config : option Json) : result (option string) :=
  match config with
  | Some c => match user_info c with
              | Some u => ok (github_repo u)
              | None => throw TypeError
              end
  | None => throw TypeError
  end.

(** [{ ...jsonData, config: config.user_info }] *)
Definition spread (jsonData config : option Json) : DashboardData :=
  {| overview :=
       match jsonData with Some j => json_overview j | None => None end;
     breakdown :=
       match jsonData with Some j => json_breakdown j | None => None end;
     deleted_resources :=
       match jsonData with
       | Some j => json_deleted_resources j
       | None => None
       end;
     config := match config with Some c => user_info c | None => None end |}.

(** [fetchData], with [fetch] the network: a request settles with a
    response or rejects. The name [jsonResponse] is bound nowhere, so
    that reading it throws. *)
Definition fetchData (fetch : string -> result Response) : list call :=
  let attempt : result (list call) :=
    configResponse <- fetch "/config.json" ;;
    config <- json configResponse ;;
    repo <- github_repo_of config ;;
    let dataUrl :=
      "https://raw.githubusercontent.com/" ++ template repo
        ++ "/main/frontend/public/data.json" in
    dataResponse <- fetch dataUrl ;;
    jsonResponse <- @throw Response ReferenceError ;;
    jsonData <- json jsonResponse ;;
    ok [setData (spread jsonData config)] in
  (match attempt with
   | ok calls => calls
   | throw _ => [setData fallback]
   end) ++ [setLoading false].

(** The state after the calls, from the state before. *)
Definition run (calls : list call) (state : option DashboardData * bool)
  : option DashboardData * bool :=
  fold_left (fun st c =>
               match c with
               | setData d => (Some d, snd st)
               | setLoading b => (fst st, b)
               end) calls state.

End Page.

(** ** Calendar months *)

Module Calendar.

Import JSDate.

Section Local.

Context {host : Host}.

(** The event was deleted in month [m] (1 to 12) of year [y], local
    time. *)
Definition calendar_test (y m : Z) (r : resource) : bool :=
  (getFullYear LocalTZA (deleted_at r) =? y)
  && (getMonth LocalTZA (deleted_at r) =? m - 1).

End Local.

End Calendar.

(* ================================================================== *)
(** * Part II: properties *)
(* ================================================================== *)

(** ** The order of strings *)

Module StringOrderFacts.

Import StringOrder.

Lemma ascii_compare_refl (c : ascii) : Ascii.compare c c = Eq.
Proof. unfold Ascii.compare. apply N.compare_refl. Qed.

Lemma ascii_compare_lt_trans (a b c : ascii) :
  Ascii.compare a b = Lt -> Ascii.compare b c = Lt -> Ascii.compare a c = Lt.
Proof.
  unfold Ascii.compare. rewrite !N.compare_lt_iff. apply N.lt_trans.
Qed.

Lemma compare_refl (s : string) : String.compare s s = Eq.
Proof.
  induction s as [|c s IH]; simpl; [reflexivity|].
  now rewrite ascii_compare_refl.
Qed.

Lemma text_lt_irrefl (s : string) : ~ text_lt s s.
Proof. unfold text_lt. now rewrite compare_refl. Qed.

Lemma text_lt_trans (a b c : string) :
  text_lt a b -> text_lt b c -> text_lt a c.
Proof.
  unfold text_lt. revert b c.
  induction a as [|x a IH]; intros [|y b] [|z c]; simpl;
    try discriminate; try reflexivity.
  destruct (Ascii.compare x y) eqn:Hxy; try discriminate;
    destruct (Ascii.compare y z) eqn:Hyz; try discriminate; intros H1 H2.
  - apply Ascii.compare_eq_iff in Hxy, Hyz. subst.
    rewrite ascii_compare_refl. eauto.
  - apply Ascii.compare_eq_iff in Hxy. subst. now rewrite Hyz.
  - apply Ascii.compare_eq_iff in Hyz. subst. now rewrite Hxy.
  - now rewrite (ascii_compare_lt_trans _ _ _ Hxy Hyz).
Qed.

Lemma leb_lt_or_eq (a b : string) :
  String.leb a b = true -> text_lt a b \/ a = b.
Proof.
  unfold String.leb, text_lt.
  destruct (String.compare a b) eqn:H; try discriminate.
  - right. now apply String.compare_eq_iff.
  - now left.
Qed.

Lemma leb_false_lt (a b : string) : String.leb a b = false -> text_lt b a.
Proof.
  unfold String.leb, text_lt. rewrite (String.compare_antisym b a).
  destruct (String.compare a b); simpl; congruence.
Qed.

Lemma text_lt_not_eq (a b : string) : text_lt a b -> a <> b.
Proof. intros H ->. exact (text_lt_irrefl _ H). Qed.

Lemma all_chars_app (p : ascii -> bool) (a b : string) :
  all_chars p (a ++ b) = all_chars p a && all_chars p b.
Proof.
  induction a as [|c a IH]; simpl; [reflexivity|].
  now rewrite IH, andb_assoc.
Qed.

Lemma all_chars_weaken (p q : ascii -> bool) (s : string) :
  (forall c, p c = true -> q c = true) ->
  all_chars p s = true -> all_chars q s = true.
Proof.
  intros Hpq. induction s as [|c s IH]; simpl; [reflexivity|].
  rewrite !andb_true_iff. intros [H1 H2]. auto.
Qed.

Lemma above_comma_gt (c : ascii) :
  above_comma c = true -> Ascii.compare "," c = Lt.
Proof.
  unfold above_comma, Ascii.compare. rewrite Nat.ltb_lt. intros H.
  rewrite N.compare_lt_iff.
  change (N_of_ascii ",") with 44%N.
  rewrite <- (N2Nat.id (N_of_ascii c)).
  change (N.to_nat (N_of_ascii c)) with (nat_of_ascii c). lia.
Qed.

(** Appending a text that starts with a comma to two keys made of
    characters above the comma does not change how they compare. *)
Lemma compare_app_comma (x a b : string) :
  all_chars above_comma a = true -> all_chars above_comma b = true ->
  String.compare (a ++ String "," x) (b ++ String "," x) = String.compare a b.
Proof.
  revert b.
  induction a as [|c a IH]; intros [|d b];
    cbn [String.append String.compare all_chars].
  - intros _ _. rewrite ascii_compare_refl. apply compare_refl.
  - rewrite andb_true_iff. intros _ [Hd _]. now rewrite (above_comma_gt _ Hd).
  - rewrite andb_true_iff. intros [Hc _] _.
    rewrite Ascii.compare_antisym, (above_comma_gt _ Hc). reflexivity.
  - rewrite !andb_true_iff. intros [_ Ha] [_ Hb].
    destruct (Ascii.compare c d); auto.
Qed.

(** The same when only the characters after the first are known to lie
    above the comma, as long as both keys have a first character. *)
Lemma compare_app_comma_tail (x : string) (c d : ascii) (a b : string) :
  all_chars above_comma a = true -> all_chars above_comma b = true ->
  String.compare (String c a ++ String "," x) (String d b ++ String "," x)
  = String.compare (String c a) (String d b).
Proof.
  intros Ha Hb. cbn [String.append String.compare].
  destruct (Ascii.compare c d); auto.
  now apply compare_app_comma.
Qed.

End StringOrderFacts.

(** ** Sorting *)

Module SortFacts.

Import JSObject StringOrder StringOrderFacts.

Section Insertion.

Context {A : Type}.
Variable le : A -> A -> bool.

Lemma insert_by_perm (x : A) (l : list A) :
  Permutation (insert_by le x l) (x :: l).
Proof.
  induction l as [|y l IH]; simpl; [reflexivity|].
  destruct (le x y); [reflexivity|].
  rewrite IH. apply perm_swap.
Qed.

Lemma sort_by_perm (l : list A) : Permutation (sort_by le l) l.
Proof.
  induction l as [|x l IH]; simpl; [reflexivity|].
  unfold sort_by in *. simpl. now rewrite insert_by_perm, IH.
Qed.

Hypothesis le_total : forall a b, le a b = true \/ le b a = true.
Hypothesis le_trans :
  forall a b c, le a b = true -> le b c = true -> le a c = true.

Lemma insert_by_sorted (x : A) (l : list A) :
  StronglySorted (fun a b => le a b = true) l ->
  StronglySorted (fun a b => le a b = true) (insert_by le x l).
Proof.
  induction 1 as [|y l Hs IH Hall]; simpl.
  - repeat constructor.
  - destruct (le x y) eqn:Hxy.
    + constructor; [now constructor|].
      constructor; [exact Hxy|].
      eapply Forall_impl; [|exact Hall]. intros z Hz. eapply le_trans; eauto.
    + constructor; [exact IH|].
      apply (Permutation_Forall (Permutation_sym (insert_by_perm x l))).
      constructor; [|exact Hall].
      destruct (le_total x y) as [H|H]; [congruence|exact H].
Qed.

Lemma sort_by_sorted (l : list A) :
  StronglySorted (fun a b => le a b = true) (sort_by le l).
Proof.
  induction l as [|x l IH]; [constructor|].
  unfold sort_by in *. simpl. now apply insert_by_sorted.
Qed.

End Insertion.

Lemma strongly_sorted_impl_in {A : Type} (R R' : A -> A -> Prop) (l : list A) :
  (forall a b, In a l -> In b l -> R a b -> R' a b) ->
  StronglySorted R l -> StronglySorted R' l.
Proof.
  intros H Hs. induction Hs as [|x l Hs IH Hall]; constructor.
  - apply IH. intros a b Ha Hb. apply H; now right.
  - rewrite Forall_forall in *. intros y Hy.
    apply H; [now left|now right|auto].
Qed.

Lemma strongly_sorted_map {A B : Type} (f : A -> B) (R : B -> B -> Prop)
  (l : list A) :
  StronglySorted (fun a b => R (f a) (f b)) l -> StronglySorted R (map f l).
Proof.
  induction 1 as [|x l Hs IH Hall]; simpl; constructor; auto.
  rewrite Forall_map. exact Hall.
Qed.

Lemma strongly_sorted_snoc {A : Type} (R : A -> A -> Prop) (l : list A)
  (x : A) :
  StronglySorted R l -> Forall (fun y => R y x) l ->
  StronglySorted R (l ++ [x]).
Proof.
  induction 1 as [|y l Hs IH Hall]; simpl; intros Hx.
  - repeat constructor.
  - inversion Hx; subst. constructor; [auto|].
    apply Forall_app. split; [exact Hall|]. now repeat constructor.
Qed.

Lemma strongly_sorted_rev {A : Type} (R : A -> A -> Prop) (l : list A) :
  StronglySorted R l -> StronglySorted (fun a b => R b a) (rev l).
Proof.
  induction 1 as [|x l Hs IH Hall]; simpl; [constructor|].
  apply strongly_sorted_snoc; [exact IH|].
  rewrite Forall_forall in *. intros y Hy. apply Hall. now apply in_rev.
Qed.

(** Sorted with repetitions allowed, and free of repetitions, is strictly
    sorted. *)
Lemma sorted_nodup_strict {A : Type} (key : A -> string) (l : list A) :
  NoDup (map key l) ->
  StronglySorted (fun a b => String.leb (key a) (key b) = true) l ->
  StronglySorted (fun a b => text_lt (key a) (key b)) l.
Proof.
  intros Hnd Hs. induction Hs as [|x l Hs IH Hall]; constructor.
  - apply IH. simpl in Hnd. now inversion Hnd.
  - simpl in Hnd. inversion Hnd as [|? ? Hnotin _]; subst.
    rewrite Forall_forall in *. intros y Hy.
    destruct (leb_lt_or_eq _ _ (Hall y Hy)) as [H|H]; [exact H|].
    exfalso. apply Hnotin. rewrite H. now apply in_map.
Qed.

Lemma leb_trans (a b c : string) :
  String.leb a b = true -> String.leb b c = true -> String.leb a c = true.
Proof.
  intros H1 H2.
  destruct (leb_lt_or_eq _ _ H1) as [H1'| ->]; [|exact H2].
  destruct (leb_lt_or_eq _ _ H2) as [H2'| <-]; [|exact H1].
  pose proof (text_lt_trans _ _ _ H1' H2') as H. unfold text_lt in H.
  unfold String.leb. now rewrite H.
Qed.

(** What [array.sort()] gives: the same elements, in the order of their
    texts. *)
Lemma Array_sort_perm {A : Type} (toString : A -> string) (l : list A) :
  Permutation (Array_sort toString l) l.
Proof. apply sort_by_perm. Qed.

Lemma Array_sort_sorted {A : Type} (toString : A -> string) (l : list A) :
  StronglySorted
    (fun a b => String.leb (toString a) (toString b) = true)
    (Array_sort toString l).
Proof.
  apply sort_by_sorted.
  - intros a b. apply String.leb_total.
  - intros a b c. apply leb_trans.
Qed.

End SortFacts.

(** ** The accumulation of a breakdown *)

Module TallyFacts.

Import JSObject LogDownloader Spec.

Local Open Scope list_scope.

Section Own.

Context {V : Type}.
Implicit Types (o : @object V) (k : string).

Lemma own_app_new o k k' (v : V) :
  own (o ++ [(k, v)]) k' =
  match own o k' with
  | Some x => Some x
  | None => if String.eqb k' k then Some v else None
  end.
Proof.
  induction o as [|[k0 v0] o IH]; simpl; [reflexivity|].
  destruct (String.eqb k' k0); auto.
Qed.

Lemma own_update o k k' (f : V -> V) :
  own (update o k f) k' =
  if String.eqb k' k then option_map f (own o k) else own o k'.
Proof.
  induction o as [|[k0 v0] o IH]; simpl.
  - now destruct (String.eqb k' k).
  - destruct (String.eqb k k0) eqn:Hk; simpl.
    + apply String.eqb_eq in Hk. subst k0.
      destruct (String.eqb k' k); reflexivity.
    + destruct (String.eqb k' k0) eqn:Hk'; [|exact IH].
      apply String.eqb_eq in Hk'. subst k0.
      now rewrite String.eqb_sym, Hk.
Qed.

Lemma update_absent o k (f : V -> V) : own o k = None -> update o k f = o.
Proof.
  induction o as [|[k0 v0] o IH]; simpl; [reflexivity|].
  destruct (String.eqb k k0); [discriminate|]. intros H. now rewrite IH.
Qed.

Lemma update_update o k (f g : V -> V) :
  update (update o k f) k g = update o k (fun v => g (f v)).
Proof.
  induction o as [|[k0 v0] o IH]; simpl; [reflexivity|].
  destruct (String.eqb k k0) eqn:Hk; simpl; rewrite Hk; [reflexivity|].
  now rewrite IH.
Qed.

Lemma update_app_new o k (v : V) (f : V -> V) :
  own o k = None -> update (o ++ [(k, v)]) k f = o ++ [(k, f v)].
Proof.
  induction o as [|[k0 v0] o IH]; simpl.
  - now rewrite String.eqb_refl.
  - destruct (String.eqb k k0); [discriminate|]. intros H. now rewrite IH.
Qed.

Lemma set_absent o k (v : V) : own o k = None -> set o k v = o ++ [(k, v)].
Proof.
  induction o as [|[k0 v0] o IH]; simpl; [reflexivity|].
  destruct (String.eqb k k0); [discriminate|]. intros H. now rewrite IH.
Qed.

Lemma keys_update o k (f : V -> V) : map fst (update o k f) = map fst o.
Proof.
  induction o as [|[k0 v0] o IH]; simpl; [reflexivity|].
  destruct (String.eqb k k0); simpl; [reflexivity|]. now rewrite IH.
Qed.

Lemma own_none_not_in o k : own o k = None -> ~ In k (map fst o).
Proof.
  induction o as [|[k0 v0] o IH]; simpl; [tauto|].
  destruct (String.eqb k k0) eqn:Hk; [discriminate|].
  apply String.eqb_neq in Hk. intros H [H'|H']; [congruence|]. now apply IH.
Qed.

Lemma own_in o k (v : V) : own o k = Some v -> In (k, v) o.
Proof.
  induction o as [|[k0 v0] o IH]; simpl; [discriminate|].
  destruct (String.eqb k k0) eqn:Hk.
  - apply String.eqb_eq in Hk. subst. intros [= ->]. now left.
  - intros H. right. now apply IH.
Qed.

Lemma in_own o k (v : V) :
  NoDup (map fst o) -> In (k, v) o -> own o k = Some v.
Proof.
  induction o as [|[k0 v0] o IH]; simpl; [tauto|].
  intros Hnd [H|H].
  - injection H as -> ->. now rewrite String.eqb_refl.
  - inversion Hnd as [|? ? Hnotin Hnd']; subst.
    destruct (String.eqb k k0) eqn:Hk; [|now apply IH].
    apply String.eqb_eq in Hk. subst. exfalso. apply Hnotin.
    change k0 with (fst (k0, v)). now apply in_map.
Qed.

End Own.

Section Tally.

Context {host : Host}.

Lemma tally_own (key : string) (r : resource) (o : object) (b : bucket) :
  own o key = Some b -> tally key r o = update o key (bump r).
Proof.
  intros H. unfold tally, missing. rewrite H. now rewrite update_update.
Qed.

Lemma tally_new (key : string) (r : resource) (o : object) :
  own o key = None -> inherited key = false ->
  tally key r o = o ++ [(key, bump r {| count := 0; savings := 0 |})].
Proof.
  intros H Hi. unfold tally, missing. rewrite H, Hi. simpl.
  rewrite (set_absent _ _ _ H), update_update.
  now rewrite (update_app_new _ _ _ _ H).
Qed.

Lemma tally_inherited (key : string) (r : resource) (o : object) :
  own o key = None -> inherited key = true -> tally key r o = o.
Proof.
  intros H Hi. unfold tally, missing. rewrite H, Hi. simpl.
  now rewrite !(update_absent _ _ _ H).
Qed.

Variable key_of : resource -> string.

Lemma tally_all_snoc (rs : list resource) (r : resource) :
  tally_all key_of (rs ++ [r]) = tally (key_of r) r (tally_all key_of rs).
Proof. unfold tally_all. now rewrite fold_left_app. Qed.

Lemma group_snoc (k : string) (rs : list resource) (r : resource) :
  group key_of k (rs ++ [r]) =
  group key_of k rs ++ (if String.eqb (key_of r) k then [r] else []).
Proof. unfold group. rewrite filter_app. reflexivity. Qed.

Lemma stats_snoc (g : list resource) (r : resource) :
  stats (g ++ [r]) = bump r (stats g).
Proof.
  unfold stats, bump. simpl. rewrite fold_left_app, length_app. simpl.
  now rewrite Nat.add_1_r.
Qed.

Lemma own_tally_all (rs : list resource) (k : string) :
  own (tally_all key_of rs) k = expected key_of k rs.
Proof.
  revert k. induction rs as [|r rs IH] using rev_ind; intros k.
  - unfold expected. simpl. now destruct (inherited k).
  - rewrite tally_all_snoc.
    destruct (own (tally_all key_of rs) (key_of r)) as [b|] eqn:Hown.
    + rewrite (tally_own _ _ _ _ Hown), own_update.
      unfold expected. rewrite group_snoc. rewrite String.eqb_sym.
      destruct (String.eqb (key_of r) k) eqn:Hk.
      * apply String.eqb_eq in Hk. subst k. rewrite Hown. simpl.
        rewrite IH in Hown. unfold expected in Hown.
        destruct (inherited (key_of r)); [discriminate|].
        destruct (group key_of (key_of r) rs) as [|x g] eqn:Hg;
          [discriminate|].
        injection Hown as <-. rewrite <- stats_snoc. reflexivity.
      * rewrite app_nil_r. apply IH.
    + destruct (inherited (key_of r)) eqn:Hi.
      * rewrite (tally_inherited _ _ _ Hown Hi), IH.
        unfold expected. rewrite group_snoc.
        destruct (String.eqb (key_of r) k) eqn:Hk.
        -- apply String.eqb_eq in Hk. subst k. now rewrite Hi.
        -- now rewrite app_nil_r.
      * rewrite (tally_new _ _ _ Hown Hi), own_app_new.
        rewrite IH. unfold expected. rewrite group_snoc.
        rewrite String.eqb_sym.
        destruct (String.eqb (key_of r) k) eqn:Hk.
        -- apply String.eqb_eq in Hk. subst k. rewrite Hi.
           rewrite IH in Hown. unfold expected in Hown. rewrite Hi in Hown.
           destruct (group key_of (key_of r) rs) as [|x g] eqn:Hg;
             [|discriminate].
           simpl. reflexivity.
        -- rewrite app_nil_r.
           destruct (inherited k); [reflexivity|].
           now destruct (group key_of k rs).
Qed.

Lemma keys_tally_all_nodup (rs : list resource) :
  NoDup (map fst (tally_all key_of rs)).
Proof.
  induction rs as [|r rs IH] using rev_ind; [constructor|].
  rewrite tally_all_snoc.
  destruct (own (tally_all key_of rs) (key_of r)) as [b|] eqn:Hown.
  - now rewrite (tally_own _ _ _ _ Hown), keys_update.
  - destruct (inherited (key_of r)) eqn:Hi.
    + now rewrite (tally_inherited _ _ _ Hown Hi).
    + rewrite (tally_new _ _ _ Hown Hi), map_app. simpl.
      apply NoDup_app; [exact IH|repeat constructor; simpl; tauto|].
      intros k Hk [<-|[]]. exact (own_none_not_in _ _ Hown Hk).
Qed.

(** Membership in the accumulator, by groups. *)
Lemma in_tally_all (rs : list resource) (k : string) (b : bucket) :
  In (k, b) (tally_all key_of rs) <-> expected key_of k rs = Some b.
Proof.
  rewrite <- own_tally_all. split.
  - apply in_own, keys_tally_all_nodup.
  - apply own_in.
Qed.

Lemma counts_update_bump (o : object) (k : string) (r : resource)
  (b : bucket) :
  own o k = Some b -> counts (update o k (bump r)) = S (counts o).
Proof.
  unfold counts. induction o as [|[k0 v0] o IH]; simpl; [discriminate|].
  destruct (String.eqb k k0); simpl.
  - reflexivity.
  - intros H. rewrite (IH H). lia.
Qed.

(** Every event adds one to exactly one counter, unless its key names a
    member of [Object.prototype]. *)
Lemma counts_tally_all (rs : list resource) :
  counts (tally_all key_of rs) = List.length (counted key_of rs).
Proof.
  induction rs as [|r rs IH] using rev_ind; [reflexivity|].
  rewrite tally_all_snoc. unfold counted in *. rewrite filter_app, length_app.
  rewrite <- IH. simpl.
  destruct (own (tally_all key_of rs) (key_of r)) as [b|] eqn:Hown.
  - rewrite (tally_own _ _ _ _ Hown), (counts_update_bump _ _ _ _ Hown).
    pose proof (own_tally_all rs (key_of r)) as He. rewrite Hown in He.
    unfold expected in He.
    destruct (inherited (key_of r)); [discriminate|]. simpl. lia.
  - destruct (inherited (key_of r)) eqn:Hi.
    + rewrite (tally_inherited _ _ _ Hown Hi). simpl. lia.
    + rewrite (tally_new _ _ _ Hown Hi). unfold counts.
      rewrite map_app, list_sum_app. simpl. lia.
Qed.

End Tally.

End TallyFacts.

(** ** The keys of the month and the day breakdown *)

Module KeyFacts.

Import JSString JSDate JSObject StringOrder StringOrderFacts LogDownloader.

Lemma key_char_above_comma (c : ascii) :
  key_char c = true -> above_comma c = true.
Proof.
  destruct c as [[] [] [] [] [] [] [] []]; vm_compute; congruence.
Qed.

Lemma digit_key_char (c : ascii) : is_digit c = true -> key_char c = true.
Proof. unfold key_char. now intros ->. Qed.

Lemma string_of_uint_digits (d : Decimal.uint) :
  all_chars is_digit (NilEmpty.string_of_uint d) = true.
Proof. induction d; simpl; auto. Qed.

Lemma nilzero_digits (d : Decimal.uint) :
  all_chars is_digit (NilZero.string_of_uint d) = true.
Proof.
  destruct d; try reflexivity;
    exact (string_of_uint_digits _).
Qed.

Lemma nilzero_nonempty (d : Decimal.uint) :
  NilZero.string_of_uint d <> EmptyString.
Proof. destruct d; discriminate. Qed.

Lemma Number_toString_chars (n : Z) :
  all_chars key_char (Number_toString n) = true.
Proof.
  unfold Number_toString. destruct (n <? 0); simpl.
  - apply (all_chars_weaken is_digit); [apply digit_key_char|].
    apply nilzero_digits.
  - apply (all_chars_weaken is_digit); [apply digit_key_char|].
    apply nilzero_digits.
Qed.

Lemma Number_toString_nonneg_digits (n : Z) :
  0 <= n -> all_chars is_digit (Number_toString n) = true.
Proof.
  intros H. unfold Number_toString.
  destruct (n <? 0) eqn:E; [lia|]. apply nilzero_digits.
Qed.

Lemma Number_toString_nonempty (n : Z) : Number_toString n <> EmptyString.
Proof.
  unfold Number_toString. destruct (n <? 0); [discriminate|].
  apply nilzero_nonempty.
Qed.

Lemma repeat_char_chars (p : ascii -> bool) (n : nat) (c : ascii) :
  p c = true -> all_chars p (repeat_char n c) = true.
Proof. intros H. induction n; simpl; [reflexivity|]. now rewrite H. Qed.

Lemma padStart_chars (p : ascii -> bool) (s : string) (n : nat) (c : ascii) :
  p c = true -> all_chars p s = true -> all_chars p (padStart s n c) = true.
Proof.
  intros Hc Hs. unfold padStart.
  now rewrite all_chars_app, repeat_char_chars, Hs.
Qed.

Lemma padStart_nonempty (s : string) (n : nat) (c : ascii) :
  s <> EmptyString -> padStart s n c <> EmptyString.
Proof.
  unfold padStart. destruct (repeat_char _ _); simpl; [auto|discriminate].
Qed.

Lemma pad_chars (w : nat) (n : Z) : all_chars key_char (pad w n) = true.
Proof.
  apply padStart_chars; [reflexivity|apply Number_toString_chars].
Qed.

Lemma pad_nonempty (w : nat) (n : Z) : pad w n <> EmptyString.
Proof. apply padStart_nonempty, Number_toString_nonempty. Qed.

(** A text of key characters that is not empty is a numeric key. *)
Lemma key_chars_numeric (s : string) :
  s <> EmptyString -> all_chars key_char s = true -> numeric_key s = true.
Proof.
  destruct s as [|c r]; [congruence|]. simpl. unfold iso_char.
  rewrite !andb_true_iff. intros _ [-> ->]. auto.
Qed.

Lemma numeric_key_app (a b : string) :
  numeric_key a = true -> all_chars key_char b = true ->
  numeric_key (a ++ b) = true.
Proof.
  destruct a as [|c r]; [discriminate|]. simpl.
  rewrite all_chars_app, !andb_true_iff. intros [-> ->] ->. auto.
Qed.

Lemma iso_year_numeric (y : Z) : numeric_key (iso_year y) = true.
Proof.
  unfold iso_year. destruct ((0 <=? y) && (y <=? 9999)).
  - apply key_chars_numeric; [apply pad_nonempty|apply pad_chars].
  - simpl. rewrite pad_chars. now destruct (y <? 0).
Qed.

Lemma iso_date_numeric (t : Z) : numeric_key (iso_date t) = true.
Proof.
  unfold iso_date. apply numeric_key_app; [apply iso_year_numeric|].
  rewrite !all_chars_app, !pad_chars. reflexivity.
Qed.

(** A numeric key names no member of [Object.prototype]. *)
Lemma numeric_key_not_inherited (k : string) :
  numeric_key k = true -> inherited k = false.
Proof.
  destruct k as [|c r]; [discriminate|]. simpl. rewrite andb_true_iff.
  intros [Hc _]. revert Hc.
  destruct c as [[] [] [] [] [] [] [] []]; vm_compute; congruence.
Qed.

(** How two numeric keys compare is how the texts of their entries do. *)
Lemma numeric_key_entry_compare (x a b : string) :
  numeric_key a = true -> numeric_key b = true ->
  String.compare (a ++ String "," x) (b ++ String "," x) = String.compare a b.
Proof.
  destruct a as [|c a]; [discriminate|]. destruct b as [|d b]; [discriminate|].
  simpl numeric_key. rewrite !andb_true_iff. intros [_ Ha] [_ Hb].
  apply compare_app_comma_tail.
  - exact (all_chars_weaken _ _ _ key_char_above_comma Ha).
  - exact (all_chars_weaken _ _ _ key_char_above_comma Hb).
Qed.

(** [split] stops the first piece at the first separator. *)
Lemma split_head (sep : ascii) (a b : string) :
  all_chars (fun c => negb (Ascii.eqb c sep)) a = true ->
  split sep (a ++ String sep b) = a :: split sep b.
Proof.
  induction a as [|c a IH]; simpl.
  - now rewrite Ascii.eqb_refl.
  - rewrite andb_true_iff. intros [Hc Ha]. apply negb_true_iff in Hc.
    now rewrite Hc, (IH Ha).
Qed.

Lemma split_none (sep : ascii) (a : string) :
  all_chars (fun c => negb (Ascii.eqb c sep)) a = true ->
  split sep a = [a].
Proof.
  induction a as [|c a IH]; simpl; [reflexivity|].
  rewrite andb_true_iff. intros [Hc Ha]. apply negb_true_iff in Hc.
  now rewrite Hc, (IH Ha).
Qed.

Lemma numeric_key_no (sep : ascii) (k : string) :
  iso_char sep = false -> numeric_key k = true ->
  all_chars (fun c => negb (Ascii.eqb c sep)) k = true.
Proof.
  intros Hsep. destruct k as [|c r]; [discriminate|]. simpl.
  rewrite !andb_true_iff. intros [Hc Hr]. split.
  - apply negb_true_iff, Ascii.eqb_neq. intros ->. congruence.
  - eapply all_chars_weaken; [|exact Hr]. intros d Hd.
    apply negb_true_iff, Ascii.eqb_neq. intros ->.
    unfold iso_char in Hsep. rewrite Hd in Hsep. discriminate.
Qed.

Section WithHost.

Context {host : Host}.

(** The day key is the date part of [toISOString]. *)
Lemma day_of_iso_date (t : Z) : day_of t = iso_date t.
Proof.
  unfold day_of, toISOString.
  change (iso_date t ++ "T" ++ iso_time t)
    with (iso_date t ++ String "T" (iso_time t)).
  rewrite split_head; [reflexivity|].
  apply numeric_key_no; [reflexivity|apply iso_date_numeric].
Qed.

Lemma day_of_numeric (t : Z) : numeric_key (day_of t) = true.
Proof. rewrite day_of_iso_date. apply iso_date_numeric. Qed.

Lemma monthYear_of_numeric (t : Z) : numeric_key (monthYear_of t) = true.
Proof.
  unfold monthYear_of. apply numeric_key_app.
  - apply key_chars_numeric;
      [apply Number_toString_nonempty|apply Number_toString_chars].
  - rewrite all_chars_app. simpl.
    apply padStart_chars; [reflexivity|apply Number_toString_chars].
Qed.

End WithHost.

End KeyFacts.

(** ** The breakdowns *)

Module BreakdownFacts.

Import JSString JSNumber JSDate JSObject StringOrder StringOrderFacts.
Import SortFacts LogDownloader Spec TallyFacts KeyFacts.

Local Open Scope list_scope.

Lemma filter_split_perm {A : Type} (p : A -> bool) (l : list A) :
  Permutation (filter p l ++ filter (fun x => negb (p x)) l) l.
Proof.
  induction l as [|x l IH]; simpl; [reflexivity|].
  destruct (p x); simpl.
  - now constructor.
  - rewrite <- Permutation_middle. now constructor.
Qed.

(** [Object.entries] lists every own property once. *)
Lemma Object_entries_perm {V : Type} (o : @object V) :
  Permutation (Object_entries o) o.
Proof.
  unfold Object_entries. rewrite sort_by_perm. apply filter_split_perm.
Qed.

Lemma counts_perm (o o' : @object bucket) :
  Permutation o o' -> counts o = counts o'.
Proof.
  intros H. unfold counts. induction H; simpl; lia.
Qed.

Section Breakdown.

Context {host : Host}.

Variable key_of : resource -> string.

Lemma sorted_entries_perm (rs : list resource) :
  Permutation (sorted_entries key_of rs) (tally_all key_of rs).
Proof.
  unfold sorted_entries. rewrite Array_sort_perm. apply Object_entries_perm.
Qed.

(** An entry of a breakdown is a key some event has, with the count and
    the summed savings of the events of that key. *)
Lemma in_sorted_entries (rs : list resource) (k : string) (b : bucket) :
  In (k, b) (sorted_entries key_of rs) <-> expected key_of k rs = Some b.
Proof.
  rewrite <- in_tally_all. split; apply Permutation_in;
    [|symmetry]; apply sorted_entries_perm.
Qed.

Lemma in_Object_entries (rs : list resource) (k : string) (b : bucket) :
  In (k, b) (Object_entries (tally_all key_of rs))
  <-> expected key_of k rs = Some b.
Proof.
  rewrite <- in_tally_all. split; apply Permutation_in;
    [|symmetry]; apply Object_entries_perm.
Qed.

Lemma expected_some (rs : list resource) (k : string) (b : bucket) :
  expected key_of k rs = Some b ->
  b = stats (group key_of k rs) /\ exists r, In r rs /\ key_of r = k.
Proof.
  unfold expected. destruct (inherited k); [discriminate|].
  destruct (group key_of k rs) as [|r g] eqn:Hg; [discriminate|].
  intros [= <-]. split; [reflexivity|]. exists r.
  assert (Hin : In r (group key_of k rs)) by (rewrite Hg; now left).
  unfold group in Hin. apply filter_In in Hin. destruct Hin as [H1 H2].
  apply String.eqb_eq in H2. auto.
Qed.

Lemma expected_of_event (rs : list resource) (r : resource) :
  In r rs -> inherited (key_of r) = false ->
  expected key_of (key_of r) rs = Some (stats (group key_of (key_of r) rs)).
Proof.
  intros Hin Hi. unfold expected. rewrite Hi.
  destruct (group key_of (key_of r) rs) as [|x g] eqn:Hg; [|reflexivity].
  exfalso. assert (H : In r (group key_of (key_of r) rs)).
  { unfold group. apply filter_In. split; [exact Hin|].
    apply String.eqb_refl. }
  rewrite Hg in H. exact H.
Qed.

Lemma sorted_entries_keys_nodup (rs : list resource) :
  NoDup (map fst (sorted_entries key_of rs)).
Proof.
  eapply Permutation_NoDup;
    [|exact (keys_tally_all_nodup key_of rs)].
  apply Permutation_map. symmetry. apply sorted_entries_perm.
Qed.

Hypothesis key_numeric : forall r, numeric_key (key_of r) = true.

Lemma sorted_entries_key_numeric (rs : list resource) (kv : string * bucket) :
  In kv (sorted_entries key_of rs) -> numeric_key (fst kv) = true.
Proof.
  destruct kv as [k b]. rewrite in_sorted_entries. intros H.
  apply expected_some in H. destruct H as [_ [r [_ <-]]]. apply key_numeric.
Qed.

(** The month and the day breakdown come out in ascending order of their
    keys, each key once. *)
Lemma sorted_entries_ascending (rs : list resource) :
  StronglySorted (fun a b => text_lt (fst a) (fst b))
    (sorted_entries key_of rs).
Proof.
  apply (sorted_nodup_strict fst); [apply sorted_entries_keys_nodup|].
  eapply strongly_sorted_impl_in;
    [|exact (Array_sort_sorted entry_toString _)].
  intros a b Ha Hb. unfold entry_toString, String.leb.
  change ",[object Object]" with (String "," "[object Object]").
  rewrite numeric_key_entry_compare;
    [tauto|exact (sorted_entries_key_numeric rs a Ha)
          |exact (sorted_entries_key_numeric rs b Hb)].
Qed.

Lemma counted_all (rs : list resource) : counted key_of rs = rs.
Proof.
  unfold counted. induction rs as [|r rs IH]; simpl; [reflexivity|].
  rewrite (numeric_key_not_inherited _ (key_numeric r)). simpl. now rewrite IH.
Qed.

(** The counters of the month and of the day breakdown add up to the
    number of events. *)
Lemma counts_sorted_entries (rs : list resource) :
  counts (sorted_entries key_of rs) = List.length rs.
Proof.
  rewrite (counts_perm _ _ (sorted_entries_perm rs)).
  now rewrite counts_tally_all, counted_all.
Qed.

End Breakdown.

Section Entries.

Context {host : Host}.

Lemma month_entry_count (o : list (string * bucket)) :
  list_sum (map MonthEntry.count (map month_entry o)) = counts o.
Proof.
  unfold counts. rewrite map_map. f_equal. apply map_ext. now intros [k b].
Qed.

Lemma day_entry_count (o : list (string * bucket)) :
  list_sum (map DayEntry.count (map day_entry o)) = counts o.
Proof.
  unfold counts. rewrite map_map. f_equal. apply map_ext. now intros [k b].
Qed.

Lemma type_entry_count (o : list (string * bucket)) :
  list_sum (map TypeEntry.count (map type_entry o)) = counts o.
Proof.
  unfold counts. rewrite map_map. f_equal. apply map_ext. now intros [k b].
Qed.

Lemma getBreakdownByMonth_count (rs : list resource) :
  list_sum (map MonthEntry.count (getBreakdownByMonth rs)) = List.length rs.
Proof.
  unfold getBreakdownByMonth. rewrite month_entry_count.
  apply counts_sorted_entries. intros r. apply monthYear_of_numeric.
Qed.

Lemma getBreakdownByDay_count (rs : list resource) :
  list_sum (map DayEntry.count (getBreakdownByDay rs)) = List.length rs.
Proof.
  unfold getBreakdownByDay. rewrite day_entry_count.
  apply counts_sorted_entries. intros r. apply day_of_numeric.
Qed.

End Entries.

End BreakdownFacts.

(** ** The two export operations *)

Module ExportFacts.

Import JSString JSNumber JSDate JSObject LogDownloader Spec.

Local Open Scope list_scope.

Section Operations.

Context {host : Host}.
Variable data : dashboard.

Lemma downloadAllLogs_empty (now : Z) :
  deleted_resources data = None \/ deleted_resources data = Some [] ->
  downloadAllLogs data now = alert no_data_notice.
Proof. unfold downloadAllLogs. now intros [-> | ->]. Qed.

Lemma downloadMonthLog_empty (monthYear : string) (now : Z) :
  deleted_resources data = None \/ deleted_resources data = Some [] ->
  downloadMonthLog data monthYear now = alert no_data_notice.
Proof. unfold downloadMonthLog. now intros [-> | ->]. Qed.

Lemma getAvailableMonths_empty :
  deleted_resources data = None \/ deleted_resources data = Some [] ->
  getAvailableMonths data = [].
Proof. unfold getAvailableMonths. now intros [-> | ->]. Qed.

(** With events to export, [downloadAllLogs] hands a document over. *)
Lemma downloadAllLogs_document (rs : list resource) (now : Z) :
  deleted_resources data = Some rs -> rs <> [] ->
  downloadAllLogs data now =
  downloadJSON (complete_document data now (filter_up_to now rs))
    ("costguardian-complete-log-" ++ formatDate now ++ ".json")%string.
Proof.
  intros H Hne. unfold downloadAllLogs. rewrite H.
  destruct rs; [congruence|reflexivity].
Qed.

(** A date that an event compares true with is a valid date. *)
Lemma filter_month_dates (monthYear : string) (rs : list resource) :
  filter_month monthYear rs <> [] ->
  exists startDate endDate,
    startDate_of (nth_error (split "-" monthYear) 0)
                 (nth_error (split "-" monthYear) 1) = Some startDate
    /\ endDate_of (nth_error (split "-" monthYear) 0)
                  (nth_error (split "-" monthYear) 1) = Some endDate.
Proof.
  unfold filter_month.
  destruct (startDate_of _ _) as [s|]; destruct (endDate_of _ _) as [e|];
    eauto; intros H; exfalso; apply H; clear H;
    induction rs as [|r rs IH]; simpl; auto;
    unfold date_ge, date_le; simpl; rewrite ?andb_false_r; auto.
Qed.

Lemma length_zero_iff {A : Type} (l : list A) :
  (List.length l =? 0)%nat = true <-> l = [].
Proof. destruct l; simpl; split; congruence. Qed.

(** With events in the requested month, [downloadMonthLog] hands a
    document over; it never throws. *)
Lemma downloadMonthLog_document (rs : list resource) (monthYear : string)
  (now : Z) :
  deleted_resources data = Some rs ->
  filter_month monthYear rs <> [] ->
  exists startDate endDate,
    startDate_of (nth_error (split "-" monthYear) 0)
                 (nth_error (split "-" monthYear) 1) = Some startDate
    /\ endDate_of (nth_error (split "-" monthYear) 0)
                  (nth_error (split "-" monthYear) 1) = Some endDate
    /\ downloadMonthLog data monthYear now =
       downloadJSON
         (monthly_document data (nth_error (split "-" monthYear) 0)
            (nth_error (split "-" monthYear) 1) startDate endDate now
            (filter_month monthYear rs))
         ("costguardian-" ++ template (nth_error (split "-" monthYear) 0)
            ++ "-" ++ template (nth_error (split "-" monthYear) 1)
            ++ "-log.json")%string.
Proof.
  intros H Hne.
  destruct (filter_month_dates _ _ Hne) as (s & e & Hs & He).
  exists s, e. split; [exact Hs|]. split; [exact He|].
  unfold downloadMonthLog. rewrite H.
  assert (Hrs : rs <> []) by (intros ->; now apply Hne).
  destruct rs as [|r rs']; [congruence|].
  destruct (List.length (filter_month monthYear (r :: rs')) =? 0)%nat eqn:E.
  - apply length_zero_iff in E. congruence.
  - now rewrite Hs, He.
Qed.

(** Without events in the requested month, [downloadMonthLog] gives the
    notice. *)
Lemma downloadMonthLog_notice (rs : list resource) (monthYear : string)
  (now : Z) :
  deleted_resources data = Some rs -> rs <> [] ->
  filter_month monthYear rs = [] ->
  downloadMonthLog data monthYear now =
  alert (no_resources_notice (nth_error (split "-" monthYear) 0)
           (nth_error (split "-" monthYear) 1)).
Proof.
  intros H Hne Hf. unfold downloadMonthLog. rewrite H.
  destruct rs as [|r rs']; [congruence|]. now rewrite Hf.
Qed.

Lemma downloadMonthLog_never_throws (monthYear : string) (now : Z) :
  downloadMonthLog data monthYear now <> RangeError.
Proof.
  destruct (deleted_resources data) as [rs|] eqn:H.
  - destruct rs as [|r rs'] eqn:Hrs.
    + rewrite downloadMonthLog_empty by auto. discriminate.
    + rewrite <- Hrs in *.
      destruct (filter_month monthYear rs) as [|x l] eqn:Hf.
      * rewrite (downloadMonthLog_notice rs) by (subst; congruence).
        discriminate.
      * destruct (downloadMonthLog_document rs monthYear now H)
          as (s & e & _ & _ & ->); [congruence|discriminate].
  - rewrite downloadMonthLog_empty by auto. discriminate.
Qed.

(** The annual total adds up the contributions event by event. *)
Lemma annual_or_derived_contribution (r : resource) :
  annual_or_derived r = annual_contribution r.
Proof.
  unfold annual_or_derived, annual_contribution, derived_annual, or_field,
    mul_field, or.
  destruct (annual_savings r) as [a|].
  - destruct (ToBoolean a) eqn:Ha; [now rewrite Ha|].
    destruct (monthly_savings r) as [m|]; reflexivity.
  - destruct (monthly_savings r) as [m|]; reflexivity.
Qed.

Lemma total_annual_sum (rs : list resource) :
  total_annual rs = toFixed2 (sum_over annual_contribution rs).
Proof.
  unfold total_annual, sum_over. f_equal.
  generalize 0%float. induction rs as [|r rs IH]; intros acc; simpl;
    [reflexivity|].
  now rewrite annual_or_derived_contribution, IH.
Qed.

Lemma enrich_region (r : resource) :
  Enriched.region (enrich data r)
  = region_by_claim (region r) (aws_region data).
Proof.
  unfold enrich, region_by_claim, or_text. simpl.
  destruct (region r) as [[|c s]|]; destruct (aws_region data) as [[|d u]|];
    reflexivity.
Qed.

End Operations.

End ExportFacts.

(** ** The calendar *)

Module DateFacts.

Import JSDate.

Ltac div_lia := Z.div_mod_to_equations; lia.

(** Replaces [month_start] at given arguments by its value. *)
Ltac month_starts :=
  repeat match goal with
         | |- context [month_start ?l ?m] =>
             let v := eval vm_compute in (month_start l m) in
             change (month_start l m) with v
         | H : context [month_start ?l ?m] |- _ =>
             let v := eval vm_compute in (month_start l m) in
             change (month_start l m) with v in H
         end.

Lemma leap_cases (y : Z) :
  (leap y = true /\ DaysInYear y = 366)
  \/ (leap y = false /\ DaysInYear y = 365).
Proof. unfold DaysInYear. destruct (leap y); auto. Qed.

Lemma DayFromYear_succ (y : Z) :
  DayFromYear (y + 1) = DayFromYear y + DaysInYear y.
Proof.
  unfold DaysInYear, leap, DayFromYear.
  destruct (Z.eqb_spec (y mod 4) 0), (Z.eqb_spec (y mod 100) 0),
    (Z.eqb_spec (y mod 400) 0); cbn [andb orb negb]; div_lia.
Qed.

Lemma DaysInYear_pos (y : Z) : 365 <= DaysInYear y <= 366.
Proof. unfold DaysInYear. destruct (leap y); lia. Qed.

Lemma DayFromYear_le (y1 y2 : Z) :
  y1 <= y2 -> DayFromYear y1 <= DayFromYear y2.
Proof. unfold DayFromYear. intros H. div_lia. Qed.

Lemma DayFromYear_lt (y1 y2 : Z) :
  y1 < y2 -> DayFromYear y1 < DayFromYear y2.
Proof.
  intros H. pose proof (DayFromYear_le (y1 + 1) y2 ltac:(lia)) as H1.
  rewrite DayFromYear_succ in H1. pose proof (DaysInYear_pos y1). lia.
Qed.

(** The year of a time value is the year its day falls in. *)
Lemma YearFromTime_spec (t : Z) :
  DayFromYear (YearFromTime t) <= Day t < DayFromYear (YearFromTime t + 1).
Proof.
  unfold YearFromTime. set (d := Day t). set (y := 1970 + d * 400 / 146097).
  assert (Hlo : DayFromYear (y - 1) <= d).
  { subst y. unfold DayFromYear. div_lia. }
  assert (Hhi : d < DayFromYear (y + 2)).
  { subst y. unfold DayFromYear. div_lia. }
  destruct (Z.leb_spec (DayFromYear (y + 1)) d).
  - replace (y + 1 + 1) with (y + 2) by lia. lia.
  - destruct (Z.ltb_spec d (DayFromYear y)).
    + replace (y - 1 + 1) with y by lia. lia.
    + lia.
Qed.

Lemma YearFromTime_unique (t y : Z) :
  DayFromYear y <= Day t < DayFromYear (y + 1) -> YearFromTime t = y.
Proof.
  intros H. pose proof (YearFromTime_spec t) as H'.
  destruct (Z.lt_trichotomy (YearFromTime t) y) as [Hlt|[Heq|Hgt]];
    [|exact Heq|].
  - pose proof (DayFromYear_le (YearFromTime t + 1) y ltac:(lia)). lia.
  - pose proof (DayFromYear_le (y + 1) (YearFromTime t) ltac:(lia)). lia.
Qed.

Lemma YearFromTime_iff (t y : Z) :
  YearFromTime t = y <-> DayFromYear y <= Day t < DayFromYear (y + 1).
Proof.
  split; [intros <-; apply YearFromTime_spec|apply YearFromTime_unique].
Qed.

(** The first day of a month, by day number. *)
Lemma MakeDay_first (y mn : Z) :
  0 <= mn <= 11 ->
  MakeDay y mn 1 = DayFromYear y + month_start (if leap y then 1 else 0) mn.
Proof.
  intros H. unfold MakeDay.
  replace (mn / 12) with 0 by div_lia.
  replace (mn mod 12) with mn by div_lia.
  rewrite Z.add_0_r. lia.
Qed.

(** Month 12 of a year is the January after it. *)
Lemma MakeDay_carry (y : Z) :
  MakeDay y 12 1 = DayFromYear y + month_start (if leap y then 1 else 0) 12.
Proof.
  unfold MakeDay. change (12 / 12) with 1. change (12 mod 12) with 0.
  rewrite DayFromYear_succ. unfold DaysInYear.
  destruct (leap y); destruct (leap (y + 1)); month_starts; lia.
Qed.

Lemma MakeDay_next (y mn : Z) :
  0 <= mn <= 11 ->
  MakeDay y (mn + 1) 1
  = DayFromYear y + month_start (if leap y then 1 else 0) (mn + 1).
Proof.
  intros H. destruct (Z.eq_dec mn 11) as [->|Hne].
  - apply MakeDay_carry.
  - apply MakeDay_first. lia.
Qed.

(** Day 0 of a month is the last day of the month before. *)
Lemma MakeDay_zero (y m : Z) : MakeDay y m 0 = MakeDay y m 1 - 1.
Proof. unfold MakeDay. lia. Qed.

Lemma month_start_cases (l mn : Z) :
  0 <= mn <= 11 ->
  mn = 0 \/ mn = 1 \/ mn = 2 \/ mn = 3 \/ mn = 4 \/ mn = 5 \/ mn = 6
  \/ mn = 7 \/ mn = 8 \/ mn = 9 \/ mn = 10 \/ mn = 11.
Proof. lia. Qed.

(** A time value lies in month [mn] of year [y] exactly when its day
    lies between the first day of that month and the first of the next. *)
Lemma in_month_iff (t y mn : Z) :
  0 <= mn <= 11 ->
  YearFromTime t = y /\ MonthFromTime t = mn
  <-> MakeDay y mn 1 <= Day t < MakeDay y (mn + 1) 1.
Proof.
  intros Hmn. rewrite (MakeDay_first y mn Hmn), (MakeDay_next y mn Hmn).
  split.
  - intros [Hy Hm]. pose proof (YearFromTime_spec t) as Hs.
    rewrite DayFromYear_succ in Hs. unfold MonthFromTime, DayWithinYear,
      InLeapYear in Hm. rewrite Hy in *. unfold DaysInYear in Hs.
    destruct (leap y);
      repeat match type of Hm with
             | context [?a <? ?b] => destruct (Z.ltb_spec a b)
             end; subst mn; month_starts; lia.
  - intros H.
    assert (Hy : YearFromTime t = y).
    { apply YearFromTime_unique. rewrite DayFromYear_succ.
      unfold DaysInYear.
      destruct (month_start_cases 0 mn Hmn)
        as [->|[->|[->|[->|[->|[->|[->|[->|[->|[->|[->| ->]]]]]]]]]]];
        destruct (leap y); month_starts; lia. }
    split; [exact Hy|].
    unfold MonthFromTime, DayWithinYear, InLeapYear. rewrite Hy.
    destruct (month_start_cases 0 mn Hmn)
      as [->|[->|[->|[->|[->|[->|[->|[->|[->|[->|[->| ->]]]]]]]]]]];
      destruct (leap y); month_starts;
      repeat match goal with
             | |- context [?a <? ?b] => destruct (Z.ltb_spec a b)
             end; lia.
Qed.

Lemma Day_bounds (t lo hi : Z) :
  lo <= Day t < hi <-> lo * msPerDay <= t < hi * msPerDay.
Proof. unfold Day, msPerDay. split; intros H; div_lia. Qed.

End DateFacts.

(** ** Reading a month key back *)

Module ParseFacts.

Import JSString StringOrder StringOrderFacts KeyFacts.

Lemma digit_not_space (c : ascii) : is_digit c = true -> is_space c = false.
Proof. destruct c as [[] [] [] [] [] [] [] []]; vm_compute; congruence. Qed.

Lemma digit_not_sign (c : ascii) :
  is_digit c = true -> Ascii.eqb c "-" = false /\ Ascii.eqb c "+" = false.
Proof. destruct c as [[] [] [] [] [] [] [] []]; vm_compute; auto. Qed.

Lemma digit_not_x (c : ascii) :
  is_digit c = true -> Ascii.eqb c "x" || Ascii.eqb c "X" = false.
Proof. destruct c as [[] [] [] [] [] [] [] []]; vm_compute; congruence. Qed.

Lemma digit_not_dash (c : ascii) :
  is_digit c = true -> negb (Ascii.eqb c "-") = true.
Proof. intros H. now rewrite (proj1 (digit_not_sign c H)). Qed.

Lemma take_while_all (p : ascii -> bool) (s : string) :
  all_chars p s = true -> take_while p s = s.
Proof.
  induction s as [|c s IH]; simpl; [reflexivity|].
  rewrite andb_true_iff. intros [-> H]. now rewrite IH.
Qed.

(** On a text of digits [parseInt] reads the whole text in base ten. *)
Lemma parseInt_digits (s : string) :
  s <> EmptyString -> all_chars is_digit s = true ->
  parseInt s =
  option_map (fun d => Z.of_N (N.of_uint d)) (NilEmpty.uint_of_string s).
Proof.
  intros Hne Hall. destruct s as [|c r]; [congruence|].
  pose proof Hall as Hall'. simpl in Hall'. apply andb_true_iff in Hall'.
  destruct Hall' as [Hc Hr].
  unfold parseInt. cbn [trim_start]. rewrite (digit_not_space c Hc).
  destruct (digit_not_sign c Hc) as [-> ->].
  assert (Hu : unsigned_digits (String c r) = decimal_digits (String c r)).
  { unfold unsigned_digits. destruct r as [|c2 r2]; [reflexivity|].
    simpl in Hr. apply andb_true_iff in Hr. destruct Hr as [Hc2 _].
    now rewrite (digit_not_x c2 Hc2), andb_false_r. }
  rewrite Hu. unfold decimal_digits. rewrite (take_while_all _ _ Hall).
  reflexivity.
Qed.

Lemma uint_of_nilzero (d : Decimal.uint) :
  option_map N.of_uint (NilEmpty.uint_of_string (NilZero.string_of_uint d))
  = Some (N.of_uint d).
Proof.
  destruct d; try reflexivity;
    match goal with
    | |- context [NilZero.string_of_uint ?d] =>
        change (NilZero.string_of_uint d) with (NilEmpty.string_of_uint d)
    end; now rewrite NilEmpty.usu.
Qed.

(** Printing a year and reading it back gives the year. *)
Lemma parseInt_Number_toString (n : Z) :
  0 <= n -> parseInt (Number_toString n) = Some n.
Proof.
  intros H.
  rewrite parseInt_digits;
    [|apply Number_toString_nonempty|now apply Number_toString_nonneg_digits].
  unfold Number_toString. destruct (n <? 0) eqn:E; [lia|].
  pose proof (uint_of_nilzero (N.to_uint (Z.to_N n))) as Hu.
  destruct (NilEmpty.uint_of_string _) as [d|]; [|discriminate].
  simpl in *. injection Hu as Hu. rewrite Hu, DecimalN.Unsigned.of_to.
  f_equal. lia.
Qed.

(** The same for the two digits of a month. *)
Lemma parseInt_month (m : Z) :
  1 <= m <= 12 -> parseInt (padStart (Number_toString m) 2 "0") = Some m.
Proof.
  intros H.
  assert (Hm : m = 1 \/ m = 2 \/ m = 3 \/ m = 4 \/ m = 5 \/ m = 6 \/ m = 7
               \/ m = 8 \/ m = 9 \/ m = 10 \/ m = 11 \/ m = 12) by lia.
  destruct Hm as [->|[->|[->|[->|[->|[->|[->|[->|[->|[->|[->| ->]]]]]]]]]]];
    reflexivity.
Qed.

Lemma month_digits (m : Z) :
  0 <= m -> all_chars is_digit (padStart (Number_toString m) 2 "0") = true.
Proof.
  intros H. apply padStart_chars; [reflexivity|].
  now apply Number_toString_nonneg_digits.
Qed.

(** A month key of a year that is not negative splits at its one dash. *)
Lemma split_month_key (y m : Z) :
  0 <= y -> 0 <= m ->
  split "-" (Number_toString y ++ "-" ++ padStart (Number_toString m) 2 "0")
  = [Number_toString y; padStart (Number_toString m) 2 "0"].
Proof.
  intros Hy Hm.
  change (Number_toString y ++ "-" ++ padStart (Number_toString m) 2 "0")
    with (Number_toString y
            ++ String "-" (padStart (Number_toString m) 2 "0")).
  rewrite split_head.
  - rewrite split_none; [reflexivity|].
    eapply all_chars_weaken; [|exact (month_digits m Hm)].
    apply digit_not_dash.
  - eapply all_chars_weaken;
      [|exact (Number_toString_nonneg_digits y Hy)].
    apply digit_not_dash.
Qed.

End ParseFacts.

(** ** The window of a month *)

Module MonthFacts.

Import JSString JSDate JSObject LogDownloader Spec DateFacts ParseFacts.

Local Open Scope list_scope.

Section Window.

Context {host : Host} {tza : Z}.

Hypothesis fixed : fixed_offset tza.
Hypothesis zone : - msPerDay <= tza <= msPerDay.

Lemma month_start_bounds (l mn : Z) :
  0 <= l <= 1 -> 0 <= mn <= 12 -> 0 <= month_start l mn <= 366.
Proof.
  intros Hl Hmn. unfold month_start.
  repeat match goal with
         | |- context [?a <=? ?b] => destruct (Z.leb_spec a b)
         | |- context [?a =? ?b] => destruct (Z.eqb_spec a b)
         end; lia.
Qed.

Lemma leap_flag (y : Z) : 0 <= (if leap y then 1 else 0) <= 1.
Proof. destruct (leap y); lia. Qed.

(** The first days of the months of the years 100 to 275759 lie well
    inside the range of [Date]. *)
Lemma first_day_bounds (y mn : Z) :
  100 <= y <= 275759 -> 0 <= mn <= 12 ->
  -684000 <= DayFromYear y + month_start (if leap y then 1 else 0) mn
  <= 99999744.
Proof.
  intros Hy Hmn.
  pose proof (month_start_bounds _ mn (leap_flag y) Hmn) as Hm.
  pose proof (DayFromYear_le 100 y ltac:(lia)) as Hlo.
  pose proof (DayFromYear_le (y + 1) 275760 ltac:(lia)) as Hhi.
  rewrite DayFromYear_succ in Hhi.
  change (DayFromYear 100) with (-683003) in Hlo.
  change (DayFromYear 275760) with 99999744 in Hhi.
  assert (Hm' : month_start (if leap y then 1 else 0) mn <= DaysInYear y).
  { unfold DaysInYear. destruct (leap y);
      pose proof (month_start_bounds 1 mn ltac:(lia) Hmn);
      pose proof (month_start_bounds 0 mn ltac:(lia) Hmn);
      [lia|].
    unfold month_start.
    repeat match goal with
           | |- context [?a <=? ?b] => destruct (Z.leb_spec a b)
           | |- context [?a =? ?b] => destruct (Z.eqb_spec a b)
           end; lia. }
  lia.
Qed.

Lemma MakeDay_month (y m : Z) :
  1 <= m <= 12 ->
  MakeDay y (m - 1) 1
  = DayFromYear y + month_start (if leap y then 1 else 0) (m - 1)
  /\ MakeDay y m 1
     = DayFromYear y + month_start (if leap y then 1 else 0) m.
Proof.
  intros Hm. split.
  - apply MakeDay_first. lia.
  - replace m with (m - 1 + 1) at 1 2 by lia. rewrite MakeDay_next by lia.
    now replace (m - 1 + 1) with m by lia.
Qed.

(** [new Date(year, month - 1, 1)] is the first instant of the month. *)
Lemma startDate_value (y m : Z) :
  100 <= y <= 275759 -> 1 <= m <= 12 ->
  Date_of_fields LocalTZA y (m - 1) 1 0 0 0 = Some (first_instant y m).
Proof.
  intros Hy Hm. unfold Date_of_fields, first_instant.
  replace ((0 <=? y) && (y <=? 99)) with false
    by (symmetry; apply andb_false_iff; right; apply Z.leb_gt; lia).
  unfold TimeClip.
  destruct (MakeDay_month y m Hm) as [-> _].
  pose proof (first_day_bounds y (m - 1) Hy ltac:(lia)) as Hb.
  unfold UTC. rewrite !fixed.
  unfold MakeDate, MakeTime, msPerDay, msPerHour, msPerMinute,
    msPerSecond in *.
  match goal with
  | |- (if ?c then _ else _) = _ =>
      replace c with true by (symmetry; apply Z.leb_le; lia)
  end.
  reflexivity.
Qed.

(** [new Date(year, month, 0, 23, 59, 59)] is its last labelled second. *)
Lemma endDate_value (y m : Z) :
  100 <= y <= 275759 -> 1 <= m <= 12 ->
  Date_of_fields LocalTZA y m 0 23 59 59 = Some (last_second y m).
Proof.
  intros Hy Hm. unfold Date_of_fields, last_second.
  replace ((0 <=? y) && (y <=? 99)) with false
    by (symmetry; apply andb_false_iff; right; apply Z.leb_gt; lia).
  unfold TimeClip. rewrite MakeDay_zero.
  destruct (MakeDay_month y m Hm) as [_ ->].
  pose proof (first_day_bounds y m Hy ltac:(lia)) as Hb.
  unfold UTC. rewrite !fixed.
  unfold MakeDate, MakeTime, msPerDay, msPerHour, msPerMinute,
    msPerSecond in *.
  match goal with
  | |- (if ?c then _ else _) = _ =>
      replace c with true by (symmetry; apply Z.leb_le; lia)
  end.
  reflexivity.
Qed.

(** The month is the window from its first instant to 999 milliseconds
    after its last labelled second. *)
Lemma in_month_window (y m t : Z) :
  1 <= m <= 12 ->
  in_month y m t <-> first_instant y m <= t <= last_second y m + 999.
Proof.
  intros Hm. unfold in_month, getFullYear, getMonth.
  rewrite in_month_iff by lia. replace (m - 1 + 1) with m by lia.
  rewrite Day_bounds. unfold first_instant, last_second, LocalTime, UTC.
  rewrite !fixed.
  unfold MakeDate, MakeTime, msPerDay, msPerHour, msPerMinute, msPerSecond.
  lia.
Qed.

Lemma month_start_step (l m : Z) :
  0 <= l <= 1 -> 1 <= m <= 12 ->
  month_start l (m - 1) + 1 <= month_start l m.
Proof.
  intros Hl Hm.
  assert (Hc : m = 1 \/ m = 2 \/ m = 3 \/ m = 4 \/ m = 5 \/ m = 6
               \/ m = 7 \/ m = 8 \/ m = 9 \/ m = 10 \/ m = 11 \/ m = 12)
    by lia.
  assert (Hl' : l = 0 \/ l = 1) by lia.
  destruct Hl' as [-> | ->];
    destruct Hc
      as [->|[->|[->|[->|[->|[->|[->|[->|[->|[->|[->| ->]]]]]]]]]]];
    vm_compute; congruence.
Qed.

Lemma window_not_empty (y m : Z) :
  1 <= m <= 12 -> first_instant y m <= last_second y m.
Proof.
  intros Hm. destruct (MakeDay_month y m Hm) as [H1 H2].
  unfold first_instant, last_second, UTC. rewrite !fixed.
  unfold MakeDate, MakeTime. rewrite H1, H2.
  pose proof (month_start_step _ m (leap_flag y) Hm) as H.
  revert H. generalize (month_start (if leap y then 1 else 0) (m - 1)).
  generalize (month_start (if leap y then 1 else 0) m).
  generalize (DayFromYear y).
  unfold msPerDay, msPerHour, msPerMinute, msPerSecond. intros. lia.
Qed.


(** The key of a month read back by [downloadMonthLog]. *)
Lemma month_key_parts (y m : Z) :
  0 <= y -> 1 <= m <= 12 ->
  nth_error (split "-" (month_key y m)) 0 = Some (Number_toString y)
  /\ nth_error (split "-" (month_key y m)) 1
     = Some (padStart (Number_toString m) 2 "0").
Proof.
  intros Hy Hm. unfold month_key. rewrite split_month_key by lia. auto.
Qed.

Lemma month_key_dates (y m : Z) :
  100 <= y <= 275759 -> 1 <= m <= 12 ->
  startDate_of (nth_error (split "-" (month_key y m)) 0)
               (nth_error (split "-" (month_key y m)) 1)
  = Some (first_instant y m)
  /\ endDate_of (nth_error (split "-" (month_key y m)) 0)
                (nth_error (split "-" (month_key y m)) 1)
     = Some (last_second y m).
Proof.
  intros Hy Hm.
  destruct (month_key_parts y m ltac:(lia) Hm) as [-> ->].
  unfold startDate_of, endDate_of, parseInt_opt, template.
  rewrite parseInt_Number_toString by lia. rewrite parseInt_month by lia.
  split; [now apply startDate_value|now apply endDate_value].
Qed.

(** The filter of a month keeps the events from the first instant of the
    month to its last labelled second. *)
Lemma filter_month_spec (y m : Z) (rs : list resource) (r : resource) :
  100 <= y <= 275759 -> 1 <= m <= 12 ->
  In r (filter_month (month_key y m) rs)
  <-> In r rs /\ first_instant y m <= deleted_at r <= last_second y m.
Proof.
  intros Hy Hm. unfold filter_month.
  destruct (month_key_dates y m Hy Hm) as [-> ->].
  rewrite filter_In. unfold date_ge, date_le.
  rewrite andb_true_iff, !Z.leb_le. tauto.
Qed.

End Window.

End MonthFacts.

(** ** What the breakdowns hold *)

Module GroupFacts.

Import JSString JSNumber JSDate JSObject StringOrder LogDownloader Spec.
Import SortFacts TallyFacts KeyFacts BreakdownFacts.

Local Open Scope list_scope.

Section Groups.

Context {host : Host}.

(** An entry of the breakdown by type carries the count and the summed
    monthly savings of the events of its type. *)
Lemma type_entry_of_group (rs : list resource) (e : TypeEntry.t) :
  In e (getBreakdownByType rs) ->
  e = type_entry (TypeEntry.type e,
                  stats (group resource_type (TypeEntry.type e) rs))
  /\ exists r, In r rs /\ resource_type r = TypeEntry.type e.
Proof.
  unfold getBreakdownByType. rewrite in_map_iff.
  intros [[k b] [<- Hin]]. apply in_Object_entries in Hin.
  apply expected_some in Hin. destruct Hin as [-> Hr]. simpl. auto.
Qed.

(** An entry of the breakdown by month is made of the key of a month
    some event falls in and of the count and the summed monthly savings
    of the events of that month. *)
Lemma month_entry_of_group (rs : list resource) (e : MonthEntry.t) :
  In e (getBreakdownByMonth rs) ->
  exists k,
    e = month_entry
          (k, stats (group (fun r => monthYear_of (deleted_at r)) k rs))
    /\ exists r, In r rs /\ monthYear_of (deleted_at r) = k.
Proof.
  unfold getBreakdownByMonth. rewrite in_map_iff.
  intros [[k b] [<- Hin]]. apply in_sorted_entries in Hin.
  apply expected_some in Hin. destruct Hin as [-> Hr]. eauto.
Qed.

Lemma day_entry_of_group (rs : list resource) (e : DayEntry.t) :
  In e (getBreakdownByDay rs) ->
  e = day_entry (DayEntry.date e,
                 stats (group (fun r => day_of (deleted_at r))
                          (DayEntry.date e) rs))
  /\ exists r, In r rs /\ day_of (deleted_at r) = DayEntry.date e.
Proof.
  unfold getBreakdownByDay. rewrite in_map_iff.
  intros [[k b] [<- Hin]]. apply in_sorted_entries in Hin.
  apply expected_some in Hin. destruct Hin as [-> Hr]. simpl. auto.
Qed.

(** The accumulation reads the key and the monthly savings of an event
    and nothing else of it. *)
Lemma tally_ext (k : string) (r1 r2 : resource) (o : object) :
  monthly_or_zero r1 = monthly_or_zero r2 -> tally k r1 o = tally k r2 o.
Proof. intros H. unfold tally. now rewrite H. Qed.

Lemma tally_all_map (key_of : resource -> string)
  (f : resource -> resource) (rs : list resource) :
  (forall r, key_of (f r) = key_of r) ->
  (forall r, monthly_or_zero (f r) = monthly_or_zero r) ->
  tally_all key_of (map f rs) = tally_all key_of rs.
Proof.
  intros Hk Hm. unfold tally_all. generalize (@nil (string * bucket)).
  induction rs as [|r rs IH]; intros o; simpl; [reflexivity|].
  now rewrite Hk, (tally_ext _ (f r) r o (Hm r)), IH.
Qed.

Lemma breakdowns_ignore_annual (rs : list resource) :
  getBreakdownByType (map without_annual rs) = getBreakdownByType rs
  /\ getBreakdownByMonth (map without_annual rs) = getBreakdownByMonth rs
  /\ getBreakdownByDay (map without_annual rs) = getBreakdownByDay rs.
Proof.
  unfold getBreakdownByType, getBreakdownByMonth, getBreakdownByDay,
    sorted_entries.
  rewrite !tally_all_map by reflexivity. auto.
Qed.

End Groups.

End GroupFacts.

(** ** The order of month keys *)

Module KeyOrderFacts.

Import JSString JSDate StringOrder StringOrderFacts LogDownloader Spec.

Lemma ltb_lt (a b : string) : String.ltb a b = true <-> text_lt a b.
Proof.
  unfold String.ltb, text_lt. destruct (String.compare a b); split; congruence.
Qed.

Lemma years_ascend_spec (fuel : nat) (y : Z) :
  years_ascend fuel y = true ->
  forall j, y <= j < y + Z.of_nat fuel ->
    String.length (Number_toString j) = 4%nat
    /\ String.length (Number_toString (j + 1)) = 4%nat
    /\ text_lt (Number_toString j) (Number_toString (j + 1)).
Proof.
  revert y. induction fuel as [|fuel IH]; intros y H j Hj; [lia|].
  cbn [years_ascend] in H. rewrite !andb_true_iff in H.
  destruct H as [[[H1 H2] H3] H4].
  destruct (Z.eq_dec j y) as [->|Hne].
  - apply Nat.eqb_eq in H1, H2. apply ltb_lt in H3. auto.
  - apply (IH (y + 1) H4). lia.
Qed.

Lemma years_ascend_all : years_ascend (Z.to_nat 8999) 1000 = true.
Proof. vm_compute. reflexivity. Qed.

Lemma year_text_step (y : Z) :
  1000 <= y < 9999 ->
  String.length (Number_toString y) = 4%nat
  /\ String.length (Number_toString (y + 1)) = 4%nat
  /\ text_lt (Number_toString y) (Number_toString (y + 1)).
Proof.
  intros H. apply (years_ascend_spec _ _ years_ascend_all).
  rewrite Z2Nat.id; lia.
Qed.

Lemma year_text_length (y : Z) :
  1000 <= y <= 9999 -> String.length (Number_toString y) = 4%nat.
Proof.
  intros H. destruct (Z.eq_dec y 9999) as [->|Hne]; [reflexivity|].
  apply (year_text_step y). lia.
Qed.

(** The texts of the years of four digits ascend with the years. *)
Lemma year_text_lt (y1 y2 : Z) :
  1000 <= y1 -> y1 < y2 -> y2 <= 9999 ->
  text_lt (Number_toString y1) (Number_toString y2).
Proof.
  intros H1 Hlt. revert y2 Hlt.
  apply (Z.lt_ind
           (fun y2 => y2 <= 9999 ->
                      text_lt (Number_toString y1) (Number_toString y2))).
  - intros a b ->. tauto.
  - intros H. replace (Z.succ y1) with (y1 + 1) by lia.
    apply (year_text_step y1). lia.
  - intros y2 Hlt IH H. replace (Z.succ y2) with (y2 + 1) by lia.
    eapply text_lt_trans; [apply IH; lia|]. apply (year_text_step y2). lia.
Qed.

Lemma compare_app_lt (a b x y : string) :
  String.length a = String.length b -> text_lt a b -> text_lt (a ++ x) (b ++ y).
Proof.
  unfold text_lt. revert b. induction a as [|c a IH]; intros [|d b]; simpl;
    try discriminate.
  intros [= Hlen]. destruct (Ascii.compare c d); auto.
Qed.

Lemma compare_app_prefix (a x y : string) :
  String.compare (a ++ x) (a ++ y) = String.compare x y.
Proof.
  induction a as [|c a IH]; simpl; [reflexivity|].
  now rewrite ascii_compare_refl.
Qed.

Lemma month_text_compare (m1 m2 : Z) :
  1 <= m1 <= 12 -> 1 <= m2 <= 12 ->
  String.compare (String "-" (padStart (Number_toString m1) 2 "0"))
                 (String "-" (padStart (Number_toString m2) 2 "0"))
  = (m1 ?= m2).
Proof.
  intros H1 H2.
  assert (Hc1 : m1 = 1 \/ m1 = 2 \/ m1 = 3 \/ m1 = 4 \/ m1 = 5 \/ m1 = 6
                \/ m1 = 7 \/ m1 = 8 \/ m1 = 9 \/ m1 = 10 \/ m1 = 11
                \/ m1 = 12) by lia.
  assert (Hc2 : m2 = 1 \/ m2 = 2 \/ m2 = 3 \/ m2 = 4 \/ m2 = 5 \/ m2 = 6
                \/ m2 = 7 \/ m2 = 8 \/ m2 = 9 \/ m2 = 10 \/ m2 = 11
                \/ m2 = 12) by lia.
  destruct Hc1
    as [->|[->|[->|[->|[->|[->|[->|[->|[->|[->|[->| ->]]]]]]]]]]];
    destruct Hc2
      as [->|[->|[->|[->|[->|[->|[->|[->|[->|[->|[->| ->]]]]]]]]]]];
    reflexivity.
Qed.

(** For years of four digits the order of the month keys is the order
    of the months. *)
Lemma month_key_lt (y1 m1 y2 m2 : Z) :
  1000 <= y1 <= 9999 -> 1 <= m1 <= 12 ->
  1000 <= y2 <= 9999 -> 1 <= m2 <= 12 ->
  text_lt (month_key y1 m1) (month_key y2 m2) <-> month_before y1 m1 y2 m2.
Proof.
  intros Hy1 Hm1 Hy2 Hm2. unfold month_key, month_before.
  change (Number_toString y1 ++ "-" ++ padStart (Number_toString m1) 2 "0")
    with (Number_toString y1
            ++ String "-" (padStart (Number_toString m1) 2 "0")).
  change (Number_toString y2 ++ "-" ++ padStart (Number_toString m2) 2 "0")
    with (Number_toString y2
            ++ String "-" (padStart (Number_toString m2) 2 "0")).
  destruct (Z.lt_trichotomy y1 y2) as [Hlt|[Heq|Hgt]].
  - split; [intros _; now left|intros _].
    apply compare_app_lt; [|apply year_text_lt; lia].
    now rewrite !year_text_length.
  - subst y2. unfold text_lt.
    rewrite compare_app_prefix, month_text_compare by lia.
    rewrite Z.compare_lt_iff. lia.
  - split; [|lia]. intros H. exfalso.
    apply (text_lt_irrefl (Number_toString y2
                        ++ String "-" (padStart (Number_toString m2) 2 "0"))).
    eapply text_lt_trans; [|exact H].
    apply compare_app_lt; [|apply year_text_lt; lia].
    now rewrite !year_text_length.
Qed.

End KeyOrderFacts.

(** ** Keys in the order of their first occurrence *)

Module OccurrenceFacts.

Import JSString JSDate JSObject StringOrder LogDownloader Spec.
Import TallyFacts BreakdownFacts.

Local Open Scope list_scope.

Lemma existsb_eqb_in (x : string) (s : list string) :
  existsb (String.eqb x) s = true <-> In x s.
Proof.
  rewrite existsb_exists. split.
  - intros [y [Hy Hxy]]. apply String.eqb_eq in Hxy. now subst.
  - intros H. exists x. split; [exact H|apply String.eqb_refl].
Qed.

Lemma Set_add_in (s : list string) (x : string) :
  In x s -> Set_add s x = s.
Proof.
  intros H. unfold Set_add. apply existsb_eqb_in in H. now rewrite H.
Qed.

Lemma Set_add_new (s : list string) (x : string) :
  ~ In x s -> Set_add s x = s ++ [x].
Proof.
  intros H. unfold Set_add.
  destruct (existsb (String.eqb x) s) eqn:E; [|reflexivity].
  apply existsb_eqb_in in E. contradiction.
Qed.

Lemma first_occurrences_snoc (l : list string) (x : string) :
  first_occurrences (l ++ [x]) = Set_add (first_occurrences l) x.
Proof. unfold first_occurrences. now rewrite fold_left_app. Qed.

Lemma in_first_occurrences (l : list string) (k : string) :
  In k (first_occurrences l) <-> In k l.
Proof.
  induction l as [|x l IH] using rev_ind; [reflexivity|].
  rewrite first_occurrences_snoc, in_app_iff. simpl.
  destruct (in_dec string_dec x (first_occurrences l)) as [Hin|Hnot].
  - rewrite (Set_add_in _ _ Hin). rewrite IH. split; [tauto|].
    intros [H|[<-|[]]]; [exact H|]. now apply IH.
  - rewrite (Set_add_new _ _ Hnot), in_app_iff. simpl. rewrite IH. tauto.
Qed.

Lemma first_occurrences_nodup (l : list string) :
  NoDup (first_occurrences l).
Proof.
  induction l as [|x l IH] using rev_ind; [constructor|].
  rewrite first_occurrences_snoc.
  destruct (in_dec string_dec x (first_occurrences l)) as [Hin|Hnot].
  - now rewrite (Set_add_in _ _ Hin).
  - rewrite (Set_add_new _ _ Hnot).
    apply NoDup_app; [exact IH|repeat constructor; simpl; tauto|].
    intros k Hk [<-|[]]. contradiction.
Qed.

Lemma fold_Set_add_map {A : Type} (f : A -> string) (l : list A)
  (s : list string) :
  fold_left (fun s x => Set_add s (f x)) l s = fold_left Set_add (map f l) s.
Proof.
  revert s. induction l as [|x l IH]; intros s; simpl; [reflexivity|].
  apply IH.
Qed.

Section Keys.

Context {host : Host}.
Variable key_of : resource -> string.

Lemma counted_snoc (rs : list resource) (r : resource) :
  counted key_of (rs ++ [r])
  = counted key_of rs ++ (if inherited (key_of r) then [] else [r]).
Proof.
  unfold counted. rewrite filter_app. simpl.
  now destruct (inherited (key_of r)).
Qed.

(** The keys of the accumulator are the keys of the events it counts, in
    the order of their first occurrence. *)
Lemma keys_tally_all (rs : list resource) :
  map fst (tally_all key_of rs)
  = first_occurrences (map key_of (counted key_of rs)).
Proof.
  induction rs as [|r rs IH] using rev_ind; [reflexivity|].
  rewrite tally_all_snoc, counted_snoc.
  destruct (own (tally_all key_of rs) (key_of r)) as [b|] eqn:Hown.
  - rewrite (tally_own _ _ _ _ Hown), keys_update, IH.
    pose proof (own_tally_all key_of rs (key_of r)) as He.
    rewrite Hown in He. unfold expected in He.
    destruct (inherited (key_of r)); [discriminate|].
    rewrite map_app. simpl. rewrite first_occurrences_snoc.
    rewrite Set_add_in; [reflexivity|].
    rewrite <- IH. apply own_in in Hown.
    change (key_of r) with (fst (key_of r, b)). now apply in_map.
  - destruct (inherited (key_of r)) eqn:Hi.
    + rewrite (tally_inherited _ _ _ Hown Hi), app_nil_r. exact IH.
    + rewrite (tally_new _ _ _ Hown Hi), !map_app. simpl.
      rewrite first_occurrences_snoc, IH.
      rewrite Set_add_new; [reflexivity|].
      rewrite <- IH. now apply own_none_not_in.
Qed.

End Keys.

Lemma filter_none {A : Type} (p : A -> bool) (l : list A) :
  (forall x, In x l -> p x = false) -> filter p l = [].
Proof.
  induction l as [|x l IH]; simpl; intros H; [reflexivity|].
  rewrite (H x) by now left. apply IH. intros y Hy. apply H. now right.
Qed.

Lemma filter_all {A : Type} (p : A -> bool) (l : list A) :
  (forall x, In x l -> p x = true) -> filter p l = l.
Proof.
  induction l as [|x l IH]; simpl; intros H; [reflexivity|].
  rewrite (H x) by now left. rewrite IH; [reflexivity|].
  intros y Hy. apply H. now right.
Qed.

(** Without array indices among the keys, [Object.entries] keeps the
    order of creation. *)
Lemma Object_entries_plain {V : Type} (o : @object V) :
  (forall kv, In kv o -> is_array_index (fst kv) = false) ->
  Object_entries o = o.
Proof.
  intros H. unfold Object_entries.
  rewrite (filter_none _ o H), filter_all; [reflexivity|].
  intros kv Hin. now rewrite (H kv Hin).
Qed.

Lemma MonthFromTime_range (t : Z) : 0 <= MonthFromTime t <= 11.
Proof.
  unfold MonthFromTime.
  repeat match goal with
         | |- context [?a <? ?b] => destruct (a <? b)
         end; lia.
Qed.

End OccurrenceFacts.

(** ** A month without events *)

Module NoticeFacts.

Import JSString LogDownloader Spec.

(** The name [getMonthName] gives for the month of a request. *)
Lemma month_name_of_request (month : string) (m : Z) :
  parseInt month = Some m -> 1 <= m <= 12 ->
  getMonthName (month_index (Some month)) = Some (month_name m)
  /\ In (month_name m) months.
Proof.
  intros Hmonth Hm. split.
  - unfold month_index, parseInt_opt, template. rewrite Hmonth. simpl.
    unfold getMonthName, month_name.
    destruct (Z.ltb_spec (m - 1) 0); [lia|].
    apply nth_error_nth'. change (List.length months) with 12%nat. lia.
  - unfold month_name. apply nth_In.
    change (List.length months) with 12%nat. lia.
Qed.

End NoticeFacts.

(* ================================================================== *)
(** * Part III: the claims of the specification *)
(* ================================================================== *)

Import JSString JSNumber JSDate JSObject StringOrder LogDownloader Spec.
Import StringOrderFacts SortFacts TallyFacts KeyFacts BreakdownFacts.
Import ExportFacts DateFacts ParseFacts MonthFacts GroupFacts.
Import KeyOrderFacts OccurrenceFacts NoticeFacts.

Local Open Scope list_scope.

(** ** The date range of the complete log *)

Section DateRange.

Context {host : Host}.

Lemma last_of_snoc (rs : list resource) (r : resource) :
  last_of (rs ++ [r]) = Some r.
Proof.
  unfold last_of. rewrite length_app. simpl.
  replace (List.length rs + 1 - 1)%nat with (List.length rs) by lia.
  rewrite nth_error_app2 by lia. now rewrite Nat.sub_diag.
Qed.

(** The range of the complete log starts at the last event of the
    filtered list, in the order of the input, and at the reading of the
    clock when the filter leaves nothing; it ends at the reading of the
    clock. *)
Lemma complete_range (data : dashboard) (now : Z) (rs : list resource) :
  to (Complete.range (Complete.export_info (complete_document data now rs)))
    = toISOString now
  /\ (rs = [] ->
      from (Complete.range
              (Complete.export_info (complete_document data now rs)))
      = toISOString now)
  /\ (forall front r, rs = front ++ [r] ->
      from (Complete.range
              (Complete.export_info (complete_document data now rs)))
      = toISOString (deleted_at r)).
Proof.
  split; [reflexivity|]. split.
  - intros ->. reflexivity.
  - intros front r ->. simpl. rewrite last_of_snoc, length_app. simpl.
    now replace (0 <? List.length front + 1)%nat with true
      by (symmetry; apply Nat.ltb_lt; lia).
Qed.

(** On a list ordered newest first the last event is the oldest. *)
Lemma last_is_oldest_when_newest_first (front : list resource)
  (r : resource) :
  StronglySorted (fun a b => deleted_at b <= deleted_at a) (front ++ [r]) ->
  oldest (front ++ [r]) = Some (deleted_at r).
Proof.
  intros Hs.
  assert (Hmin : forall (l : list resource) (m : Z),
             Forall (fun x => deleted_at r <= deleted_at x) l ->
             deleted_at r <= m ->
             fold_left (fun m x => Z.min m (deleted_at x)) (l ++ [r]) m
             = deleted_at r).
  { induction l as [|x l IH]; intros m Hall Hm; simpl; [lia|].
    inversion Hall; subst. apply IH; [assumption|lia]. }
  destruct front as [|x front]; [reflexivity|].
  simpl in *. inversion Hs as [|? ? Hs' Hall]; subst. f_equal.
  assert (Hr : deleted_at r <= deleted_at x).
  { rewrite Forall_forall in Hall. apply Hall, in_or_app. right. now left. }
  apply Hmin; [|exact Hr].
  clear - Hs'. induction front as [|y front IH]; [constructor|].
  simpl in Hs'. inversion Hs' as [|? ? Hs'' Hall]; subst.
  constructor; [|now apply IH].
  rewrite Forall_forall in Hall. apply Hall, in_or_app. right. now left.
Qed.

End DateRange.

(** C1 on an input listed oldest first: the range of the complete log
    starts at the event of 15 March, the last of the list, although the
    oldest event is of 15 January. The same events listed newest first
    give the start the claim states. *)
Theorem range_start_follows_input_order :
  (exists doc filename,
      downloadAllLogs (host := Sample.utc_host) Sample.oldest_first
        Sample.june1 = downloadJSON doc filename
      /\ from (Complete.range (Complete.export_info doc))
         = "2025-03-15T12:00:00.000Z"
      /\ to (Complete.range (Complete.export_info doc))
         = "2025-06-01T00:00:00.000Z")
  /\ (exists doc filename,
        downloadAllLogs (host := Sample.utc_host) Sample.newest_first
          Sample.june1 = downloadJSON doc filename
        /\ from (Complete.range (Complete.export_info doc))
           = "2025-01-15T12:00:00.000Z")
  /\ option_map toISOString
       (oldest [Sample.nat_gateway; Sample.ebs_volume])
     = Some "2025-01-15T12:00:00.000Z".
Proof. split; [|split]; [eexists _, _; repeat split ..|reflexivity]. Qed.

(** ** The order of the breakdowns *)

Lemma filter_map_fst {V : Type} (p : string -> bool) (o : @object V) :
  map fst (filter (fun kv => p (fst kv)) o) = filter p (map fst o).
Proof.
  induction o as [|[k v] o IH]; [reflexivity|]. simpl.
  destruct (p k); simpl; now rewrite IH.
Qed.

Lemma index_order_total (a b : Z) : (a <=? b) = true \/ (b <=? a) = true.
Proof.
  destruct (Z.leb_spec a b); [now left|right; apply Z.leb_le; lia].
Qed.

(** The keys [Object.entries] lists: the array indices among the keys of
    the object, in ascending order of their values, and then the other
    keys as the object has them. *)
Lemma Object_entries_keys {V : Type} (o : @object V) :
  exists indices,
    map fst (Object_entries o)
    = indices ++ filter (fun k => negb (is_array_index k)) (map fst o)
    /\ Permutation indices (filter is_array_index (map fst o))
    /\ StronglySorted (fun a b => index_value a <= index_value b) indices.
Proof.
  exists (map fst
            (sort_by (fun a b : string * V =>
                        index_value (fst a) <=? index_value (fst b))
                     (filter (fun kv => is_array_index (fst kv)) o))).
  split; [|split].
  - unfold Object_entries. rewrite map_app. f_equal.
    apply (filter_map_fst (fun k => negb (is_array_index k))).
  - rewrite <- (filter_map_fst is_array_index).
    apply Permutation_map, sort_by_perm.
  - apply strongly_sorted_map.
    eapply strongly_sorted_impl_in;
      [|apply (sort_by_sorted
                 (fun a b : string * V =>
                    index_value (fst a) <=? index_value (fst b)))].
    + intros a b _ _ H. now apply Z.leb_le.
    + intros a b. apply index_order_total.
    + intros a b c H1 H2. apply Z.leb_le in H1, H2. apply Z.leb_le. lia.
Qed.

(** C2, as the code has it: the breakdown by month is made of the entries
    of the month keys in ascending order, each once, and the breakdown by
    day is in ascending order of its dates; the breakdown by type is not
    sorted by type. It lists, once each, the types that an event has and
    that are not named like a member of [Object.prototype] (a type so
    named gets no entry): first the types that are texts of array
    indices, in ascending order of the indices, and then the other types
    in the order in which they first occur among the events. *)
Theorem time_breakdowns_are_sorted {host : Host} (rs : list resource) :
  (exists entries,
      getBreakdownByMonth rs = map month_entry entries
      /\ StronglySorted text_lt (map fst entries)
      /\ (forall k, In k (map fst entries) <->
            exists r, In r rs /\ monthYear_of (deleted_at r) = k))
  /\ StronglySorted text_lt (map DayEntry.date (getBreakdownByDay rs))
  /\ NoDup (map TypeEntry.type (getBreakdownByType rs))
  /\ (forall k, In k (map TypeEntry.type (getBreakdownByType rs)) <->
         (exists r, In r rs /\ resource_type r = k)
         /\ inherited k = false)
  /\ (exists indices,
        map TypeEntry.type (getBreakdownByType rs)
        = indices
            ++ filter (fun k => negb (is_array_index k))
                 (first_occurrences
                    (map resource_type (counted resource_type rs)))
        /\ Permutation indices
             (filter is_array_index
                (first_occurrences
                   (map resource_type (counted resource_type rs))))
        /\ StronglySorted (fun a b => index_value a <= index_value b)
             indices)
  /\ ((forall r, In r rs -> is_array_index (resource_type r) = false) ->
      map TypeEntry.type (getBreakdownByType rs)
      = first_occurrences (map resource_type (counted resource_type rs))).
Proof.
  assert (Htypes : map TypeEntry.type (getBreakdownByType rs)
                   = map fst (Object_entries (tally_all resource_type rs))).
  { unfold getBreakdownByType. rewrite map_map.
    apply map_ext. now intros [k b]. }
  split; [|split; [|split; [|split; [|split]]]].
  - exists (sorted_entries (fun r => monthYear_of (deleted_at r)) rs).
    split; [reflexivity|]. split.
    + apply strongly_sorted_map, sorted_entries_ascending.
      intros r. apply monthYear_of_numeric.
    + intros k. rewrite in_map_iff. split.
      * intros [[k' b] [<- Hin]]. apply in_sorted_entries in Hin.
        apply expected_some in Hin. tauto.
      * intros [r [Hin <-]].
        exists (monthYear_of (deleted_at r),
                stats (group (fun r => monthYear_of (deleted_at r))
                         (monthYear_of (deleted_at r)) rs)).
        split; [reflexivity|]. apply in_sorted_entries.
        apply (expected_of_event (fun r => monthYear_of (deleted_at r)));
          [exact Hin|].
        apply numeric_key_not_inherited, monthYear_of_numeric.
  - unfold getBreakdownByDay. rewrite map_map.
    rewrite (map_ext _ fst) by (now intros [k b]).
    apply strongly_sorted_map, sorted_entries_ascending.
    intros r. apply day_of_numeric.
  - rewrite Htypes.
    eapply Permutation_NoDup;
      [|exact (keys_tally_all_nodup resource_type rs)].
    apply Permutation_map. symmetry. apply Object_entries_perm.
  - intros k. rewrite Htypes, in_map_iff. split.
    + intros [[k' b] [<- Hin]]. apply in_Object_entries in Hin.
      cbn [fst]. split; [apply expected_some in Hin; tauto|].
      unfold expected in Hin.
      destruct (inherited k'); [discriminate|reflexivity].
    + intros [[r [Hin <-]] Hi].
      exists (resource_type r,
              stats (group resource_type (resource_type r) rs)).
      split; [reflexivity|]. apply in_Object_entries.
      now apply expected_of_event.
  - rewrite Htypes, <- keys_tally_all. apply Object_entries_keys.
  - intros H. rewrite Htypes.
    rewrite Object_entries_plain; [apply keys_tally_all|].
    intros [k b] Hin. apply in_tally_all, expected_some in Hin.
    destruct Hin as [_ [r [Hr <-]]]. simpl. now apply H.
Qed.

(** C2 as the specification states it fails on the breakdown by type:
    a NAT gateway listed before an EBS volume stays before it. *)
Lemma type_breakdown_keeps_input_order :
  map TypeEntry.type
    (getBreakdownByType (host := Sample.utc_host)
       [Sample.nat_gateway; Sample.ebs_volume])
  = ["NAT Gateway"; "EBS Volume"]
  /\ text_lt "EBS Volume" "NAT Gateway"
  /\ ~ StronglySorted (fun a b => String.leb a b = true)
         (map TypeEntry.type
            (getBreakdownByType (host := Sample.utc_host)
               [Sample.nat_gateway; Sample.ebs_volume])).
Proof.
  split; [reflexivity|]. split; [reflexivity|].
  intros H. inversion H as [|? ? _ Hall]; subst.
  inversion Hall as [|? ? Hle _]; subst. discriminate Hle.
Qed.

(** The types of two events, in the order of the input. *)
Lemma time_breakdowns_are_sorted_witness :
  map TypeEntry.type
    (getBreakdownByType (host := Sample.utc_host)
       [Sample.ebs_volume; Sample.nat_gateway; Sample.ebs_volume])
  = ["EBS Volume"; "NAT Gateway"].
Proof.
  refine (proj2 (proj2 (proj2 (proj2 (proj2
            (time_breakdowns_are_sorted (host := Sample.utc_host)
               [Sample.ebs_volume; Sample.nat_gateway; Sample.ebs_volume])))))
            _).
  intros r [<-|[<-|[<-|[]]]]; reflexivity.
Defined.

(** A type named like a member of [Object.prototype] gets no entry, and
    the types that are texts of array indices come first, the smaller
    index before the larger. *)
Example prototype_and_index_types :
  map TypeEntry.type
    (getBreakdownByType (host := Sample.utc_host)
       [Sample.event "constructor" "i-11" Sample.jan15 (Some 1%float)
          None None;
        Sample.nat_gateway;
        Sample.event "10" "i-12" Sample.jan15 (Some 1%float) None None;
        Sample.event "7" "i-13" Sample.jan15 (Some 1%float) None None])
  = ["7"; "10"; "NAT Gateway"].
Proof. reflexivity. Qed.

(** ** The annual total *)

(** C3, as the code has it: in both documents the annual total is the sum
    over the exported events, printed with two decimals, of the event's
    [annual_savings] when that is present and neither zero nor NaN, and
    of twelve times its [monthly_savings] otherwise (zero when that is
    zero, NaN or missing). An event whose [annual_savings] is present and
    zero therefore adds twelve times its [monthly_savings]. *)
Theorem annual_total_is_summed {host : Host} (data : dashboard)
  (rs : list resource) (monthYear : string) (now : Z) :
  deleted_resources data = Some rs -> rs <> [] ->
  (exists doc filename,
      downloadAllLogs data now = downloadJSON doc filename
      /\ Complete.total_annual_savings (Complete.export_info doc)
         = toFixed2 (sum_over annual_contribution (filter_up_to now rs)))
  /\ (filter_month monthYear rs <> [] ->
      exists doc filename,
        downloadMonthLog data monthYear now = downloadJSON doc filename
        /\ Monthly.total_annual_savings (Monthly.export_info doc)
           = toFixed2
               (sum_over annual_contribution (filter_month monthYear rs)))
  /\ (forall r z, annual_savings r = Some z -> ToBoolean z = false ->
        annual_contribution r = derived_annual r).
Proof.
  intros H Hne. split; [|split].
  - eexists _, _. split; [exact (downloadAllLogs_document data rs now H Hne)|].
    apply total_annual_sum.
  - intros Hf.
    destruct (downloadMonthLog_document data rs monthYear now H Hf)
      as (s & e & _ & _ & Hd).
    eexists _, _. split; [exact Hd|]. apply total_annual_sum.
  - intros r z Hr Hz. unfold annual_contribution. now rewrite Hr, Hz.
Qed.

Lemma annual_total_is_summed_witness :
  exists doc filename,
    downloadAllLogs (host := Sample.utc_host) Sample.oldest_first Sample.june1
    = downloadJSON doc filename
    /\ Complete.total_annual_savings (Complete.export_info doc) = "484.80".
Proof.
  exact (proj1 (annual_total_is_summed (host := Sample.utc_host)
                  Sample.oldest_first
                  [Sample.nat_gateway; Sample.ebs_volume] "2025-01"
                  Sample.june1 eq_refl
                  (fun H => @nil_cons _ Sample.nat_gateway _ (eq_sym H)))).
Defined.

(** C3 as the specification states it fails on an event whose
    [annual_savings] is present and zero: the event adds twelve times its
    monthly savings, 120.00, where the claim has it add 0. *)
Lemma zero_annual_savings_adds_twelve_months :
  exists doc filename,
    downloadAllLogs (host := Sample.utc_host)
      (Sample.with_events [Sample.zero_annual]) Sample.june1
    = downloadJSON doc filename
    /\ annual_savings Sample.zero_annual = Some 0%float
    /\ Complete.total_annual_savings (Complete.export_info doc) = "120.00"
    /\ toFixed2 (host := Sample.utc_host)
         (sum_over annual_by_claim [Sample.zero_annual]) = "0.00".
Proof. eexists _, _. repeat split. Qed.

(** ** The filter of a month *)




(** An event half a second after the last labelled second of January
    2025 still lies in January and is not kept. *)
Example last_half_second_is_dropped :
  in_month (host := Sample.utc_host) 2025 1
    (deleted_at Sample.last_half_second)
  /\ filter_month (host := Sample.utc_host) "2025-01"
       [Sample.last_half_second] = [].
Proof. split; [split; reflexivity|reflexivity]. Qed.

(** An engine with daylight saving keeps no one offset, and the theorem
    above does not speak of it. On Central European time the window of
    March 2025 opens an hour before midnight UTC and closes two hours
    before it. *)
Example march_window_under_daylight_saving :
  option_map toISOString
    (startDate_of (host := DaylightSaving.cet_host) (Some "2025")
       (Some "03"))
  = Some "2025-02-28T23:00:00.000Z"
  /\ option_map toISOString
       (endDate_of (host := DaylightSaving.cet_host) (Some "2025")
          (Some "03"))
     = Some "2025-03-31T21:59:59.000Z"
  /\ (forall tza, ~ fixed_offset (host := DaylightSaving.cet_host) tza).
Proof.
  split; [reflexivity|]. split; [reflexivity|].
  intros tza H.
  pose proof (H 0 true) as H0.
  pose proof (H DaylightSaving.spring_forward true) as H1.
  vm_compute in H0, H1. congruence.
Qed.

(** ** Conservation of counts *)

(** C5: the number of resources of the complete log is the sum of the
    counts of its breakdown by month, and that of a month's log the sum
    of the counts of its breakdown by day. *)
Theorem counts_are_conserved {host : Host} (data : dashboard)
  (rs : list resource) (monthYear : string) (now : Z) :
  deleted_resources data = Some rs -> rs <> [] ->
  (exists doc filename,
      downloadAllLogs data now = downloadJSON doc filename
      /\ Complete.total_resources (Complete.export_info doc)
         = list_sum (map MonthEntry.count
                       (Complete.breakdown_by_month
                          (Complete.summary_of doc))))
  /\ (filter_month monthYear rs <> [] ->
      exists doc filename,
        downloadMonthLog data monthYear now = downloadJSON doc filename
        /\ Monthly.total_resources (Monthly.export_info doc)
           = list_sum (map DayEntry.count
                         (Monthly.breakdown_by_day
                            (Monthly.summary_of doc)))).
Proof.
  intros H Hne. split.
  - eexists _, _. split; [exact (downloadAllLogs_document data rs now H Hne)|].
    simpl. now rewrite getBreakdownByMonth_count.
  - intros Hf.
    destruct (downloadMonthLog_document data rs monthYear now H Hf)
      as (s & e & _ & _ & Hd).
    eexists _, _. split; [exact Hd|].
    simpl. now rewrite getBreakdownByDay_count.
Qed.

Lemma counts_are_conserved_witness :
  exists doc filename,
    downloadMonthLog (host := Sample.utc_host) Sample.january_only "2025-01"
      Sample.june1 = downloadJSON doc filename
    /\ Monthly.total_resources (Monthly.export_info doc)
       = list_sum (map DayEntry.count
                     (Monthly.breakdown_by_day (Monthly.summary_of doc))).
Proof.
  refine (proj2 (counts_are_conserved (host := Sample.utc_host)
                   Sample.january_only
                   [Sample.nat_gateway; Sample.elastic_ip] "2025-01"
                   Sample.june1 eq_refl
                   (fun H => @nil_cons _ Sample.nat_gateway _ (eq_sym H))) _).
  vm_compute. discriminate.
Defined.

(** ** A month without events *)




(** ** Empty input *)

(** C7: for the empty or absent input collection, bucket discovery
    returns the empty sequence, and both export operations give the
    "no data available" notice and hand no document to the delivery
    step. *)
Theorem empty_input_is_signalled {host : Host} (data : dashboard)
  (monthYear : string) (now : Z) :
  deleted_resources data = None \/ deleted_resources data = Some [] ->
  getAvailableMonths data = []
  /\ downloadAllLogs data now = alert no_data_notice
  /\ downloadMonthLog data monthYear now = alert no_data_notice
  /\ (forall doc filename,
        downloadAllLogs data now <> downloadJSON doc filename)
  /\ (forall doc filename,
        downloadMonthLog data monthYear now <> downloadJSON doc filename).
Proof.
  intros H.
  rewrite (getAvailableMonths_empty data H), (downloadAllLogs_empty data now H),
    (downloadMonthLog_empty data monthYear now H).
  repeat split; intros; discriminate.
Qed.

Lemma empty_input_is_signalled_witness :
  getAvailableMonths (host := Sample.utc_host) Sample.no_events = []
  /\ downloadAllLogs (host := Sample.utc_host) Sample.no_events Sample.june1
     = alert no_data_notice
  /\ downloadMonthLog (host := Sample.utc_host) Sample.no_events "2025-01"
       Sample.june1
     = alert no_data_notice.
Proof.
  pose proof (empty_input_is_signalled (host := Sample.utc_host)
                Sample.no_events "2025-01" Sample.june1
                (or_intror eq_refl)) as H.
  destruct H as [H1 [H2 [H3 _]]]. exact (conj H1 (conj H2 H3)).
Defined.

(** ** The discovery of buckets *)

(** C8, as the code has it: bucket discovery returns the month keys of
    the events, the year, a dash and the month in two digits, each key
    once however many events fall in the month, in descending order of
    the key texts; when the years have four digits that is the most
    recent month first. *)
Theorem buckets_are_distinct_and_descending {host : Host}
  (data : dashboard) :
  (forall k, In k (getAvailableMonths data) <->
     exists r, In r (events_of data)
               /\ k = month_key (getFullYear LocalTZA (deleted_at r))
                                (getMonth LocalTZA (deleted_at r) + 1))
  /\ (forall r, In r (events_of data) ->
        1 <= getMonth LocalTZA (deleted_at r) + 1 <= 12)
  /\ NoDup (getAvailableMonths data)
  /\ StronglySorted (fun a b => text_lt b a) (getAvailableMonths data)
  /\ ((forall r, In r (events_of data) ->
         1000 <= getFullYear LocalTZA (deleted_at r) <= 9999) ->
      StronglySorted (fun a b => key_before b a) (getAvailableMonths data)).
Proof.
  assert (Hm : forall r : resource,
             1 <= getMonth LocalTZA (deleted_at r) + 1 <= 12).
  { intros r. unfold getMonth.
    pose proof (MonthFromTime_range (LocalTime LocalTZA (deleted_at r))).
    lia. }
  assert (Hshape : getAvailableMonths data
                   = rev (Array_sort (fun s => s)
                            (first_occurrences
                               (map (fun r => monthYear_of (deleted_at r))
                                    (events_of data))))).
  { unfold getAvailableMonths, events_of.
    destruct (deleted_resources data) as [[|r rs]|]; try reflexivity.
    now rewrite fold_Set_add_map. }
  assert (Hin : forall k, In k (getAvailableMonths data) <->
                  exists r, In r (events_of data)
                            /\ k = monthYear_of (deleted_at r)).
  { intros k. rewrite Hshape, <- in_rev.
    assert (Hp : forall l,
               In k (Array_sort (fun s : string => s) l) <-> In k l).
    { intros l. split; apply Permutation_in;
        [|symmetry]; apply Array_sort_perm. }
    rewrite Hp, in_first_occurrences, in_map_iff.
    split; intros [r [H1 H2]]; exists r; auto. }
  assert (Hnd : NoDup (getAvailableMonths data)).
  { rewrite Hshape. apply NoDup_rev.
    eapply Permutation_NoDup; [symmetry; apply Array_sort_perm|].
    apply first_occurrences_nodup. }
  assert (Hs : StronglySorted (fun a b => text_lt b a)
                 (getAvailableMonths data)).
  { rewrite Hshape. apply (strongly_sorted_rev text_lt).
    assert (Hnd' := Hnd). rewrite Hshape in Hnd'.
    apply NoDup_rev in Hnd'. rewrite rev_involutive in Hnd'.
    rewrite <- (map_id (Array_sort _ _)) in Hnd'.
    exact (sorted_nodup_strict (fun s => s) _ Hnd'
             (Array_sort_sorted (fun s => s) _)). }
  split; [exact Hin|]. split; [intros r _; apply Hm|].
  split; [exact Hnd|]. split; [exact Hs|].
  intros Hy. eapply strongly_sorted_impl_in; [|exact Hs].
  intros a b Ha Hb Hlt. apply Hin in Ha, Hb.
  destruct Ha as [ra [Hra ->]]. destruct Hb as [rb [Hrb ->]].
  exists (getFullYear LocalTZA (deleted_at rb)),
    (getMonth LocalTZA (deleted_at rb) + 1),
    (getFullYear LocalTZA (deleted_at ra)),
    (getMonth LocalTZA (deleted_at ra) + 1).
  split; [reflexivity|]. split; [reflexivity|].
  split; [split; [now apply Hy|apply Hm]|].
  split; [split; [now apply Hy|apply Hm]|].
  apply month_key_lt; auto.
Qed.

(** Three events of two months: the later month comes first. *)
Lemma buckets_are_distinct_and_descending_witness :
  getAvailableMonths (host := Sample.utc_host)
    (Sample.with_events
       [Sample.nat_gateway; Sample.ebs_volume; Sample.elastic_ip])
  = ["2025-03"; "2025-01"]
  /\ StronglySorted (fun a b => key_before b a)
       (getAvailableMonths (host := Sample.utc_host)
          (Sample.with_events
             [Sample.nat_gateway; Sample.ebs_volume; Sample.elastic_ip])).
Proof.
  split; [reflexivity|].
  refine (proj2 (proj2 (proj2 (proj2
            (buckets_are_distinct_and_descending (host := Sample.utc_host)
               (Sample.with_events
                  [Sample.nat_gateway; Sample.ebs_volume;
                   Sample.elastic_ip]))))) _).
  intros r [<-|[<-|[<-|[]]]]; vm_compute; split; congruence.
Defined.

(** C8 as the specification states it, for every input, fails on years
    of other than four digits: the month of the year 50 is listed before
    January 2025, the more recent one. *)
Lemma short_year_sorts_above_2025 :
  getAvailableMonths (host := Sample.utc_host)
    (Sample.with_events [Sample.last_half_second; Sample.year_fifty])
  = ["50-01"; "2025-01"]
  /\ map (fun r => monthYear_of (host := Sample.utc_host) (deleted_at r))
       [Sample.last_half_second; Sample.year_fifty]
     = [month_key 2025 1; month_key 50 1]
  /\ month_before 50 1 2025 1.
Proof. split; [reflexivity|]. split; [reflexivity|]. left. lia. Qed.

(** ** The annual figures of the breakdowns *)

(** C9, as the code has it: every entry of the breakdown by type and of
    the breakdown by month prints, as its annual figure, twelve times the
    summed monthly savings of its group, and the breakdowns are the same
    whatever [annual_savings] the events state. The annual figures of the
    breakdowns can therefore differ from the annual total, as for one
    event of 10 a month that states 100 a year; they do not differ for
    every input with such an event. *)
Theorem breakdown_annual_is_twelve_months {host : Host}
  (rs : list resource) :
  (forall e, In e (getBreakdownByType rs) ->
     TypeEntry.annual_savings e
     = ("$" ++ toFixed2
                 (PrimFloat.mul
                    (group_savings resource_type (TypeEntry.type e) rs)
                    12))%string)
  /\ (forall e, In e (getBreakdownByMonth rs) ->
        exists k,
          e = month_entry
                (k, stats (group (fun r => monthYear_of (deleted_at r))
                                 k rs))
          /\ (exists r, In r rs /\ monthYear_of (deleted_at r) = k)
          /\ MonthEntry.annual_savings e
             = ("$" ++ toFixed2
                         (PrimFloat.mul
                            (group_savings
                               (fun r => monthYear_of (deleted_at r)) k rs)
                            12))%string)
  /\ (getBreakdownByType (map without_annual rs) = getBreakdownByType rs
      /\ getBreakdownByMonth (map without_annual rs)
         = getBreakdownByMonth rs)
  /\ (exists doc filename,
        downloadAllLogs (host := Sample.utc_host)
          (Sample.with_events [Sample.stated_annual]) Sample.june1
        = downloadJSON doc filename
        /\ Complete.total_annual_savings (Complete.export_info doc)
           = "100.00"
        /\ map TypeEntry.annual_savings
             (Complete.breakdown_by_type (Complete.summary_of doc))
           = ["$120.00"]
        /\ map MonthEntry.annual_savings
             (Complete.breakdown_by_month (Complete.summary_of doc))
           = ["$120.00"]).
Proof.
  split; [|split; [|split]].
  - intros e He. destruct (type_entry_of_group rs e He) as [-> _].
    reflexivity.
  - intros e He. destruct (month_entry_of_group rs e He) as (k & -> & Hr).
    exists k. split; [reflexivity|]. split; [exact Hr|reflexivity].
  - destruct (breakdowns_ignore_annual rs) as (H1 & H2 & _). auto.
  - eexists _, _. repeat split.
Qed.

(** C9 as the specification states it fails on two events of one type
    and month, of 10 a month each, that state 130 and 110 a year: each
    stated figure differs from twelve times the monthly savings, and the
    annual figures of the breakdowns agree with the annual total. *)
Lemma offsetting_annual_savings_agree :
  exists doc filename,
    downloadAllLogs (host := Sample.utc_host)
      (Sample.with_events [Sample.above_twelve; Sample.below_twelve])
      Sample.june1
    = downloadJSON doc filename
    /\ map annual_savings [Sample.above_twelve; Sample.below_twelve]
       = [Some 130%float; Some 110%float]
    /\ map (fun r => PrimFloat.mul (monthly_or_zero r) 12)
         [Sample.above_twelve; Sample.below_twelve]
       = [120%float; 120%float]
    /\ Complete.total_annual_savings (Complete.export_info doc) = "240.00"
    /\ map TypeEntry.annual_savings
         (Complete.breakdown_by_type (Complete.summary_of doc))
       = ["$240.00"]
    /\ map MonthEntry.annual_savings
         (Complete.breakdown_by_month (Complete.summary_of doc))
       = ["$240.00"].
Proof. eexists _, _. repeat split. Qed.

(** ** The region of an exported record *)

(** C10: in both documents the region of every exported record is the
    event's own region when that is a text that is not empty, otherwise
    the configured default when that is one, otherwise "us-east-1"; an
    event whose region is the empty text gets the fallback. *)
Theorem region_is_resolved {host : Host} (data : dashboard)
  (rs : list resource) (monthYear : string) (now : Z) :
  deleted_resources data = Some rs -> rs <> [] ->
  (exists doc filename,
      downloadAllLogs data now = downloadJSON doc filename
      /\ map Enriched.region (Complete.deleted_resources doc)
         = map (fun r => region_by_claim (region r) (aws_region data))
               (filter_up_to now rs))
  /\ (filter_month monthYear rs <> [] ->
      exists doc filename,
        downloadMonthLog data monthYear now = downloadJSON doc filename
        /\ map Enriched.region (Monthly.deleted_resources doc)
           = map (fun r => region_by_claim (region r) (aws_region data))
                 (filter_month monthYear rs))
  /\ (forall r, region r = Some "" ->
        Enriched.region (enrich data r)
        = region_by_claim None (aws_region data)).
Proof.
  intros H Hne. split; [|split].
  - eexists _, _. split; [exact (downloadAllLogs_document data rs now H Hne)|].
    simpl. rewrite map_map. apply map_ext. intros r. apply enrich_region.
  - intros Hf.
    destruct (downloadMonthLog_document data rs monthYear now H Hf)
      as (s & e & _ & _ & Hd).
    eexists _, _. split; [exact Hd|].
    simpl. rewrite map_map. apply map_ext. intros r. apply enrich_region.
  - intros r Hr. rewrite enrich_region, Hr. reflexivity.
Qed.

Lemma region_is_resolved_witness :
  exists doc filename,
    downloadAllLogs (host := Sample.utc_host) Sample.oldest_first Sample.june1
    = downloadJSON doc filename
    /\ map Enriched.region (Complete.deleted_resources doc)
       = ["eu-west-1"; "us-west-2"].
Proof.
  exact (proj1 (region_is_resolved (host := Sample.utc_host)
                  Sample.oldest_first
                  [Sample.nat_gateway; Sample.ebs_volume] "2025-01"
                  Sample.june1 eq_refl
                  (fun H => @nil_cons _ Sample.nat_gateway _ (eq_sym H)))).
Defined.

(* ================================================================== *)
(** * Part IV: further properties of the code *)
(* ================================================================== *)

(** ** Discovery, the buttons and the exports *)

Module DiscoveryFacts.

Section Discovery.

Context {host : Host}.
Variable data : dashboard.

Lemma getAvailableMonths_shape :
  getAvailableMonths data
  = rev (Array_sort (fun s => s)
           (first_occurrences
              (map (fun r => monthYear_of (deleted_at r))
                   (events_of data)))).
Proof.
  unfold getAvailableMonths, events_of.
  destruct (deleted_resources data) as [[|r rs]|]; try reflexivity.
  now rewrite fold_Set_add_map.
Qed.

Lemma getAvailableMonths_perm :
  Permutation (getAvailableMonths data)
    (first_occurrences
       (map (fun r => monthYear_of (deleted_at r)) (events_of data))).
Proof.
  rewrite getAvailableMonths_shape, <- Permutation_rev.
  apply Array_sort_perm.
Qed.

Lemma getAvailableMonths_in (k : string) :
  In k (getAvailableMonths data)
  <-> exists r, In r (events_of data) /\ monthYear_of (deleted_at r) = k.
Proof.
  split.
  - intros H. apply (Permutation_in _ getAvailableMonths_perm) in H.
    apply in_first_occurrences, in_map_iff in H.
    destruct H as [r [H1 H2]]. eauto.
  - intros [r [H1 H2]].
    apply (Permutation_in _ (Permutation_sym getAvailableMonths_perm)).
    apply in_first_occurrences, in_map_iff. eauto.
Qed.

Lemma getAvailableMonths_nodup : NoDup (getAvailableMonths data).
Proof.
  eapply Permutation_NoDup;
    [symmetry; apply getAvailableMonths_perm|].
  apply first_occurrences_nodup.
Qed.

Lemma getAvailableMonths_descending :
  StronglySorted (fun a b => text_lt b a) (getAvailableMonths data).
Proof.
  rewrite getAvailableMonths_shape. apply (strongly_sorted_rev text_lt).
  apply (sorted_nodup_strict (fun s => s));
    [|apply (Array_sort_sorted (fun s => s))].
  rewrite map_id.
  eapply Permutation_NoDup; [symmetry; apply Array_sort_perm|].
  apply first_occurrences_nodup.
Qed.

End Discovery.

(** Two lists in strictly descending order with the same elements are
    the same list. *)
Lemma descending_unique (l1 l2 : list string) :
  StronglySorted (fun a b => text_lt b a) l1 ->
  StronglySorted (fun a b => text_lt b a) l2 ->
  (forall k, In k l1 <-> In k l2) -> l1 = l2.
Proof.
  intros H1. revert l2.
  induction H1 as [|x l1 Hs1 IH Hall1]; intros l2 H2 Hin.
  - destruct l2 as [|y l2]; [reflexivity|].
    exfalso. apply (proj2 (Hin y)). now left.
  - destruct H2 as [|y l2 Hs2 Hall2].
    + exfalso. apply (proj1 (Hin x)). now left.
    + rewrite Forall_forall in Hall1, Hall2.
      assert (Hxy : x = y).
      { destruct (proj1 (Hin x) (or_introl eq_refl)) as [Hy|Hy]; [auto|].
        destruct (proj2 (Hin y) (or_introl eq_refl)) as [Hx|Hx]; [auto|].
        exfalso. apply (text_lt_irrefl x).
        eapply text_lt_trans; [apply Hall2, Hy|apply Hall1, Hx]. }
      subst y. f_equal. apply IH; [exact Hs2|].
      intros k. split; intros Hk.
      * destruct (proj1 (Hin k) (or_intror Hk)) as [->|H]; [|exact H].
        exfalso. exact (text_lt_irrefl _ (Hall1 _ Hk)).
      * destruct (proj2 (Hin k) (or_intror Hk)) as [->|H]; [|exact H].
        exfalso. exact (text_lt_irrefl _ (Hall2 _ Hk)).
Qed.

End DiscoveryFacts.

Import Render Calendar DiscoveryFacts.

(** X1: the order of the input does not matter to the discovery of
    buckets: two inputs with the same events in any order give the same
    list of months. *)
Theorem discovery_ignores_input_order {host : Host} (rs rs' : list resource)
  (region region' : option string) :
  Permutation rs rs' ->
  getAvailableMonths (Build_dashboard (Some rs) region)
  = getAvailableMonths (Build_dashboard (Some rs') region').
Proof.
  intros Hp. apply descending_unique;
    try apply getAvailableMonths_descending.
  intros k. rewrite !getAvailableMonths_in. unfold events_of. simpl.
  split; intros [r [Hin Hk]]; exists r; split; auto;
    [apply (Permutation_in _ Hp)|apply (Permutation_in _ (Permutation_sym Hp))];
    exact Hin.
Qed.

Lemma discovery_ignores_input_order_witness :
  getAvailableMonths (host := Sample.utc_host) Sample.oldest_first
  = getAvailableMonths (host := Sample.utc_host) Sample.newest_first.
Proof.
  exact (discovery_ignores_input_order (host := Sample.utc_host)
           [Sample.nat_gateway; Sample.ebs_volume]
           [Sample.ebs_volume; Sample.nat_gateway]
           (Some "us-west-2") (Some "us-west-2")
           (perm_swap Sample.ebs_volume Sample.nat_gateway [])).
Defined.

(** X2: the button of the complete log is disabled exactly when
    [downloadAllLogs] would give the "no data" notice, which is exactly
    when no month button is shown; an enabled button always hands a
    document over, be it one without records. *)
Theorem disabled_iff_nothing_to_download {host : Host} (data : dashboard)
  (now : Z) :
  (download_all_disabled data = true
   <-> downloadAllLogs data now = alert no_data_notice)
  /\ (download_all_disabled data = true <-> months_shown data = false)
  /\ (download_all_disabled data = false ->
      exists doc filename,
        downloadAllLogs data now = downloadJSON doc filename
        /\ Complete.total_resources (Complete.export_info doc)
           = List.length (filter_up_to now (events_of data))).
Proof.
  unfold download_all_disabled, months_shown, totalResources.
  destruct (deleted_resources data) as [[|r rs]|] eqn:Hd.
  - rewrite (downloadAllLogs_empty data now (or_intror Hd)).
    rewrite (getAvailableMonths_empty data (or_intror Hd)).
    simpl. repeat split; auto; discriminate.
  - assert (Hne : r :: rs <> []) by discriminate.
    rewrite (downloadAllLogs_document data _ now Hd Hne).
    assert (Hin : In (monthYear_of (deleted_at r)) (getAvailableMonths data)).
    { apply getAvailableMonths_in. exists r. unfold events_of. rewrite Hd.
      split; [now left|reflexivity]. }
    simpl. split; [split; discriminate|]. split.
    + split; [discriminate|].
      destruct (getAvailableMonths data); [contradiction|discriminate].
    + intros _. eexists _, _. split; [reflexivity|].
      unfold events_of. rewrite Hd. reflexivity.
  - rewrite (downloadAllLogs_empty data now (or_introl Hd)).
    rewrite (getAvailableMonths_empty data (or_introl Hd)).
    simpl. repeat split; auto; discriminate.
Qed.

(** ** The month buttons *)

Module ButtonFacts.

Import ParseFacts MonthFacts KeyFacts BreakdownFacts TallyFacts OccurrenceFacts.

Lemma month_key_inj (y1 m1 y2 m2 : Z) :
  0 <= y1 -> 1 <= m1 <= 12 -> 0 <= y2 -> 1 <= m2 <= 12 ->
  month_key y1 m1 = month_key y2 m2 -> y1 = y2 /\ m1 = m2.
Proof.
  intros Hy1 Hm1 Hy2 Hm2 H.
  destruct (month_key_parts y1 m1 Hy1 Hm1) as [A1 B1].
  destruct (month_key_parts y2 m2 Hy2 Hm2) as [A2 B2].
  rewrite H in A1, B1. rewrite A2 in A1. rewrite B2 in B1.
  injection A1 as A1. injection B1 as B1.
  split.
  - apply (f_equal parseInt) in A1.
    rewrite !parseInt_Number_toString in A1 by assumption. congruence.
  - apply (f_equal parseInt) in B1.
    rewrite !parseInt_month in B1 by assumption. congruence.
Qed.

Section Buttons.

Context {host : Host}.
Variable data : dashboard.
Variable rs : list resource.
Hypothesis events : deleted_resources data = Some rs.

Lemma monthResources_calendar (y m : Z) :
  0 <= y -> 1 <= m <= 12 ->
  monthResources data (month_key y m) = filter (calendar_test y m) rs.
Proof.
  intros Hy Hm. unfold monthResources. rewrite events.
  destruct (month_key_parts y m Hy Hm) as [-> ->].
  unfold month_index, parseInt_opt, template, strict_eq.
  rewrite parseInt_Number_toString, parseInt_month by assumption.
  reflexivity.
Qed.

Lemma getMonth_range (t : Z) : 1 <= getMonth LocalTZA t + 1 <= 12.
Proof.
  unfold getMonth. pose proof (MonthFromTime_range (LocalTime LocalTZA t)).
  lia.
Qed.

Lemma calendar_test_key (r0 r : resource) :
  0 <= getFullYear LocalTZA (deleted_at r0) ->
  0 <= getFullYear LocalTZA (deleted_at r) ->
  calendar_test (getFullYear LocalTZA (deleted_at r0))
                (getMonth LocalTZA (deleted_at r0) + 1) r
  = String.eqb (monthYear_of (deleted_at r)) (monthYear_of (deleted_at r0)).
Proof.
  intros H0 H. unfold calendar_test.
  destruct (String.eqb_spec (monthYear_of (deleted_at r))
                            (monthYear_of (deleted_at r0))) as [E|E].
  - apply (month_key_inj _ _ _ _ H (getMonth_range _) H0 (getMonth_range _))
      in E.
    destruct E as [-> E]. rewrite Z.eqb_refl. simpl. apply Z.eqb_eq. lia.
  - apply andb_false_iff.
    destruct (Z.eqb_spec (getFullYear LocalTZA (deleted_at r))
                (getFullYear LocalTZA (deleted_at r0))) as [Ey|Ey];
      [|now left].
    right. apply Z.eqb_neq. intros Em. apply E.
    unfold monthYear_of. rewrite Ey.
    replace (getMonth LocalTZA (deleted_at r))
      with (getMonth LocalTZA (deleted_at r0)) by lia.
    reflexivity.
Qed.

Hypothesis years :
  forall r, In r rs -> 0 <= getFullYear LocalTZA (deleted_at r).

Lemma monthResources_group (r0 : resource) :
  In r0 rs ->
  monthResources data (monthYear_of (deleted_at r0))
  = group (fun r => monthYear_of (deleted_at r))
          (monthYear_of (deleted_at r0)) rs.
Proof.
  intros Hin.
  change (monthYear_of (deleted_at r0))
    with (month_key (getFullYear LocalTZA (deleted_at r0))
                    (getMonth LocalTZA (deleted_at r0) + 1)) at 1.
  rewrite monthResources_calendar by auto using getMonth_range.
  unfold group. apply filter_ext_in. intros r Hr.
  apply calendar_test_key; auto.
Qed.

Lemma monthResources_available (k : string) :
  In k (getAvailableMonths data) ->
  monthResources data k = group (fun r => monthYear_of (deleted_at r)) k rs
  /\ (1 <= List.length (monthResources data k))%nat.
Proof.
  intros Hk. apply getAvailableMonths_in in Hk.
  destruct Hk as [r0 [Hin <-]]. unfold events_of in Hin.
  rewrite events in Hin. rewrite (monthResources_group r0 Hin).
  split; [reflexivity|].
  unfold group. 
  assert (H : In r0 (filter (fun r => String.eqb (monthYear_of (deleted_at r))
                                  (monthYear_of (deleted_at r0))) rs)).
  { apply filter_In. split; [exact Hin|apply String.eqb_refl]. }
  destruct (filter _ rs); [contradiction|simpl; lia].
Qed.

End Buttons.

Section Sums.

Context {host : Host}.

Lemma list_sum_perm (l l' : list nat) :
  Permutation l l' -> list_sum l = list_sum l'.
Proof.
  induction 1; simpl; lia.
Qed.

Lemma group_sizes (key_of : resource -> string) (rs : list resource) :
  list_sum (map (fun k => List.length (group key_of k rs))
                (map fst (tally_all key_of rs)))
  = List.length (counted key_of rs).
Proof.
  rewrite <- counts_tally_all. unfold counts. rewrite map_map. f_equal.
  apply map_ext_in. intros [k b] Hin. simpl.
  apply in_tally_all, expected_some in Hin. destruct Hin as [-> _].
  reflexivity.
Qed.

Lemma month_group_sizes (data : dashboard) :
  list_sum (map (fun k => List.length
                            (group (fun r => monthYear_of (deleted_at r)) k
                                   (events_of data)))
                (getAvailableMonths data))
  = List.length (events_of data).
Proof.
  rewrite (list_sum_perm _ _
             (Permutation_map _ (getAvailableMonths_perm data))).
  rewrite <- (counted_all (fun r => monthYear_of (deleted_at r))
                (fun r => monthYear_of_numeric (deleted_at r))
                (events_of data)) at 1.
  rewrite <- keys_tally_all, group_sizes.
  now rewrite counted_all by (intros r; apply monthYear_of_numeric).
Qed.

End Sums.

End ButtonFacts.

(** ** What a handed-over document was made of *)

Module DocumentFacts.

Import ExportFacts.

Section Documents.

Context {host : Host}.
Variable data : dashboard.

Lemma downloadAllLogs_inv (now : Z) (doc : Complete.t) (filename : string) :
  downloadAllLogs data now = downloadJSON doc filename ->
  events_of data <> []
  /\ doc = complete_document data now (filter_up_to now (events_of data))
  /\ filename
     = ("costguardian-complete-log-" ++ formatDate now ++ ".json")%string.
Proof.
  unfold downloadAllLogs, events_of.
  destruct (deleted_resources data) as [[|r rs]|]; try discriminate.
  intros H. injection H as <- <-. repeat split. discriminate.
Qed.

Lemma downloadMonthLog_inv (monthYear : string) (now : Z) (doc : Monthly.t)
  (filename : string) :
  downloadMonthLog data monthYear now = downloadJSON doc filename ->
  exists startDate endDate,
    startDate_of (nth_error (split "-" monthYear) 0)
                 (nth_error (split "-" monthYear) 1) = Some startDate
    /\ endDate_of (nth_error (split "-" monthYear) 0)
                  (nth_error (split "-" monthYear) 1) = Some endDate
    /\ filter_month monthYear (events_of data) <> []
    /\ doc = monthly_document data (nth_error (split "-" monthYear) 0)
               (nth_error (split "-" monthYear) 1) startDate endDate now
               (filter_month monthYear (events_of data)).
Proof.
  unfold events_of.
  destruct (deleted_resources data) as [rs|] eqn:Hd;
    [|rewrite (downloadMonthLog_empty data monthYear now (or_introl Hd));
      discriminate].
  destruct rs as [|r rs];
    [rewrite (downloadMonthLog_empty data monthYear now (or_intror Hd));
     discriminate|].
  destruct (filter_month monthYear (r :: rs)) as [|x l] eqn:Hf.
  - rewrite (downloadMonthLog_notice data (r :: rs) monthYear now Hd)
      by (discriminate || exact Hf).
    discriminate.
  - assert (Hne : filter_month monthYear (r :: rs) <> [])
      by (rewrite Hf; discriminate).
    destruct (downloadMonthLog_document data (r :: rs) monthYear now Hd Hne)
      as [s [e [Hs [He Hdoc]]]].
    rewrite Hdoc, Hf. intros H. injection H as <- _.
    exists s, e. repeat split; auto. discriminate.
Qed.

End Documents.

Lemma filter_filter {A : Type} (p q : A -> bool) (l : list A) :
  filter q (filter p l) = filter (fun x => p x && q x) l.
Proof.
  induction l as [|x l IH]; [reflexivity|]. simpl.
  destruct (p x); simpl; [destruct (q x)|]; now rewrite IH.
Qed.

Lemma filter_length_le {A : Type} (p : A -> bool) (l : list A) :
  (List.length (filter p l) <= List.length l)%nat.
Proof.
  induction l as [|x l IH]; [simpl; lia|]. simpl.
  destruct (p x); simpl; lia.
Qed.

End DocumentFacts.

Import ButtonFacts DocumentFacts.

(** X3: when no event lies before the year 0, the month buttons share
    the events out: the button of a discovered month counts the events
    whose month key it is, at least one, and the counts of all the
    buttons add up to the number on the button of the complete log. *)
Theorem month_buttons_partition {host : Host} (data : dashboard) :
  (forall r, In r (events_of data) ->
             0 <= getFullYear LocalTZA (deleted_at r)) ->
  (forall k, In k (getAvailableMonths data) ->
     monthResources data k
     = group (fun r => monthYear_of (deleted_at r)) k (events_of data)
     /\ (1 <= List.length (monthResources data k))%nat)
  /\ list_sum (map (fun k => List.length (monthResources data k))
                   (getAvailableMonths data))
     = totalResources data.
Proof.
  intros Hy.
  assert (Hk : forall k, In k (getAvailableMonths data) ->
     monthResources data k
     = group (fun r => monthYear_of (deleted_at r)) k (events_of data)
     /\ (1 <= List.length (monthResources data k))%nat).
  { intros k Hin. unfold events_of in *.
    destruct (deleted_resources data) as [rs|] eqn:Hd.
    - apply (monthResources_available data rs Hd Hy k Hin).
    - rewrite (ExportFacts.getAvailableMonths_empty data (or_introl Hd)) in Hin.
      contradiction. }
  split; [exact Hk|].
  rewrite (map_ext_in _ (fun k => List.length
             (group (fun r => monthYear_of (deleted_at r)) k
                (events_of data)))).
  - rewrite month_group_sizes. unfold totalResources, events_of.
    now destruct (deleted_resources data).
  - intros k Hin. now rewrite (proj1 (Hk k Hin)).
Qed.

Lemma month_buttons_partition_witness :
  list_sum (map (fun k => List.length
                   (monthResources (host := Sample.utc_host)
                      Sample.january_only k))
                (getAvailableMonths (host := Sample.utc_host)
                   Sample.january_only))
  = totalResources Sample.january_only.
Proof.
  refine (proj2 (month_buttons_partition (host := Sample.utc_host)
                   Sample.january_only _)).
  intros r [<-|[<-|[]]]; vm_compute; discriminate.
Defined.

Module MonthEntryFacts.

Import ParseFacts MonthFacts KeyFacts BreakdownFacts NoticeFacts.

Section Entries.

Context {host : Host}.

Lemma month_entry_labels (y m : Z) (b : bucket) :
  0 <= y -> 1 <= m <= 12 ->
  MonthEntry.year (month_entry (month_key y m, b))
  = Some (Number_toString y)
  /\ MonthEntry.month (month_entry (month_key y m, b))
     = Some (month_name m).
Proof.
  intros Hy Hm. unfold month_entry.
  cbv beta iota zeta. cbn [MonthEntry.year MonthEntry.month].
  destruct (month_key_parts y m Hy Hm) as [-> ->]. split; [reflexivity|].
  apply (month_name_of_request _ m (parseInt_month m Hm) Hm).
Qed.

Lemma month_entry_of_event (rs : list resource) (r : resource) :
  In r rs ->
  In (month_entry
        (monthYear_of (deleted_at r),
         stats (group (fun x => monthYear_of (deleted_at x))
                      (monthYear_of (deleted_at r)) rs)))
     (getBreakdownByMonth rs).
Proof.
  intros Hin. unfold getBreakdownByMonth. apply in_map.
  apply in_sorted_entries.
  apply (expected_of_event (fun x => monthYear_of (deleted_at x)) rs r Hin).
  apply numeric_key_not_inherited, monthYear_of_numeric.
Qed.

Lemma group_calendar (rs : list resource) (r0 : resource) :
  (forall r, In r rs -> 0 <= getFullYear LocalTZA (deleted_at r)) ->
  In r0 rs ->
  group (fun x => monthYear_of (deleted_at x)) (monthYear_of (deleted_at r0))
        rs
  = filter (calendar_test (getFullYear LocalTZA (deleted_at r0))
                          (getMonth LocalTZA (deleted_at r0) + 1)) rs.
Proof.
  intros Hy Hin. unfold group. apply filter_ext_in. intros r Hr.
  symmetry. apply calendar_test_key; auto.
Qed.

End Entries.

End MonthEntryFacts.

Import MonthEntryFacts.

(** X4: when no event lies before the year 0, [getBreakdownByMonth] has,
    for every event, an entry labelled with the year and the name of the
    month the event was deleted in, local time; the entry counts the
    events of that calendar month and prints the sum of their monthly
    savings. *)
Theorem month_breakdown_is_labelled {host : Host} (rs : list resource)
  (r : resource) :
  (forall x, In x rs -> 0 <= getFullYear LocalTZA (deleted_at x)) ->
  In r rs ->
  let y := getFullYear LocalTZA (deleted_at r) in
  let m := getMonth LocalTZA (deleted_at r) + 1 in
  exists e,
    In e (getBreakdownByMonth rs)
    /\ MonthEntry.year e = Some (Number_toString y)
    /\ MonthEntry.month e = Some (month_name m)
    /\ MonthEntry.count e = List.length (filter (calendar_test y m) rs)
    /\ MonthEntry.monthly_savings e
       = ("$" ++ toFixed2 (sum_over monthly_or_zero
                             (filter (calendar_test y m) rs)))%string.
Proof.
  intros Hy Hin y m.
  exists (month_entry
            (monthYear_of (deleted_at r),
             stats (group (fun x => monthYear_of (deleted_at x))
                          (monthYear_of (deleted_at r)) rs))).
  split; [apply month_entry_of_event, Hin|].
  rewrite (group_calendar rs r Hy Hin). fold y m.
  change (monthYear_of (deleted_at r)) with (month_key y m).
  destruct (month_entry_labels y m
              (stats (filter (calendar_test y m) rs)) (Hy r Hin)
              (getMonth_range _)) as [-> ->].
  repeat split.
Qed.

Lemma month_breakdown_is_labelled_witness :
  exists e,
    In e (getBreakdownByMonth (host := Sample.utc_host)
            [Sample.nat_gateway; Sample.elastic_ip])
    /\ MonthEntry.year e = Some "2025"
    /\ MonthEntry.month e = Some "January"
    /\ MonthEntry.count e = 2%nat
    /\ MonthEntry.monthly_savings e = "$36.00".
Proof.
  refine (month_breakdown_is_labelled (host := Sample.utc_host)
            [Sample.nat_gateway; Sample.elastic_ip] Sample.nat_gateway
            _ (or_introl eq_refl)).
  intros x [<-|[<-|[]]]; vm_compute; discriminate.
Defined.

Module WindowFacts.

Import MonthFacts OccurrenceFacts.

Section Windows.

Context {host : Host}.

Lemma calendar_test_spec (y m : Z) (r : resource) :
  calendar_test y m r = true <-> in_month y m (deleted_at r).
Proof.
  unfold calendar_test, in_month.
  now rewrite andb_true_iff, !Z.eqb_eq.
Qed.

Variable tza : Z.
Hypothesis fixed : fixed_offset tza.
Hypothesis zone : - msPerDay <= tza <= msPerDay.

Lemma filter_month_window (y m : Z) (rs : list resource) :
  100 <= y <= 275759 -> 1 <= m <= 12 ->
  filter_month (month_key y m) rs
  = filter (fun r => (first_instant y m <=? deleted_at r)
                     && (deleted_at r <=? last_second y m)) rs.
Proof.
  intros Hy Hm. unfold filter_month. cbv zeta.
  destruct (month_key_dates fixed zone y m Hy Hm) as [-> ->]. reflexivity.
Qed.

Lemma filter_month_button (data : dashboard) (y m : Z) :
  100 <= y <= 275759 -> 1 <= m <= 12 ->
  filter_month (month_key y m) (events_of data)
  = filter (fun r => deleted_at r <=? last_second y m)
           (monthResources data (month_key y m)).
Proof.
  intros Hy Hm. rewrite (filter_month_window y m _ Hy Hm).
  unfold events_of.
  destruct (deleted_resources data) as [rs|] eqn:Hd;
    [|unfold monthResources; rewrite Hd; reflexivity].
  rewrite (monthResources_calendar data rs Hd y m) by lia.
  rewrite filter_filter. apply filter_ext. intros r.
  apply eq_true_iff_eq.
  rewrite !andb_true_iff, !Z.leb_le, calendar_test_spec,
    (in_month_window fixed y m _ Hm).
  lia.
Qed.

Lemma button_without_gap (data : dashboard) (y m : Z) :
  100 <= y <= 275759 -> 1 <= m <= 12 ->
  (forall r, In r (events_of data) ->
     ~ last_second y m < deleted_at r <= last_second y m + 999) ->
  filter_month (month_key y m) (events_of data)
  = monthResources data (month_key y m).
Proof.
  intros Hy Hm Hgap. rewrite (filter_month_button data y m Hy Hm).
  apply filter_all. intros r Hr. apply Z.leb_le.
  unfold events_of in Hgap.
  destruct (deleted_resources data) as [rs|] eqn:Hd;
    [|unfold monthResources in Hr; rewrite Hd in Hr; contradiction].
  rewrite (monthResources_calendar data rs Hd y m) in Hr by lia.
  apply filter_In in Hr. destruct Hr as [Hin Ht].
  apply calendar_test_spec, (in_month_window fixed y m _ Hm) in Ht.
  specialize (Hgap r Hin). lia.
Qed.

End Windows.

End WindowFacts.

Import WindowFacts.

(** X6: on an engine that keeps one offset from UTC at every instant
    (no daylight saving), the offset within a day of UTC, and for a
    discovered month of the years 100 to 275759, the monthly export
    holds the events of the month's button but those of the last 999
    milliseconds of the month, so it never holds more than the button
    counts; when no event falls in those milliseconds, the document's
    number of resources and total of monthly savings are the button's. *)
Theorem month_export_and_button {host : Host} (data : dashboard)
  (tza y m : Z) :
  fixed_offset tza -> - msPerDay <= tza <= msPerDay ->
  100 <= y <= 275759 -> 1 <= m <= 12 ->
  In (month_key y m) (getAvailableMonths data) ->
  filter_month (month_key y m) (events_of data)
  = filter (fun r => deleted_at r <=? last_second y m)
           (monthResources data (month_key y m))
  /\ (List.length (filter_month (month_key y m) (events_of data))
      <= List.length (monthResources data (month_key y m)))%nat
  /\ ((forall r, In r (events_of data) ->
         ~ last_second y m < deleted_at r <= last_second y m + 999) ->
      forall now doc filename,
        downloadMonthLog data (month_key y m) now
        = downloadJSON doc filename ->
        Monthly.total_resources (Monthly.export_info doc)
        = List.length (monthResources data (month_key y m))
        /\ Monthly.total_monthly_savings (Monthly.export_info doc)
           = month_button_savings data (month_key y m)).
Proof.
  intros Hf Hz Hy Hm _. split; [|split].
  - apply (filter_month_button tza Hf Hz data y m Hy Hm).
  - rewrite (filter_month_button tza Hf Hz data y m Hy Hm).
    apply filter_length_le.
  - intros Hgap now doc filename Hdoc.
    apply downloadMonthLog_inv in Hdoc.
    destruct Hdoc as [s [e [_ [_ [_ ->]]]]].
    rewrite (button_without_gap tza Hf Hz data y m Hy Hm Hgap).
    split; reflexivity.
Qed.

Lemma month_export_and_button_witness :
  (List.length (filter_month (host := Sample.utc_host) (month_key 2025 1)
                  (events_of Sample.january_only))
   <= List.length (monthResources (host := Sample.utc_host)
                     Sample.january_only (month_key 2025 1)))%nat.
Proof.
  refine (proj1 (proj2 (month_export_and_button (host := Sample.utc_host)
                          Sample.january_only 0 2025 1 _ _ _ _ _)));
    [intros t isUTC; reflexivity|vm_compute; split; discriminate ..|].
  vm_compute. now left.
Defined.

Module RangeFacts.

Section Ranges.

Context {host : Host}.

Lemma filter_month_invalid (monthYear : string) (rs : list resource) :
  startDate_of (nth_error (split "-" monthYear) 0)
               (nth_error (split "-" monthYear) 1) = None
  \/ endDate_of (nth_error (split "-" monthYear) 0)
                (nth_error (split "-" monthYear) 1) = None ->
  filter_month monthYear rs = [].
Proof.
  intros H. unfold filter_month. cbv zeta.
  apply OccurrenceFacts.filter_none. intros r _.
  destruct H as [-> | ->]; unfold date_ge, date_le.
  - reflexivity.
  - apply andb_false_r.
Qed.

Lemma filter_month_between (monthYear : string) (rs : list resource)
  (s e : Z) (r : resource) :
  startDate_of (nth_error (split "-" monthYear) 0)
               (nth_error (split "-" monthYear) 1) = Some s ->
  endDate_of (nth_error (split "-" monthYear) 0)
             (nth_error (split "-" monthYear) 1) = Some e ->
  In r (filter_month monthYear rs) <-> In r rs /\ s <= deleted_at r <= e.
Proof.
  intros Hs He. unfold filter_month. cbv zeta. rewrite Hs, He.
  rewrite filter_In. unfold date_ge, date_le.
  rewrite andb_true_iff, !Z.leb_le. tauto.
Qed.

Lemma filter_up_to_spec (now : Z) (rs : list resource) (r : resource) :
  In r (filter_up_to now rs) <-> In r rs /\ deleted_at r <= now.
Proof.
  unfold filter_up_to. rewrite filter_In. unfold date_le.
  now rewrite Z.leb_le.
Qed.

End Ranges.

End RangeFacts.

Import RangeFacts.

(** X7: [downloadMonthLog] raises no exception, whatever text it is
    asked for. [toISOString] throws on an invalid date, but a request
    whose year or month gives no valid date selects no event, and the
    operation ends in a notice before the range is printed. *)
Theorem month_request_never_throws {host : Host} (data : dashboard)
  (monthYear : string) (now : Z) :
  downloadMonthLog data monthYear now <> RangeError
  /\ (startDate_of (nth_error (split "-" monthYear) 0)
                   (nth_error (split "-" monthYear) 1) = None
      \/ endDate_of (nth_error (split "-" monthYear) 0)
                    (nth_error (split "-" monthYear) 1) = None ->
      filter_month monthYear (events_of data) = []
      /\ exists notice,
           downloadMonthLog data monthYear now = alert notice).
Proof.
  split; [apply ExportFacts.downloadMonthLog_never_throws|].
  intros H. split; [apply (filter_month_invalid _ _ H)|].
  unfold events_of.
  destruct (deleted_resources data) as [[|r rs]|] eqn:Hd.
  - eexists.
    apply (ExportFacts.downloadMonthLog_empty data _ _ (or_intror Hd)).
  - eexists.
    apply (ExportFacts.downloadMonthLog_notice data (r :: rs) _ _ Hd);
      [discriminate|apply (filter_month_invalid _ _ H)].
  - eexists.
    apply (ExportFacts.downloadMonthLog_empty data _ _ (or_introl Hd)).
Qed.

(** X8: a monthly document is never empty and its date range covers
    its records: the range is printed from two valid dates, every
    exported record was deleted between them, and the number of
    resources is the number of records, at least one. *)
Theorem monthly_range_covers_records {host : Host} (data : dashboard)
  (monthYear : string) (now : Z) (doc : Monthly.t) (filename : string) :
  downloadMonthLog data monthYear now = downloadJSON doc filename ->
  exists startDate endDate,
    Monthly.range (Monthly.export_info doc)
    = {| from := toISOString startDate; to := toISOString endDate |}
    /\ Forall (fun rec => startDate <= Enriched.deleted_at rec <= endDate)
              (Monthly.deleted_resources doc)
    /\ Monthly.total_resources (Monthly.export_info doc)
       = List.length (Monthly.deleted_resources doc)
    /\ (1 <= Monthly.total_resources (Monthly.export_info doc))%nat.
Proof.
  intros Hdoc. apply downloadMonthLog_inv in Hdoc.
  destruct Hdoc as [s [e [Hs [He [Hne ->]]]]].
  exists s, e. cbn [monthly_document Monthly.range Monthly.export_info
                 Monthly.deleted_resources Monthly.total_resources].
  split; [reflexivity|]. split; [|split].
  - apply Forall_forall. intros rec Hrec. apply in_map_iff in Hrec.
    destruct Hrec as [r [<- Hr]].
    apply (filter_month_between monthYear _ s e r Hs He) in Hr.
    exact (proj2 Hr).
  - now rewrite length_map.
  - destruct (filter_month monthYear (events_of data));
      [contradiction|simpl; lia].
Qed.

Lemma monthly_range_covers_records_witness :
  exists startDate endDate,
    Forall (fun rec => startDate <= Enriched.deleted_at rec <= endDate)
           (map (enrich (host := Sample.utc_host) Sample.january_only)
                [Sample.nat_gateway; Sample.elastic_ip]).
Proof.
  destruct (monthly_range_covers_records (host := Sample.utc_host)
              Sample.january_only "2025-01" Sample.june1
              (monthly_document (host := Sample.utc_host)
                 Sample.january_only (Some "2025") (Some "01")
                 1735689600000 1738367999000 Sample.june1
                 [Sample.nat_gateway; Sample.elastic_ip])
              "costguardian-2025-01-log.json")
    as [startDate [endDate [_ [H _]]]].
  - vm_compute. reflexivity.
  - exists startDate, endDate. exact H.
Defined.

(** X9: the complete log leaves out the events deleted after the
    reading of the clock, which the button of the complete log counts
    all the same: every record of the document is no later than the
    clock, the number of resources is the number of records and at most
    the number on the button; when no event is later than the clock the
    records are all the events in the order of the input, and when all
    are, the document has no record and its range starts and ends at the
    clock. *)
Theorem complete_log_stops_at_the_clock {host : Host} (data : dashboard)
  (now : Z) (doc : Complete.t) (filename : string) :
  downloadAllLogs data now = downloadJSON doc filename ->
  Forall (fun rec => Enriched.deleted_at rec <= now)
         (Complete.deleted_resources doc)
  /\ Complete.total_resources (Complete.export_info doc)
     = List.length (Complete.deleted_resources doc)
  /\ (Complete.total_resources (Complete.export_info doc)
      <= totalResources data)%nat
  /\ ((forall r, In r (events_of data) -> deleted_at r <= now) ->
      Complete.deleted_resources doc = map (enrich data) (events_of data))
  /\ ((forall r, In r (events_of data) -> now < deleted_at r) ->
      Complete.deleted_resources doc = []
      /\ Complete.range (Complete.export_info doc)
         = {| from := toISOString now; to := toISOString now |}).
Proof.
  intros Hdoc. apply downloadAllLogs_inv in Hdoc.
  destruct Hdoc as [Hne [-> _]].
  cbn [complete_document Complete.deleted_resources Complete.export_info
       Complete.total_resources Complete.range].
  split; [|split; [|split; [|split]]].
  - apply Forall_forall. intros rec Hrec. apply in_map_iff in Hrec.
    destruct Hrec as [r [<- Hr]]. apply filter_up_to_spec in Hr.
    exact (proj2 Hr).
  - now rewrite length_map.
  - unfold totalResources, events_of, filter_up_to.
    destruct (deleted_resources data); [apply filter_length_le|simpl; lia].
  - intros Hall. f_equal. apply OccurrenceFacts.filter_all.
    intros r Hr. apply Z.leb_le, (Hall r Hr).
  - intros Hall.
    assert (E : filter_up_to now (events_of data) = []).
    { apply OccurrenceFacts.filter_none. intros r Hr.
      apply Z.leb_gt, (Hall r Hr). }
    rewrite E. split; reflexivity.
Qed.

Lemma complete_log_stops_at_the_clock_witness :
  Complete.deleted_resources
    (complete_document (host := Sample.utc_host)
       (Sample.with_events [Sample.ebs_volume]) Sample.jan15
       (filter_up_to Sample.jan15 [Sample.ebs_volume]))
  = [].
Proof.
  refine (proj1 (proj2 (proj2 (proj2 (proj2
            (complete_log_stops_at_the_clock (host := Sample.utc_host)
               (Sample.with_events [Sample.ebs_volume]) Sample.jan15
               _ "costguardian-complete-log-2025-01-15.json" _)))) _)).
  - vm_compute. reflexivity.
  - intros r [<-|[]]. vm_compute. reflexivity.
Defined.

(** ** The breakdown by type *)

Module TypeFacts.

Import BreakdownFacts TallyFacts GroupFacts.

Section Types.

Context {host : Host}.

Lemma group_of_member (key_of : resource -> string) (rs : list resource)
  (r : resource) :
  In r rs -> (1 <= List.length (group key_of (key_of r) rs))%nat.
Proof.
  intros Hin.
  assert (H : In r (group key_of (key_of r) rs)).
  { apply filter_In. split; [exact Hin|apply String.eqb_refl]. }
  destruct (group key_of (key_of r) rs); [contradiction|simpl; lia].
Qed.

Lemma type_entry_not_inherited (rs : list resource) (e : TypeEntry.t) :
  In e (getBreakdownByType rs) -> inherited (TypeEntry.type e) = false.
Proof.
  unfold getBreakdownByType. intros H. apply in_map_iff in H.
  destruct H as [[k b] [<- H]]. apply in_Object_entries in H.
  unfold expected in H. cbn [type_entry TypeEntry.type].
  destruct (inherited k); [discriminate|reflexivity].
Qed.

Lemma getBreakdownByType_count (rs : list resource) :
  list_sum (map TypeEntry.count (getBreakdownByType rs))
  = List.length (counted resource_type rs).
Proof.
  unfold getBreakdownByType.
  rewrite type_entry_count, (counts_perm _ _ (Object_entries_perm _)).
  apply counts_tally_all.
Qed.

End Types.

End TypeFacts.

Import TypeFacts.

(** X10: every entry of [getBreakdownByType] counts the events of its
    type, at least one, and prints the sum of their monthly savings; no
    entry is made for a type named like a member of [Object.prototype]
    ("constructor", "toString", ...), so the counts add up to the number
    of events of the other types, and to the number of all events
    exactly when no event has such a type. *)
Theorem type_breakdown_counts {host : Host} (rs : list resource) :
  (forall e, In e (getBreakdownByType rs) ->
     TypeEntry.count e
     = List.length (group resource_type (TypeEntry.type e) rs)
     /\ (1 <= TypeEntry.count e)%nat
     /\ TypeEntry.monthly_savings e
        = ("$" ++ toFixed2 (sum_over monthly_or_zero
                              (group resource_type (TypeEntry.type e) rs)))
            %string
     /\ inherited (TypeEntry.type e) = false)
  /\ list_sum (map TypeEntry.count (getBreakdownByType rs))
     = List.length (filter (fun r => negb (inherited (resource_type r))) rs)
  /\ (list_sum (map TypeEntry.count (getBreakdownByType rs)) = List.length rs
      <-> forall r, In r rs -> inherited (resource_type r) = false).
Proof.
  split; [|split].
  - intros e He.
    destruct (GroupFacts.type_entry_of_group rs e He) as [E [r [Hin Hr]]].
    split; [rewrite E at 1; reflexivity|].
    split; [rewrite E at 1; cbn [type_entry TypeEntry.count count stats];
            rewrite <- Hr; apply group_of_member, Hin|].
    split; [rewrite E at 1; reflexivity|].
    apply (type_entry_not_inherited rs e He).
  - apply getBreakdownByType_count.
  - rewrite getBreakdownByType_count. unfold counted. split.
    + intros Hlen r Hin.
      destruct (inherited (resource_type r)) eqn:Hi; [|reflexivity].
      exfalso.
      pose proof (BreakdownFacts.filter_split_perm
                    (fun r => negb (inherited (resource_type r))) rs) as Hp.
      apply Permutation_length in Hp. rewrite length_app, Hlen in Hp.
      assert (Hr : In r (filter (fun x =>
                     negb (negb (inherited (resource_type x)))) rs)).
      { apply filter_In. split; [exact Hin|]. now rewrite Hi. }
      destruct (filter (fun x => negb (negb (inherited (resource_type x))))
                       rs); [contradiction|simpl in Hp; lia].
    + intros Hall. f_equal. apply OccurrenceFacts.filter_all.
      intros r Hin. now rewrite (Hall r Hin).
Qed.

(** ** The days of a month's document *)

Module DayFacts.

Import DateFacts KeyFacts KeyOrderFacts MonthFacts GroupFacts.

Lemma DayWithinYear_range (t : Z) :
  0 <= DayWithinYear t < 365 + InLeapYear t.
Proof.
  unfold DayWithinYear, InLeapYear.
  pose proof (YearFromTime_spec t) as H.
  rewrite DayFromYear_succ in H. unfold DaysInYear in H.
  destruct (leap (YearFromTime t)); lia.
Qed.

Lemma DateFromTime_range (t : Z) : 1 <= DateFromTime t <= 31.
Proof.
  unfold DateFromTime, MonthFromTime.
  pose proof (DayWithinYear_range t) as H.
  assert (Hl : InLeapYear t = 0 \/ InLeapYear t = 1)
    by (unfold InLeapYear; destruct (leap _); auto).
  generalize dependent (DayWithinYear t). generalize dependent (InLeapYear t).
  intros l Hl d H.
  repeat match goal with
         | |- context [?a <? ?b] => destruct (Z.ltb_spec a b)
         end;
    destruct Hl as [-> | ->]; month_starts; lia.
Qed.

Lemma pad_exact (w : nat) (n : Z) :
  String.length (Number_toString n) = w -> pad w n = Number_toString n.
Proof.
  intros H. unfold pad, padStart. rewrite H, Nat.sub_diag. reflexivity.
Qed.

Lemma append_assoc (a b c : string) :
  ((a ++ b) ++ c = a ++ b ++ c)%string.
Proof.
  induction a as [|x a IH]; [reflexivity|]. simpl. now rewrite IH.
Qed.

Section Days.

Context {host : Host}.
Hypothesis utc : fixed_offset 0.

Lemma utc_fields (t : Z) :
  getFullYear LocalTZA t = YearFromTime t
  /\ getMonth LocalTZA t = MonthFromTime t
  /\ getDate LocalTZA t = DateFromTime t.
Proof.
  unfold getFullYear, getMonth, getDate, LocalTime.
  rewrite utc, Z.add_0_r. repeat split.
Qed.

Lemma utc_day_of (t : Z) :
  1000 <= getFullYear LocalTZA t <= 9999 ->
  day_of t
  = (monthYear_of t ++ "-" ++ pad 2 (getDate LocalTZA t))%string.
Proof.
  intros Hy. rewrite day_of_iso_date. unfold iso_date, monthYear_of.
  destruct (utc_fields t) as [Ey [Em Ed]]. rewrite Ey, Em, Ed in *.
  unfold iso_year.
  replace ((0 <=? YearFromTime t) && (YearFromTime t <=? 9999)) with true
    by (symmetry; apply andb_true_iff; split; apply Z.leb_le; lia).
  rewrite (pad_exact 4 _ (year_text_length _ Hy)).
  rewrite append_assoc. reflexivity.
Qed.

End Days.

End DayFacts.

Import DayFacts.

(** X11: on an engine whose local time is UTC at every instant, and
    for years of four digits, the day key of an instant is its month
    key, a dash and the day of the month in two digits; so every date of
    the breakdown by day of a month's document begins with the key the
    document was asked for. *)
Theorem utc_days_lie_in_their_month {host : Host} :
  fixed_offset 0 ->
  (forall t, 1000 <= getFullYear LocalTZA t <= 9999 ->
     day_of t = (monthYear_of t ++ "-" ++ pad 2 (getDate LocalTZA t))%string
     /\ 1 <= getDate LocalTZA t <= 31)
  /\ (forall data y m now doc filename,
        1000 <= y <= 9999 -> 1 <= m <= 12 ->
        downloadMonthLog data (month_key y m) now
        = downloadJSON doc filename ->
        forall e,
          In e (Monthly.breakdown_by_day (Monthly.summary_of doc)) ->
          exists d, 1 <= d <= 31
                    /\ DayEntry.date e
                       = (month_key y m ++ "-" ++ pad 2 d)%string).
Proof.
  intros Hutc.
  assert (Hday : forall t, 1000 <= getFullYear LocalTZA t <= 9999 ->
     day_of t = (monthYear_of t ++ "-" ++ pad 2 (getDate LocalTZA t))%string
     /\ 1 <= getDate LocalTZA t <= 31).
  { intros t Ht. split; [apply (utc_day_of Hutc t Ht)|].
    rewrite (proj2 (proj2 (utc_fields Hutc t))). apply DateFromTime_range. }
  split; [exact Hday|].
  intros data y m now doc filename Hy Hm Hdoc e He.
  assert (Hz : - msPerDay <= 0 <= msPerDay)
    by (vm_compute; split; discriminate).
  apply downloadMonthLog_inv in Hdoc.
  destruct Hdoc as [s [en [_ [_ [_ ->]]]]].
  cbn [monthly_document Monthly.summary_of Monthly.breakdown_by_day] in He.
  destruct (day_entry_of_group _ e He) as [_ [r [Hr <-]]].
  apply (filter_month_spec Hutc Hz y m) in Hr; [|lia|exact Hm].
  destruct Hr as [_ Hw].
  assert (Hin : in_month y m (deleted_at r))
    by (apply (in_month_window Hutc y m _ Hm); lia).
  destruct Hin as [Ey Em].
  destruct (Hday (deleted_at r)) as [-> Hd]; [rewrite Ey; exact Hy|].
  exists (getDate LocalTZA (deleted_at r)). split; [exact Hd|].
  unfold monthYear_of. rewrite Ey, Em.
  replace (m - 1 + 1) with m by lia. reflexivity.
Qed.

Lemma utc_days_lie_in_their_month_witness :
  day_of Sample.jan15
  = (monthYear_of (host := Sample.utc_host) Sample.jan15 ++ "-"
       ++ pad 2 (getDate (@LocalTZA Sample.utc_host) Sample.jan15))
      %string
  /\ 1 <= getDate (@LocalTZA Sample.utc_host) Sample.jan15 <= 31.
Proof.
  refine (proj1 (utc_days_lie_in_their_month (host := Sample.utc_host)
                   (fun t isUTC => eq_refl)) Sample.jan15 _).
  vm_compute. split; discriminate.
Defined.

(** ** From a discovered month to its document *)

Module RoundTripFacts.

Import ParseFacts MonthFacts NoticeFacts ExportFacts.

Section RoundTrip.

Context {host : Host}.

Lemma month_key_labels (y m : Z) :
  0 <= y -> 1 <= m <= 12 ->
  nth_error (split "-" (month_key y m)) 0 = Some (Number_toString y)
  /\ nth_error (split "-" (month_key y m)) 1 = Some (pad 2 m)
  /\ getMonthName (month_index (nth_error (split "-" (month_key y m)) 1))
     = Some (month_name m).
Proof.
  intros Hy Hm. destruct (month_key_parts y m Hy Hm) as [-> ->].
  repeat split.
  apply (month_name_of_request _ m (parseInt_month m Hm) Hm).
Qed.

Variable tza : Z.
Hypothesis fixed : fixed_offset tza.
Hypothesis zone : - msPerDay <= tza <= msPerDay.

Lemma month_document (data : dashboard) (y m now : Z) (r : resource) :
  100 <= y <= 275759 -> 1 <= m <= 12 ->
  In r (events_of data) ->
  first_instant y m <= deleted_at r <= last_second y m ->
  downloadMonthLog data (month_key y m) now
  = downloadJSON
      (monthly_document data (Some (Number_toString y)) (Some (pad 2 m))
         (first_instant y m) (last_second y m) now
         (filter_month (month_key y m) (events_of data)))
      ("costguardian-" ++ Number_toString y ++ "-" ++ pad 2 m ++ "-log.json")
  /\ In r (filter_month (month_key y m) (events_of data)).
Proof.
  intros Hy Hm Hin Hw.
  assert (Hr : In r (filter_month (month_key y m) (events_of data)))
    by (apply (filter_month_spec fixed zone y m _ r Hy Hm); auto).
  split; [|exact Hr].
  unfold events_of in *.
  destruct (deleted_resources data) as [rs|] eqn:Hd; [|contradiction].
  assert (Hne : filter_month (month_key y m) rs <> [])
    by (intros E; rewrite E in Hr; contradiction).
  destruct (downloadMonthLog_document data rs (month_key y m) now Hd Hne)
    as [s [e [Hs [He ->]]]].
  destruct (month_key_dates fixed zone y m Hy Hm) as [Hs' He'].
  rewrite Hs' in Hs. rewrite He' in He.
  injection Hs as <-. injection He as <-.
  destruct (month_key_labels y m) as [-> [-> _]]; [lia|exact Hm|].
  reflexivity.
Qed.

Lemma month_notice (data : dashboard) (y m now : Z) :
  100 <= y <= 275759 -> 1 <= m <= 12 ->
  events_of data <> [] ->
  (forall x, In x (events_of data) -> calendar_test y m x = true ->
             last_second y m < deleted_at x) ->
  downloadMonthLog data (month_key y m) now
  = alert ("No resources deleted in " ++ month_name m ++ " "
             ++ Number_toString y ++ ".")%string.
Proof.
  intros Hy Hm Hne Hgap. unfold events_of in *.
  destruct (deleted_resources data) as [rs|] eqn:Hd; [|contradiction].
  rewrite (downloadMonthLog_notice data rs (month_key y m) now Hd Hne).
  - unfold no_resources_notice.
    destruct (month_key_labels y m) as [-> [E ->]]; [lia|exact Hm|].
    reflexivity.
  - rewrite (filter_month_window tza fixed zone y m rs Hy Hm).
    apply OccurrenceFacts.filter_none. intros x Hx.
    apply not_true_is_false. intros Ht.
    apply andb_true_iff in Ht. rewrite !Z.leb_le in Ht.
    assert (Hc : calendar_test y m x = true).
    { apply calendar_test_spec, (in_month_window fixed y m _ Hm). lia. }
    specialize (Hgap x Hx Hc). lia.
Qed.

End RoundTrip.

End RoundTripFacts.

Import RoundTripFacts.

(** X5: when no event lies before the year 0, the button of a
    discovered month and the entry [getBreakdownByMonth] makes of the
    same events agree: the button's title is the entry's month name and
    year, and the entry has the button's count and the button's
    savings. *)
Theorem buttons_agree_with_month_breakdown {host : Host} (data : dashboard)
  (k : string) :
  (forall r, In r (events_of data) ->
             0 <= getFullYear LocalTZA (deleted_at r)) ->
  In k (getAvailableMonths data) ->
  exists e name year,
    In e (getBreakdownByMonth (events_of data))
    /\ MonthEntry.month e = Some name
    /\ MonthEntry.year e = Some year
    /\ month_button_title k = (name ++ " " ++ year)%string
    /\ MonthEntry.count e = List.length (monthResources data k)
    /\ MonthEntry.monthly_savings e
       = ("$" ++ month_button_savings data k)%string.
Proof.
  intros Hy Hk.
  assert (Hg : monthResources data k
               = group (fun r => monthYear_of (deleted_at r)) k
                       (events_of data)).
  { unfold events_of in *.
    destruct (deleted_resources data) as [rs|] eqn:Hd.
    - apply (monthResources_available data rs Hd Hy k Hk).
    - rewrite (ExportFacts.getAvailableMonths_empty data (or_introl Hd)) in Hk.
      contradiction. }
  apply getAvailableMonths_in in Hk. destruct Hk as [r [Hin <-]].
  set (y := getFullYear LocalTZA (deleted_at r)).
  set (m := getMonth LocalTZA (deleted_at r) + 1).
  assert (Hm : 1 <= m <= 12) by apply getMonth_range.
  exists (month_entry
            (monthYear_of (deleted_at r),
             stats (group (fun x => monthYear_of (deleted_at x))
                          (monthYear_of (deleted_at r)) (events_of data)))),
         (month_name m), (Number_toString y).
  split; [apply (month_entry_of_event _ r Hin)|].
  unfold month_button_savings, monthSavings. rewrite Hg.
  change (monthYear_of (deleted_at r)) with (month_key y m).
  destruct (month_entry_labels y m
              (stats (group (fun x => monthYear_of (deleted_at x))
                            (month_key y m) (events_of data)))
              (Hy r Hin) Hm) as [-> ->].
  unfold month_button_title. cbv zeta.
  destruct (RoundTripFacts.month_key_labels y m (Hy r Hin) Hm)
    as [-> [_ ->]].
  repeat split.
Qed.

Lemma buttons_agree_with_month_breakdown_witness :
  exists e name year,
    In e (getBreakdownByMonth (host := Sample.utc_host)
            (events_of Sample.january_only))
    /\ MonthEntry.month e = Some name
    /\ MonthEntry.year e = Some year
    /\ month_button_title "2025-01" = (name ++ " " ++ year)%string
    /\ MonthEntry.count e
       = List.length (monthResources (host := Sample.utc_host)
                        Sample.january_only "2025-01")
    /\ MonthEntry.monthly_savings e
       = ("$" ++ month_button_savings (host := Sample.utc_host)
                   Sample.january_only "2025-01")%string.
Proof.
  refine (buttons_agree_with_month_breakdown (host := Sample.utc_host)
            Sample.january_only "2025-01" _ _).
  - intros r [<-|[<-|[]]]; vm_compute; discriminate.
  - vm_compute. now left.
Defined.

(** X12: on an engine that keeps one offset from UTC at every instant
    (no daylight saving), the offset within a day of UTC, the month of an
    event of the years 100 to 275759 is discovered, and asking for the
    discovered key gives the month's document, named after the year and
    the month, with the event among its records, provided the event is
    no later than the last labelled second of the month. When every
    event of the month falls in the 999 milliseconds after that second,
    the month is discovered all the same and asking for it gives the
    notice that nothing was deleted in it. *)
Theorem discovered_month_downloads {host : Host} (data : dashboard)
  (r : resource) (tza now : Z) :
  fixed_offset tza -> - msPerDay <= tza <= msPerDay ->
  In r (events_of data) ->
  100 <= getFullYear LocalTZA (deleted_at r) <= 275759 ->
  let y := getFullYear LocalTZA (deleted_at r) in
  let m := getMonth LocalTZA (deleted_at r) + 1 in
  let k := monthYear_of (deleted_at r) in
  In k (getAvailableMonths data)
  /\ (deleted_at r <= last_second y m ->
      exists doc,
        downloadMonthLog data k now
        = downloadJSON doc
            ("costguardian-" ++ Number_toString y ++ "-" ++ pad 2 m
               ++ "-log.json")
        /\ In (enrich data r) (Monthly.deleted_resources doc)
        /\ Monthly.month (Monthly.export_info doc) = Some (month_name m)
        /\ Monthly.year (Monthly.export_info doc)
           = Some (Number_toString y))
  /\ ((forall x, In x (events_of data) -> calendar_test y m x = true ->
                 last_second y m < deleted_at x) ->
      downloadMonthLog data k now
      = alert ("No resources deleted in " ++ month_name m ++ " "
                 ++ Number_toString y ++ ".")%string).
Proof.
  intros Hf Hz Hin Hy y m k.
  assert (Hm : 1 <= m <= 12) by apply getMonth_range.
  change k with (month_key y m).
  split; [|split].
  - apply getAvailableMonths_in. exists r. split; [exact Hin|reflexivity].
  - intros Hlast.
    assert (Hw : first_instant y m <= deleted_at r <= last_second y m).
    { split; [|exact Hlast].
      apply (MonthFacts.in_month_window Hf y m (deleted_at r) Hm).
      split; [reflexivity|]. unfold m. lia. }
    destruct (month_document tza Hf Hz data y m now r Hy Hm Hin Hw)
      as [-> Hr].
    eexists. split; [reflexivity|].
    cbn [monthly_document Monthly.deleted_resources Monthly.export_info
         Monthly.month Monthly.year].
    split; [apply in_map, Hr|]. split; [|reflexivity].
    apply (NoticeFacts.month_name_of_request _ m
             (ParseFacts.parseInt_month m Hm) Hm).
  - intros Hgap.
    apply (month_notice tza Hf Hz data y m now Hy Hm); [|exact Hgap].
    intros E. rewrite E in Hin. contradiction.
Qed.

Lemma discovered_month_downloads_witness :
  In "2025-01"
     (getAvailableMonths (host := Sample.utc_host)
        (Sample.with_events [Sample.last_half_second]))
  /\ downloadMonthLog (host := Sample.utc_host)
       (Sample.with_events [Sample.last_half_second]) "2025-01" Sample.june1
     = alert "No resources deleted in January 2025.".
Proof.
  destruct (discovered_month_downloads (host := Sample.utc_host)
              (Sample.with_events [Sample.last_half_second])
              Sample.last_half_second 0 Sample.june1) as [H1 [_ H2]].
  - intros t isUTC. reflexivity.
  - vm_compute. split; discriminate.
  - now left.
  - vm_compute. split; discriminate.
  - split; [exact H1|]. apply H2.
    intros x [<-|[]] _. vm_compute. reflexivity.
Defined.

(** ** The page that loads the data *)

(** X13: whatever the two requests of [fetchData] settle with, the page
    ends with the data of the [catch] branch and with [loading] off: the
    branch that would store the fetched data reads a name that is bound
    nowhere, which throws. The log downloader is then given no event:
    the button of the complete log is disabled, no month is listed, and
    both downloads would give the "no data" notice. *)
Theorem fetchData_always_falls_back
  (fetch : string -> Page.result Page.Response)
  (state : option Page.DashboardData * bool) :
  Page.fetchData fetch = [Page.setData Page.fallback; Page.setLoading false]
  /\ Page.run (Page.fetchData fetch) state = (Some Page.fallback, false)
  /\ (forall (host : Host) (monthYear : string) (now : Z),
        download_all_disabled (Page.to_dashboard Page.fallback) = true
        /\ getAvailableMonths (Page.to_dashboard Page.fallback) = []
        /\ downloadAllLogs (Page.to_dashboard Page.fallback) now
           = alert no_data_notice
        /\ downloadMonthLog (Page.to_dashboard Page.fallback) monthYear now
           = alert no_data_notice).
Proof.
  assert (H : Page.fetchData fetch
              = [Page.setData Page.fallback; Page.setLoading false]).
  { unfold Page.fetchData, Page.bind.
    destruct (fetch "/config.json") as [configResponse|?]; [|reflexivity].
    destruct (Page.json configResponse) as [config|?]; [|reflexivity].
    destruct (Page.github_repo_of config) as [repo|?]; [|reflexivity].
    destruct (fetch _); reflexivity. }
  split; [exact H|]. split; [rewrite H; reflexivity|].
  intros host monthYear now. repeat split.
Qed.

(** ** Local months and UTC days *)

Module ZoneFacts.

Import DateFacts MonthFacts KeyFacts BreakdownFacts.

Lemma first_day_fields (t y mn : Z) :
  0 <= mn <= 11 ->
  Day t = DayFromYear y + month_start (if leap y then 1 else 0) mn ->
  YearFromTime t = y /\ MonthFromTime t = mn /\ DateFromTime t = 1.
Proof.
  intros Hmn Hd.
  assert (H : YearFromTime t = y /\ MonthFromTime t = mn).
  { apply (in_month_iff t y mn Hmn).
    rewrite (MakeDay_first y mn Hmn), (MakeDay_next y mn Hmn), Hd.
    pose proof (month_start_step (if leap y then 1 else 0) (mn + 1)
                  (leap_flag y) ltac:(lia)) as Hs.
    replace (mn + 1 - 1) with mn in Hs by lia. lia. }
  destruct H as [Ey Em]. repeat split; auto.
  unfold DateFromTime, DayWithinYear, InLeapYear. rewrite Ey, Em, Hd. lia.
Qed.

Lemma MakeDay_fields (t y mo : Z) :
  Day t = MakeDay y mo 1 ->
  YearFromTime t = y + mo / 12
  /\ MonthFromTime t = mo mod 12
  /\ DateFromTime t = 1.
Proof.
  intros Hd. apply first_day_fields.
  - pose proof (Z.mod_pos_bound mo 12). lia.
  - rewrite Hd. unfold MakeDay. cbv zeta. lia.
Qed.

Section Zones.

Context {host : Host}.

Lemma Day_last_second (tza y m : Z) :
  fixed_offset tza -> - msPerDay <= tza <= -1000 ->
  Day (last_second y m) = MakeDay y m 1.
Proof.
  intros Hf Hz.
  assert (H : MakeDay y m 1 <= Day (last_second y m) < MakeDay y m 1 + 1);
    [|lia].
  apply Day_bounds.
  unfold last_second, UTC. rewrite !Hf.
  unfold MakeDate, MakeTime, msPerDay, msPerHour, msPerMinute,
    msPerSecond in *.
  lia.
Qed.

Lemma day_entry_of_event (rs : list resource) (r : resource) :
  In r rs ->
  In (day_entry
        (day_of (deleted_at r),
         stats (group (fun x => day_of (deleted_at x))
                      (day_of (deleted_at r)) rs)))
     (getBreakdownByDay rs).
Proof.
  intros Hin. unfold getBreakdownByDay. apply in_map.
  apply in_sorted_entries.
  apply (expected_of_event (fun x => day_of (deleted_at x)) rs r Hin).
  apply numeric_key_not_inherited, day_of_numeric.
Qed.

End Zones.

End ZoneFacts.

Import ZoneFacts.

(** X14: the months are cut in local time and the days in UTC. On an
    engine that keeps one offset from UTC at every instant (no daylight
    saving), the offset from a second to a day behind UTC, an event at
    the last labelled second of a month of the years 100 to 275759 has
    the month's key and is exported in the month's document, where the
    breakdown by day lists it under the first day of the month after. *)
Theorem last_evening_is_filed_under_next_month {host : Host}
  (data : dashboard) (tza y m now : Z) (r : resource) :
  fixed_offset tza -> - msPerDay <= tza <= -1000 ->
  100 <= y <= 275759 -> 1 <= m <= 12 ->
  In r (events_of data) -> deleted_at r = last_second y m ->
  monthYear_of (deleted_at r) = month_key y m
  /\ day_of (deleted_at r)
     = (iso_year (y + m / 12) ++ "-" ++ pad 2 (m mod 12 + 1) ++ "-01")%string
  /\ exists doc filename e,
       downloadMonthLog data (month_key y m) now = downloadJSON doc filename
       /\ In e (Monthly.breakdown_by_day (Monthly.summary_of doc))
       /\ DayEntry.date e
          = (iso_year (y + m / 12) ++ "-" ++ pad 2 (m mod 12 + 1) ++ "-01")
              %string.
Proof.
  intros Hf Hz Hy Hm Hin Ht.
  assert (Hzone : - msPerDay <= tza <= msPerDay)
    by (unfold msPerDay in *; lia).
  pose proof (MonthFacts.window_not_empty Hf y m Hm) as Hw.
  assert (Hmonth : in_month y m (deleted_at r))
    by (apply (MonthFacts.in_month_window Hf y m _ Hm); lia).
  assert (Hday : day_of (deleted_at r)
     = (iso_year (y + m / 12) ++ "-" ++ pad 2 (m mod 12 + 1) ++ "-01")
         %string).
  { rewrite KeyFacts.day_of_iso_date. unfold iso_date.
    destruct (MakeDay_fields (deleted_at r) y m) as [-> [-> ->]];
      [rewrite Ht; apply (Day_last_second tza y m Hf Hz)|reflexivity]. }
  split; [|split; [exact Hday|]].
  - destruct Hmonth as [Ey Em]. unfold monthYear_of. rewrite Ey, Em.
    now replace (m - 1 + 1) with m by lia.
  - destruct (month_document tza Hf Hzone data y m now r Hy Hm Hin)
      as [-> Hr]; [lia|].
    eexists _, _, _. split; [reflexivity|].
    cbn [monthly_document Monthly.summary_of Monthly.breakdown_by_day].
    split; [apply (day_entry_of_event _ r Hr)|].
    cbn [day_entry DayEntry.date]. exact Hday.
Qed.

Lemma last_evening_is_filed_under_next_month_witness :
  monthYear_of (host := Sample.est_host) 1738385999000 = "2025-01"
  /\ day_of 1738385999000 = "2025-02-01".
Proof.
  destruct (last_evening_is_filed_under_next_month (host := Sample.est_host)
              (Sample.with_events
                 [Sample.event "EC2 Instance" "i-10" 1738385999000
                    (Some 1%float) None None])
              (-18000000) 2025 1 Sample.june1
              (Sample.event "EC2 Instance" "i-10" 1738385999000
                 (Some 1%float) None None)) as [H1 [H2 _]].
  - intros t isUTC. reflexivity.
  - vm_compute. split; discriminate.
  - vm_compute. split; discriminate.
  - vm_compute. split; discriminate.
  - now left.
  - vm_compute. reflexivity.
  - split; [exact H1|exact H2].
Defined.

(** ** The breakdown by day *)

Module DayKeyFacts.

Import StringOrderFacts KeyFacts ParseFacts DateFacts OccurrenceFacts.

Lemma uint_of_zeros (k : nat) (s : string) :
  option_map N.of_uint (NilEmpty.uint_of_string (repeat_char k "0" ++ s))
  = option_map N.of_uint (NilEmpty.uint_of_string s).
Proof.
  induction k as [|k IH]; [reflexivity|].
  cbn [repeat_char String.append NilEmpty.uint_of_string].
  destruct (NilEmpty.uint_of_string (repeat_char k "0" ++ s)) as [d|];
    destruct (NilEmpty.uint_of_string s) as [d'|]; simpl in *;
    congruence.
Qed.

Lemma pad_digits (w : nat) (n : Z) :
  0 <= n -> all_chars is_digit (pad w n) = true.
Proof.
  intros H. apply padStart_chars; [reflexivity|].
  now apply Number_toString_nonneg_digits.
Qed.

Lemma pad_no_dash (w : nat) (n : Z) :
  0 <= n ->
  all_chars (fun c => negb (Ascii.eqb c "-")) (pad w n) = true.
Proof.
  intros H. exact (all_chars_weaken _ _ _ digit_not_dash (pad_digits w n H)).
Qed.

Lemma parseInt_pad (w : nat) (n : Z) :
  0 <= n -> parseInt (pad w n) = Some n.
Proof.
  intros H.
  rewrite parseInt_digits; [|apply pad_nonempty|apply (pad_digits w n H)].
  rewrite <- (parseInt_Number_toString n H).
  rewrite (parseInt_digits (Number_toString n));
    [|apply Number_toString_nonempty
     |now apply Number_toString_nonneg_digits].
  unfold pad, padStart.
  pose proof (uint_of_zeros (w - String.length (Number_toString n))
                (Number_toString n)) as Hu.
  destruct (NilEmpty.uint_of_string (repeat_char _ "0" ++ _)) as [d|];
    destruct (NilEmpty.uint_of_string (Number_toString n)) as [d'|];
    simpl in *; congruence.
Qed.

Lemma iso_date_of_day (t1 t2 : Z) :
  Day t1 = Day t2 -> iso_date t1 = iso_date t2.
Proof.
  intros H.
  unfold iso_date, DateFromTime, MonthFromTime, InLeapYear, DayWithinYear,
    YearFromTime.
  rewrite H. reflexivity.
Qed.

Lemma split_iso_date (t : Z) :
  0 <= YearFromTime t <= 9999 ->
  split "-" (iso_date t)
  = [pad 4 (YearFromTime t); pad 2 (MonthFromTime t + 1);
     pad 2 (DateFromTime t)].
Proof.
  intros Hy. unfold iso_date, iso_year.
  replace ((0 <=? YearFromTime t) && (YearFromTime t <=? 9999)) with true
    by (symmetry; apply andb_true_iff; split; apply Z.leb_le; lia).
  pose proof (MonthFromTime_range t) as Hm.
  pose proof (DayFacts.DateFromTime_range t) as Hd.
  change (pad 4 (YearFromTime t) ++ "-" ++ pad 2 (MonthFromTime t + 1)
            ++ "-" ++ pad 2 (DateFromTime t))%string
    with (pad 4 (YearFromTime t)
            ++ String "-" (pad 2 (MonthFromTime t + 1)
                             ++ String "-" (pad 2 (DateFromTime t))))%string.
  rewrite split_head by (apply pad_no_dash; lia).
  rewrite split_head by (apply pad_no_dash; lia).
  rewrite split_none by (apply pad_no_dash; lia).
  reflexivity.
Qed.

Lemma Day_of_fields (t : Z) :
  Day t = DayFromYear (YearFromTime t)
          + month_start (InLeapYear t) (MonthFromTime t)
          + DateFromTime t - 1.
Proof.
  unfold DateFromTime, DayWithinYear. lia.
Qed.

Lemma iso_date_inj (t1 t2 : Z) :
  0 <= YearFromTime t1 <= 9999 -> 0 <= YearFromTime t2 <= 9999 ->
  iso_date t1 = iso_date t2 -> Day t1 = Day t2.
Proof.
  intros H1 H2 E.
  pose proof (split_iso_date t1 H1) as S1.
  pose proof (split_iso_date t2 H2) as S2.
  rewrite E, S2 in S1. injection S1 as Ey Em Ed.
  pose proof (MonthFromTime_range t1). pose proof (MonthFromTime_range t2).
  pose proof (DayFacts.DateFromTime_range t1).
  pose proof (DayFacts.DateFromTime_range t2).
  apply (f_equal parseInt) in Ey, Em, Ed.
  rewrite !parseInt_pad in Ey, Em, Ed by lia.
  injection Ey as Ey. injection Em as Em. injection Ed as Ed.
  rewrite (Day_of_fields t1), (Day_of_fields t2).
  unfold InLeapYear. rewrite Ey, Ed.
  replace (MonthFromTime t1) with (MonthFromTime t2) by lia.
  reflexivity.
Qed.

Lemma day_of_same_day (t1 t2 : Z) :
  0 <= YearFromTime t1 <= 9999 -> 0 <= YearFromTime t2 <= 9999 ->
  String.eqb (day_of t1) (day_of t2) = (Day t1 =? Day t2).
Proof.
  intros H1 H2. rewrite !day_of_iso_date. apply eq_true_iff_eq.
  rewrite String.eqb_eq, Z.eqb_eq. split.
  - apply iso_date_inj; assumption.
  - apply iso_date_of_day.
Qed.

End DayKeyFacts.

Import DayKeyFacts.

(** X15: when the events lie in the years 0 to 9999 of UTC,
    [getBreakdownByDay] has, for every event, an entry dated with the
    UTC day of the event; the entry counts the events of that UTC day
    and prints the sum of their monthly savings, and its readable date
    is made of its date by the engine's locale. *)
Theorem day_breakdown_counts_utc_days {host : Host} (rs : list resource)
  (r : resource) :
  (forall x, In x rs -> 0 <= YearFromTime (deleted_at x) <= 9999) ->
  In r rs ->
  let same_day x := Day (deleted_at x) =? Day (deleted_at r) in
  exists e,
    In e (getBreakdownByDay rs)
    /\ DayEntry.date e = iso_date (deleted_at r)
    /\ DayEntry.date_readable e = toLocaleDateString (iso_date (deleted_at r))
    /\ DayEntry.count e = List.length (filter same_day rs)
    /\ DayEntry.monthly_savings e
       = ("$" ++ toFixed2 (sum_over monthly_or_zero (filter same_day rs)))
           %string.
Proof.
  intros Hy Hin same_day.
  exists (day_entry
            (day_of (deleted_at r),
             stats (group (fun x => day_of (deleted_at x))
                          (day_of (deleted_at r)) rs))).
  split; [apply day_entry_of_event, Hin|].
  assert (Hg : group (fun x => day_of (deleted_at x))
                     (day_of (deleted_at r)) rs
               = filter same_day rs).
  { unfold group. apply filter_ext_in. intros x Hx.
    apply day_of_same_day; auto. }
  rewrite Hg. cbn [day_entry DayEntry.date DayEntry.date_readable
                   DayEntry.count DayEntry.monthly_savings].
  rewrite KeyFacts.day_of_iso_date. repeat split.
Qed.

Lemma day_breakdown_counts_utc_days_witness :
  exists e,
    In e (getBreakdownByDay (host := Sample.est_host)
            [Sample.nat_gateway; Sample.elastic_ip; Sample.zero_annual])
    /\ DayEntry.date e = "2025-01-15"
    /\ DayEntry.date_readable e = "2025-01-15"
    /\ DayEntry.count e = 2%nat
    /\ DayEntry.monthly_savings e = "$42.40".
Proof.
  refine (day_breakdown_counts_utc_days (host := Sample.est_host)
            [Sample.nat_gateway; Sample.elastic_ip; Sample.zero_annual]
            Sample.nat_gateway _ (or_introl eq_refl)).
  intros x [<-|[<-|[<-|[]]]]; vm_compute; split; discriminate.
Defined.

(** ** One month per event *)

(** X16: on an engine that keeps one offset from UTC at every instant
    (no daylight saving), the offset within a day of UTC, no event is
    exported in the documents of two months: for months of the years 100
    to 275759, an event that the filter of one month keeps is kept by
    the filter of no other month, and the month that keeps it is the one
    the event's key names. *)
Theorem monthly_documents_are_disjoint {host : Host} (rs : list resource)
  (tza y1 m1 y2 m2 : Z) (r : resource) :
  fixed_offset tza -> - msPerDay <= tza <= msPerDay ->
  100 <= y1 <= 275759 -> 1 <= m1 <= 12 ->
  100 <= y2 <= 275759 -> 1 <= m2 <= 12 ->
  In r (filter_month (month_key y1 m1) rs) ->
  In r (filter_month (month_key y2 m2) rs) ->
  (y1 = y2 /\ m1 = m2) /\ monthYear_of (deleted_at r) = month_key y1 m1.
Proof.
  intros Hf Hz Hy1 Hm1 Hy2 Hm2 H1 H2.
  apply (MonthFacts.filter_month_spec Hf Hz y1 m1 rs r Hy1 Hm1) in H1.
  apply (MonthFacts.filter_month_spec Hf Hz y2 m2 rs r Hy2 Hm2) in H2.
  assert (I1 : in_month y1 m1 (deleted_at r))
    by (apply (MonthFacts.in_month_window Hf y1 m1 _ Hm1); lia).
  assert (I2 : in_month y2 m2 (deleted_at r))
    by (apply (MonthFacts.in_month_window Hf y2 m2 _ Hm2); lia).
  destruct I1 as [Ey1 Em1]. destruct I2 as [Ey2 Em2].
  split; [split; lia|].
  unfold monthYear_of. rewrite Ey1, Em1.
  now replace (m1 - 1 + 1) with m1 by lia.
Qed.

Lemma monthly_documents_are_disjoint_witness :
  monthYear_of (host := Sample.est_host) (deleted_at Sample.nat_gateway)
  = month_key 2025 1.
Proof.
  refine (proj2 (monthly_documents_are_disjoint (host := Sample.est_host)
                   [Sample.nat_gateway; Sample.ebs_volume]
                   (-18000000) 2025 1 2025 1 Sample.nat_gateway
                   _ _ _ _ _ _ _ _));
    [intros t isUTC; reflexivity|..];
    try (vm_compute; split; discriminate);
    vm_compute; now left.
Defined.
